(** * libfsntfs: the file-system facade (libfsntfs/libfsntfs_file_system.c)

    A shallow embedding of the functions of [libfsntfs_file_system.c] and
    the properties of the facade they implement.

    Conventions of the embedding.

    - A C pointer that may be NULL is an [option]; the pointee is the value
      under [Some].  A [T **] argument is an [option (option T)].
    - The functions of the file return an [int]; the embedding returns that
      [int] as a [Z] together with the objects the call may have written:
      the facade, the file IO handle and the error.
    - [libcerror_error_t] is the trace of the [(domain, code)] pairs handed
      to [libcerror_error_set], oldest first.
    - The functions of other compilation units (libfsntfs_mft.c, libfdata,
      libfcache, libuna, ...) are fields of the class [Externals]; nothing
      is assumed about what they compute. *)

From Stdlib Require Import ZArith List Bool Lia String.
From Stdlib.Strings Require Import Byte.
Import ListNotations.
Open Scope Z_scope.

(** ** libcerror *)

Inductive libcerror_error_domain : Type :=
| LIBCERROR_ERROR_DOMAIN_ARGUMENTS
| LIBCERROR_ERROR_DOMAIN_IO
| LIBCERROR_ERROR_DOMAIN_MEMORY
| LIBCERROR_ERROR_DOMAIN_RUNTIME.

Inductive libcerror_error_code : Type :=
| LIBCERROR_ARGUMENT_ERROR_INVALID_VALUE
| LIBCERROR_IO_ERROR_READ_FAILED
| LIBCERROR_MEMORY_ERROR_INSUFFICIENT
| LIBCERROR_MEMORY_ERROR_SET_FAILED
| LIBCERROR_RUNTIME_ERROR_VALUE_MISSING
| LIBCERROR_RUNTIME_ERROR_VALUE_ALREADY_SET
| LIBCERROR_RUNTIME_ERROR_INITIALIZE_FAILED
| LIBCERROR_RUNTIME_ERROR_FINALIZE_FAILED
| LIBCERROR_RUNTIME_ERROR_GET_FAILED
| LIBCERROR_RUNTIME_ERROR_SET_FAILED
| LIBCERROR_RUNTIME_ERROR_APPEND_FAILED
| LIBCERROR_RUNTIME_ERROR_VALUE_OUT_OF_BOUNDS
| LIBCERROR_RUNTIME_ERROR_VALUE_EXCEEDS_MAXIMUM
| LIBCERROR_RUNTIME_ERROR_GENERIC.

Definition libcerror_error_t : Type :=
  list (libcerror_error_domain * libcerror_error_code).

Definition libcerror_error_set (error : libcerror_error_t)
  (error_domain : libcerror_error_domain) (error_code : libcerror_error_code)
  : libcerror_error_t :=
  error ++ [(error_domain, error_code)].

(** ** Constants of the headers *)

(** <stdint.h> *)
Definition INT64_MAX : Z := 9223372036854775807.

(** Modelled from the spec: libfsntfs_definitions.h is not part of the
    sources at hand; "MFT_ONLY (bit 0)". *)
Definition LIBFSNTFS_FILE_ENTRY_FLAGS_MFT_ONLY : Z := 1.

(** Modelled from the spec: "Reads MFT entry 6 ($Bitmap)", "Reads MFT entry 9
    ($Secure)"; the macros are in libfsntfs_definitions.h. *)
Definition LIBFSNTFS_MFT_ENTRY_INDEX_BITMAP : Z := 6.
Definition LIBFSNTFS_MFT_ENTRY_INDEX_SECURE : Z := 9.

(** ** Types of the other compilation units *)

Class ExternalTypes : Type := {
  libbfio_handle_t : Type;
  libcthreads_read_write_lock_t : Type;
  libfdata_vector_t : Type;
  libfcache_cache_t : Type;
  libfsntfs_mft_attribute_t : Type;
  libfsntfs_mft_entry_t : Type;
  libfsntfs_file_name_values_t : Type;
  libfsntfs_security_descriptor_index_t : Type;
  libfsntfs_security_descriptor_values_t : Type;
  (* the members of those structures this file reads *)
  data_attribute : libfsntfs_mft_entry_t -> option libfsntfs_mft_attribute_t;
  file_name_attribute_index : libfsntfs_mft_entry_t -> Z;
  name : libfsntfs_file_name_values_t -> option (list byte);
  name_size : libfsntfs_file_name_values_t -> Z
}.

(** The members of [libfsntfs_io_handle_t] this file reads. *)
Record libfsntfs_io_handle_t : Type := {
  mft_entry_size : Z;      (* uint32_t *)
  cluster_block_size : Z   (* an unsigned integer *)
}.

(** The members of [libfsntfs_cluster_block_t] this file reads. *)
Record libfsntfs_cluster_block_t : Type := {
  data : option (list byte);   (* uint8_t *data *)
  data_size : Z                (* size_t data_size *)
}.

(** Modelled from the spec: libfsntfs_mft.h is not part of the sources at
    hand.  "MFT: reference to I/O handle, entry count, base offset, bounded
    entry cache, shared data stream reading entry 0's $DATA".  This file
    writes the member [number_of_mft_entries] (line 379). *)
Record libfsntfs_mft_t `{ExternalTypes} : Type := {
  mft_entry_vector : libfdata_vector_t;
  mft_entry_cache : libfcache_cache_t;
  number_of_mft_entries : Z   (* uint64_t *)
}.

(** [libfsntfs_file_system_t]: the facade.  The read/write lock is a member
    only when HAVE_LIBFSNTFS_MULTI_THREAD_SUPPORT is defined; the embedding
    keeps the member and lets the build flag decide whether it is used. *)
Record libfsntfs_file_system_t `{ExternalTypes} : Type := {
  mft : option libfsntfs_mft_t;
  security_descriptor_index : option libfsntfs_security_descriptor_index_t;
  read_write_lock : option libcthreads_read_write_lock_t
}.

Definition set_mft `{ExternalTypes} (file_system : libfsntfs_file_system_t)
  (value : option libfsntfs_mft_t) : libfsntfs_file_system_t :=
  {| mft := value;
     security_descriptor_index := security_descriptor_index file_system;
     read_write_lock := read_write_lock file_system |}.

Definition set_security_descriptor_index `{ExternalTypes}
  (file_system : libfsntfs_file_system_t)
  (value : option libfsntfs_security_descriptor_index_t)
  : libfsntfs_file_system_t :=
  {| mft := mft file_system;
     security_descriptor_index := value;
     read_write_lock := read_write_lock file_system |}.

Definition set_number_of_mft_entries `{ExternalTypes}
  (m : libfsntfs_mft_t) (value : Z) : libfsntfs_mft_t :=
  {| mft_entry_vector := mft_entry_vector m;
     mft_entry_cache := mft_entry_cache m;
     number_of_mft_entries := value |}.

(** ** Functions of the other compilation units

    Every function returns its [int] result as a [Z] (1 is success), then the
    objects it received by pointer as it leaves them, then the entries it
    hands to [libcerror_error_set].

    A constructor ([..._initialize]) receives the address of a pointer that
    is NULL; it is [Some] of the new object when it returns 1 and [None]
    when it does not, the contract [libfsntfs_file_system_initialize] below
    follows on every path.  A destructor ([..._free]) leaves the pointer
    NULL whatever it returns, as [libfsntfs_file_system_free] does.

    A function that receives nothing the facade holds (an allocation, the
    creation of a lock or of an empty object) is given by its outcome in the
    call under study.  In C two calls of such a function can differ: no
    statement below derives the outcome of a second call from a first one. *)
Class Externals `{ExternalTypes} : Type := {
  (* build and platform *)
  HAVE_LIBFSNTFS_MULTI_THREAD_SUPPORT : bool;
  INT_MAX : Z;
  SSIZE_MAX : Z;
  (* memory.h *)
  memory_allocate_structure : bool;   (* false: NULL was returned *)
  memory_set : bool;                  (* false: NULL was returned *)
  (* libcthreads *)
  libcthreads_read_write_lock_initialize :
    option libcthreads_read_write_lock_t * libcerror_error_t;
  libcthreads_read_write_lock_free :
    option libcthreads_read_write_lock_t -> Z * libcerror_error_t;
  (* libfsntfs_mft *)
  libfsntfs_mft_initialize :
    libfsntfs_io_handle_t -> Z -> Z -> Z -> Z ->
    option libfsntfs_mft_t * libcerror_error_t;
  libfsntfs_mft_free : libfsntfs_mft_t -> Z * libcerror_error_t;
  libfsntfs_mft_read_mft_entry :
    libfsntfs_mft_t -> libfsntfs_io_handle_t -> libbfio_handle_t ->
    Z -> Z -> libfsntfs_mft_entry_t -> Z ->
    Z * libfsntfs_mft_t * libbfio_handle_t * libfsntfs_mft_entry_t
    * libcerror_error_t;
  libfsntfs_mft_set_data_runs :
    libfsntfs_mft_t -> libfsntfs_mft_entry_t ->
    Z * libfsntfs_mft_t * libcerror_error_t;
  libfsntfs_mft_get_mft_entry_by_index :
    option libfsntfs_mft_t -> libbfio_handle_t -> Z ->
    Z * option libfsntfs_mft_t * libbfio_handle_t
    * option libfsntfs_mft_entry_t * libcerror_error_t;
  libfsntfs_mft_get_mft_entry_by_index_no_cache :
    option libfsntfs_mft_t -> libbfio_handle_t -> Z ->
    Z * option libfsntfs_mft_t * libbfio_handle_t
    * option libfsntfs_mft_entry_t * libcerror_error_t;
  (* libfsntfs_mft_entry *)
  libfsntfs_mft_entry_initialize :
    option libfsntfs_mft_entry_t * libcerror_error_t;
  libfsntfs_mft_entry_free : libfsntfs_mft_entry_t -> Z * libcerror_error_t;
  libfsntfs_mft_entry_get_attribute_by_index :
    libfsntfs_mft_entry_t -> Z ->
    Z * option libfsntfs_mft_attribute_t * libcerror_error_t;
  libfsntfs_mft_entry_get_alternate_data_attribute_by_utf8_name :
    libfsntfs_mft_entry_t -> string -> Z ->
    Z * option libfsntfs_mft_attribute_t * libcerror_error_t;
  (* libfsntfs_file_name_values, libfsntfs_name *)
  libfsntfs_file_name_values_initialize :
    option libfsntfs_file_name_values_t * libcerror_error_t;
  libfsntfs_file_name_values_free :
    libfsntfs_file_name_values_t -> Z * libcerror_error_t;
  libfsntfs_file_name_values_read_from_mft_attribute :
    libfsntfs_file_name_values_t -> option libfsntfs_mft_attribute_t ->
    Z * libfsntfs_file_name_values_t * libcerror_error_t;
  libfsntfs_name_compare_with_utf8_string :
    option (list byte) -> Z -> string -> Z -> Z -> Z * libcerror_error_t;
  LIBUNA_COMPARE_EQUAL : Z;
  (* libfsntfs_security_descriptor_index *)
  libfsntfs_security_descriptor_index_initialize :
    option libfsntfs_io_handle_t -> libbfio_handle_t ->
    option libfsntfs_mft_attribute_t ->
    option libfsntfs_security_descriptor_index_t * libbfio_handle_t
    * libcerror_error_t;
  libfsntfs_security_descriptor_index_free :
    libfsntfs_security_descriptor_index_t -> Z * libcerror_error_t;
  libfsntfs_security_descriptor_index_read_sii_index :
    libfsntfs_security_descriptor_index_t -> option libfsntfs_io_handle_t ->
    libbfio_handle_t -> libfsntfs_mft_entry_t ->
    Z * libfsntfs_security_descriptor_index_t * libbfio_handle_t
    * libcerror_error_t;
  libfsntfs_security_descriptor_index_get_entry_by_identifier :
    libfsntfs_security_descriptor_index_t -> libbfio_handle_t -> Z ->
    Z * libfsntfs_security_descriptor_index_t * libbfio_handle_t
    * option libfsntfs_security_descriptor_values_t * libcerror_error_t;
  (* libfsntfs_cluster_block_vector, libfdata, libfcache *)
  libfsntfs_cluster_block_vector_initialize :
    libfsntfs_io_handle_t -> libfsntfs_mft_attribute_t ->
    option libfdata_vector_t * libcerror_error_t;
  libfcache_cache_initialize :
    Z -> option libfcache_cache_t * libcerror_error_t;
  libfdata_vector_get_number_of_elements :
    libfdata_vector_t -> Z * Z * libcerror_error_t;
  libfdata_vector_get_element_value_by_index :
    libfdata_vector_t -> libbfio_handle_t -> libfcache_cache_t -> Z -> Z ->
    Z * libfdata_vector_t * libbfio_handle_t * libfcache_cache_t
    * option libfsntfs_cluster_block_t * libcerror_error_t;
  libfdata_vector_free : libfdata_vector_t -> Z * libcerror_error_t;
  libfcache_cache_free : libfcache_cache_t -> Z * libcerror_error_t
}.

Section FileSystem.

Context {T : ExternalTypes} {E : Externals}.

(** What every function of the file hands back. *)
Definition returned : Type :=
  (Z * option libfsntfs_file_system_t * libbfio_handle_t * libcerror_error_t)%type.

(** ** libfsntfs_file_system_initialize (lines 45-132) *)
Definition libfsntfs_file_system_initialize
  (file_system : option (option libfsntfs_file_system_t))
  (error : libcerror_error_t)
  : Z * option (option libfsntfs_file_system_t) * libcerror_error_t :=
  match file_system with
  | None =>
      (-1, None,
       libcerror_error_set error LIBCERROR_ERROR_DOMAIN_ARGUMENTS
         LIBCERROR_ARGUMENT_ERROR_INVALID_VALUE)
  | Some (Some fs) =>
      (-1, Some (Some fs),
       libcerror_error_set error LIBCERROR_ERROR_DOMAIN_RUNTIME
         LIBCERROR_RUNTIME_ERROR_VALUE_ALREADY_SET)
  | Some None =>
      if negb memory_allocate_structure then
        (-1, Some None,
         libcerror_error_set error LIBCERROR_ERROR_DOMAIN_MEMORY
           LIBCERROR_MEMORY_ERROR_INSUFFICIENT)
      else if negb memory_set then
        (-1, Some None,
         libcerror_error_set error LIBCERROR_ERROR_DOMAIN_MEMORY
           LIBCERROR_MEMORY_ERROR_SET_FAILED)
      else if HAVE_LIBFSNTFS_MULTI_THREAD_SUPPORT then
        match libcthreads_read_write_lock_initialize with
        | (Some lock, raised) =>
            (1, Some (Some {| mft := None;
                              security_descriptor_index := None;
                              read_write_lock := Some lock |}),
             error ++ raised)
        | (None, raised) =>
            (-1, Some None,
             libcerror_error_set (error ++ raised)
               LIBCERROR_ERROR_DOMAIN_RUNTIME
               LIBCERROR_RUNTIME_ERROR_INITIALIZE_FAILED)
        end
      else
        (1, Some (Some {| mft := None;
                          security_descriptor_index := None;
                          read_write_lock := None |}), error)
  end.

(** ** libfsntfs_file_system_free (lines 137-210) *)
Definition libfsntfs_file_system_free
  (file_system : option (option libfsntfs_file_system_t))
  (error : libcerror_error_t)
  : Z * option (option libfsntfs_file_system_t) * libcerror_error_t :=
  let result := 1 in
  match file_system with
  | None =>
      (-1, None,
       libcerror_error_set error LIBCERROR_ERROR_DOMAIN_ARGUMENTS
         LIBCERROR_ARGUMENT_ERROR_INVALID_VALUE)
  | Some None => (result, Some None, error)
  | Some (Some fs) =>
      let '(result, error) :=
        if HAVE_LIBFSNTFS_MULTI_THREAD_SUPPORT then
          let '(r, raised) :=
            libcthreads_read_write_lock_free (read_write_lock fs) in
          if negb (r =? 1) then
            (-1, libcerror_error_set (error ++ raised)
                   LIBCERROR_ERROR_DOMAIN_RUNTIME
                   LIBCERROR_RUNTIME_ERROR_FINALIZE_FAILED)
          else (result, error ++ raised)
        else (result, error) in
      let '(result, error) :=
        match security_descriptor_index fs with
        | Some index =>
            let '(r, raised) :=
              libfsntfs_security_descriptor_index_free index in
            if negb (r =? 1) then
              (-1, libcerror_error_set (error ++ raised)
                     LIBCERROR_ERROR_DOMAIN_RUNTIME
                     LIBCERROR_RUNTIME_ERROR_FINALIZE_FAILED)
            else (result, error ++ raised)
        | None => (result, error)
        end in
      let '(result, error) :=
        match mft fs with
        | Some m =>
            let '(r, raised) := libfsntfs_mft_free m in
            if negb (r =? 1) then
              (-1, libcerror_error_set (error ++ raised)
                     LIBCERROR_ERROR_DOMAIN_RUNTIME
                     LIBCERROR_RUNTIME_ERROR_FINALIZE_FAILED)
            else (result, error ++ raised)
        | None => (result, error)
        end in
      (result, Some None, error)
  end.

(** ** libfsntfs_file_system_read_mft (lines 215-404) *)

(** Lines 283-404: what the function does once its arguments are accepted.
    [file_system->mft] is NULL on entry.  The label [on_error] releases the
    local [mft_entry] only.

    Line 366 divides by [io_handle->mft_entry_size].  With a size of 0 the
    C code divides by zero there and does not return, while the division of
    [Z] gives 0: the function below is the C function for an
    [mft_entry_size] that is not 0, and a statement about what a call in
    MFT-only mode returns past that line assumes it. *)
Definition read_mft_bootstrap
  (file_system : libfsntfs_file_system_t) (io_handle : libfsntfs_io_handle_t)
  (file_io_handle : libbfio_handle_t) (mft_offset mft_size flags : Z)
  (error : libcerror_error_t) : returned :=
  let '(created, raised) :=
    libfsntfs_mft_initialize io_handle mft_offset mft_size
      (mft_entry_size io_handle) flags in
  let error := error ++ raised in
  match created with
  | None =>
      (-1, Some file_system, file_io_handle,
       libcerror_error_set error LIBCERROR_ERROR_DOMAIN_RUNTIME
         LIBCERROR_RUNTIME_ERROR_INITIALIZE_FAILED)
  | Some m =>
      let file_system := set_mft file_system (Some m) in
      let '(created, raised) := libfsntfs_mft_entry_initialize in
      let error := error ++ raised in
      match created with
      | None =>
          (-1, Some file_system, file_io_handle,
           libcerror_error_set error LIBCERROR_ERROR_DOMAIN_RUNTIME
             LIBCERROR_RUNTIME_ERROR_INITIALIZE_FAILED)
      | Some mft_entry =>
          let '(r, m, file_io_handle, mft_entry, raised) :=
            libfsntfs_mft_read_mft_entry m io_handle file_io_handle
              mft_offset 0 mft_entry flags in
          let file_system := set_mft file_system (Some m) in
          let error := error ++ raised in
          if negb (r =? 1) then
            (-1, Some file_system, file_io_handle,
             libcerror_error_set error LIBCERROR_ERROR_DOMAIN_IO
               LIBCERROR_IO_ERROR_READ_FAILED)
          else
            let finish (file_system : libfsntfs_file_system_t)
                       (error : libcerror_error_t) : returned :=
              let '(r, raised) := libfsntfs_mft_entry_free mft_entry in
              let error := error ++ raised in
              if negb (r =? 1) then
                (-1, Some file_system, file_io_handle,
                 libcerror_error_set error LIBCERROR_ERROR_DOMAIN_RUNTIME
                   LIBCERROR_RUNTIME_ERROR_FINALIZE_FAILED)
              else (1, Some file_system, file_io_handle, error) in
            if Z.land flags LIBFSNTFS_FILE_ENTRY_FLAGS_MFT_ONLY =? 0 then
              let '(r, m, raised) := libfsntfs_mft_set_data_runs m mft_entry in
              let file_system := set_mft file_system (Some m) in
              let error := error ++ raised in
              if negb (r =? 1) then
                (-1, Some file_system, file_io_handle,
                 libcerror_error_set error LIBCERROR_ERROR_DOMAIN_RUNTIME
                   LIBCERROR_RUNTIME_ERROR_SET_FAILED)
              else finish file_system error
            else
              match data_attribute mft_entry with
              | None =>
                  (-1, Some file_system, file_io_handle,
                   libcerror_error_set error LIBCERROR_ERROR_DOMAIN_RUNTIME
                     LIBCERROR_RUNTIME_ERROR_VALUE_MISSING)
              | Some _ =>
                  let number_of_mft_entries :=
                    mft_size / mft_entry_size io_handle in
                  if number_of_mft_entries >? INT_MAX then
                    (-1, Some file_system, file_io_handle,
                     libcerror_error_set error LIBCERROR_ERROR_DOMAIN_RUNTIME
                       LIBCERROR_RUNTIME_ERROR_VALUE_OUT_OF_BOUNDS)
                  else
                    finish
                      (set_mft file_system
                         (Some (set_number_of_mft_entries m
                                  number_of_mft_entries)))
                      error
              end
      end
  end.

(** [mft_offset] is an [off64_t], [mft_size] a [size64_t] and [flags] a
    [uint8_t]: the values of those types are the arguments the function can
    receive.  The division of line 366 is the one of C for them as long as
    [io_handle->mft_entry_size] is not 0. *)
Definition libfsntfs_file_system_read_mft
  (file_system : option libfsntfs_file_system_t)
  (io_handle : option libfsntfs_io_handle_t)
  (file_io_handle : libbfio_handle_t) (mft_offset mft_size flags : Z)
  (error : libcerror_error_t) : returned :=
  match file_system with
  | None =>
      (-1, None, file_io_handle,
       libcerror_error_set error LIBCERROR_ERROR_DOMAIN_ARGUMENTS
         LIBCERROR_ARGUMENT_ERROR_INVALID_VALUE)
  | Some fs =>
      match mft fs with
      | Some _ =>
          (-1, Some fs, file_io_handle,
           libcerror_error_set error LIBCERROR_ERROR_DOMAIN_RUNTIME
             LIBCERROR_RUNTIME_ERROR_VALUE_ALREADY_SET)
      | None =>
          match io_handle with
          | None =>
              (-1, Some fs, file_io_handle,
               libcerror_error_set error LIBCERROR_ERROR_DOMAIN_ARGUMENTS
                 LIBCERROR_ARGUMENT_ERROR_INVALID_VALUE)
          | Some io =>
              if mft_offset <? 0 then
                (-1, Some fs, file_io_handle,
                 libcerror_error_set error LIBCERROR_ERROR_DOMAIN_RUNTIME
                   LIBCERROR_RUNTIME_ERROR_VALUE_OUT_OF_BOUNDS)
              else if mft_size >? INT64_MAX then
                (-1, Some fs, file_io_handle,
                 libcerror_error_set error LIBCERROR_ERROR_DOMAIN_RUNTIME
                   LIBCERROR_RUNTIME_ERROR_VALUE_EXCEEDS_MAXIMUM)
              else
                read_mft_bootstrap fs io file_io_handle mft_offset mft_size
                  flags error
          end
      end
  end.

(** Modelled from the spec: [libfsntfs_mft_get_number_of_entries] is a
    function of libfsntfs_mft.c, which is not part of the sources at hand.
    "number_of_entries - as recorded at bootstrap"; a NULL MFT is an invalid
    argument, as for every function of the library. *)
Definition libfsntfs_mft_get_number_of_entries
  (m : option libfsntfs_mft_t) : Z * option Z * libcerror_error_t :=
  match m with
  | None =>
      (-1, None,
       [(LIBCERROR_ERROR_DOMAIN_ARGUMENTS,
         LIBCERROR_ARGUMENT_ERROR_INVALID_VALUE)])
  | Some m => (1, Some (number_of_mft_entries m), [])
  end.

(** ** libfsntfs_file_system_get_number_of_mft_entries (lines 970-1003)
    The second component is what the call stores in [*number_of_mft_entries]. *)
Definition libfsntfs_file_system_get_number_of_mft_entries
  (file_system : option libfsntfs_file_system_t) (error : libcerror_error_t)
  : Z * option Z * libcerror_error_t :=
  match file_system with
  | None =>
      (-1, None,
       libcerror_error_set error LIBCERROR_ERROR_DOMAIN_ARGUMENTS
         LIBCERROR_ARGUMENT_ERROR_INVALID_VALUE)
  | Some fs =>
      let '(r, value, raised) :=
        libfsntfs_mft_get_number_of_entries (mft fs) in
      if negb (r =? 1) then
        (-1, value,
         libcerror_error_set (error ++ raised) LIBCERROR_ERROR_DOMAIN_RUNTIME
           LIBCERROR_RUNTIME_ERROR_GET_FAILED)
      else (1, value, error ++ raised)
  end.

(** ** libfsntfs_file_system_read_bitmap (lines 409-751) *)

(** byte_stream.h: [byte_stream_copy_to_uint32_little_endian].  A read past
    the end of [data] is undefined in C and gives the byte 0 here. *)
Definition byte_at (data : list byte) (offset : Z) : Z :=
  Z.of_N (Byte.to_N (nth (Z.to_nat offset) data x00)).

Definition byte_stream_copy_to_uint32_little_endian
  (data : list byte) (offset : Z) : Z :=
  let value := byte_at data (offset + 3) in
  let value := Z.shiftl value 8 in
  let value := Z.lor value (byte_at data (offset + 2)) in
  let value := Z.shiftl value 8 in
  let value := Z.lor value (byte_at data (offset + 1)) in
  let value := Z.shiftl value 8 in
  Z.lor value (byte_at data offset).

(** The value an [off64_t] takes when a sum is stored in it: the sum itself
    when it is in the range of the type, the sum modulo 2^64 otherwise. *)
Definition to_off64 (z : Z) : Z :=
  (z + 9223372036854775808) mod 18446744073709551616 - 9223372036854775808.

(** The locals of the scan.  [offset_ranges] lists the ranges
    [(start_offset, bitmap_offset)] in the order the scan closes them: what
    the debug output prints (lines 627-633 and 674-680) and what the
    commented-out [libfsntfs_offset_list_append_offset] calls would
    record. *)
Record bitmap_scan : Type := {
  start_offset : Z;
  bitmap_offset : Z;
  offset_ranges : list (Z * Z)
}.

(** Lines 620-665: one turn of the loop over [bit_index]. *)
Definition scan_bit (io_handle : libfsntfs_io_handle_t) (value_32bit : Z)
  (scan : bitmap_scan) : bitmap_scan :=
  let scan :=
    if Z.land value_32bit 1 =? 0 then
      if start_offset scan >=? 0 then
        {| start_offset := -1;
           bitmap_offset := bitmap_offset scan;
           offset_ranges :=
             offset_ranges scan ++ [(start_offset scan, bitmap_offset scan)] |}
      else scan
    else
      if start_offset scan <? 0 then
        {| start_offset := bitmap_offset scan;
           bitmap_offset := bitmap_offset scan;
           offset_ranges := offset_ranges scan |}
      else scan in
  {| start_offset := start_offset scan;
     bitmap_offset :=
       to_off64 (bitmap_offset scan + cluster_block_size io_handle);
     offset_ranges := offset_ranges scan |}.

(** Lines 616-666: the loop over [bit_index], [bits] turns left. *)
Fixpoint scan_value_32bit (bits : nat) (io_handle : libfsntfs_io_handle_t)
  (value_32bit : Z) (scan : bitmap_scan) : bitmap_scan :=
  match bits with
  | O => scan
  | S bits =>
      scan_value_32bit bits io_handle (Z.shiftr value_32bit 1)
        (scan_bit io_handle value_32bit scan)
  end.

(** Lines 610-668: the loop over [cluster_block_data_offset].  Every turn
    adds 4 to the offset, so the loop of a block of [data_size] bytes is over
    within [Z.to_nat data_size] turns ([scan_words_fuel] below). *)
Fixpoint scan_words (fuel : nat) (io_handle : libfsntfs_io_handle_t)
  (block_data : list byte) (block_data_size : Z)
  (cluster_block_data_offset : Z) (scan : bitmap_scan) : bitmap_scan :=
  match fuel with
  | O => scan
  | S fuel =>
      if cluster_block_data_offset <? block_data_size then
        scan_words fuel io_handle block_data block_data_size
          (cluster_block_data_offset + 4)
          (scan_value_32bit 32 io_handle
             (byte_stream_copy_to_uint32_little_endian block_data
                cluster_block_data_offset)
             scan)
      else scan
  end.

(** Lines 607-700: the scan of one cluster block. *)
Definition scan_cluster_block (io_handle : libfsntfs_io_handle_t)
  (block_data : list byte) (block_data_size : Z) (scan : bitmap_scan)
  : bitmap_scan :=
  let scan :=
    {| start_offset := -1;
       bitmap_offset := bitmap_offset scan;
       offset_ranges := offset_ranges scan |} in
  let scan :=
    scan_words (Z.to_nat block_data_size) io_handle block_data
      block_data_size 0 scan in
  if start_offset scan >=? 0 then
    {| start_offset := start_offset scan;
       bitmap_offset := bitmap_offset scan;
       offset_ranges :=
         offset_ranges scan ++ [(start_offset scan, bitmap_offset scan)] |}
  else scan.

(** What the loop over the cluster blocks leaves behind. *)
Record bitmap_blocks : Type := {
  blocks_completed : bool;       (* false: the loop left through on_error *)
  blocks_index : Z;              (* cluster_block_index *)
  blocks_vector : libfdata_vector_t;
  blocks_file_io_handle : libbfio_handle_t;
  blocks_cache : libfcache_cache_t;
  blocks_scan : bitmap_scan;
  blocks_error : libcerror_error_t
}.

(** Lines 534-708: the loop over [cluster_block_index], [remaining] turns
    left. *)
Fixpoint read_bitmap_blocks (remaining : nat)
  (io_handle : libfsntfs_io_handle_t) (cluster_block_vector : libfdata_vector_t)
  (file_io_handle : libbfio_handle_t) (cluster_block_cache : libfcache_cache_t)
  (cluster_block_index : Z) (scan : bitmap_scan) (error : libcerror_error_t)
  : bitmap_blocks :=
  match remaining with
  | O =>
      {| blocks_completed := true; blocks_index := cluster_block_index;
         blocks_vector := cluster_block_vector;
         blocks_file_io_handle := file_io_handle;
         blocks_cache := cluster_block_cache;
         blocks_scan := scan; blocks_error := error |}
  | S remaining =>
      let '(r, cluster_block_vector, file_io_handle, cluster_block_cache,
            cluster_block, raised) :=
        libfdata_vector_get_element_value_by_index cluster_block_vector
          file_io_handle cluster_block_cache cluster_block_index 0 in
      let error := error ++ raised in
      let failed (error_code : libcerror_error_code) :=
        {| blocks_completed := false; blocks_index := cluster_block_index;
           blocks_vector := cluster_block_vector;
           blocks_file_io_handle := file_io_handle;
           blocks_cache := cluster_block_cache;
           blocks_scan := scan;
           blocks_error :=
             libcerror_error_set error LIBCERROR_ERROR_DOMAIN_RUNTIME
               error_code |} in
      if negb (r =? 1) then failed LIBCERROR_RUNTIME_ERROR_GET_FAILED
      else
        match cluster_block with
        | None => failed LIBCERROR_RUNTIME_ERROR_VALUE_MISSING
        | Some cluster_block =>
            match data cluster_block with
            | None => failed LIBCERROR_RUNTIME_ERROR_VALUE_MISSING
            | Some block_data =>
                if negb (data_size cluster_block mod 4 =? 0)
                   || (data_size cluster_block >? SSIZE_MAX)
                then failed LIBCERROR_RUNTIME_ERROR_VALUE_OUT_OF_BOUNDS
                else
                  read_bitmap_blocks remaining io_handle cluster_block_vector
                    file_io_handle cluster_block_cache
                    (cluster_block_index + 1)
                    (scan_cluster_block io_handle block_data
                       (data_size cluster_block) scan)
                    error
            end
        end
  end.

Definition libfsntfs_file_system_read_bitmap
  (file_system : option libfsntfs_file_system_t)
  (io_handle : option libfsntfs_io_handle_t)
  (file_io_handle : libbfio_handle_t) (error : libcerror_error_t)
  : returned :=
  match file_system with
  | None =>
      (-1, None, file_io_handle,
       libcerror_error_set error LIBCERROR_ERROR_DOMAIN_ARGUMENTS
         LIBCERROR_ARGUMENT_ERROR_INVALID_VALUE)
  | Some fs =>
      match io_handle with
      | None =>
          (-1, Some fs, file_io_handle,
           libcerror_error_set error LIBCERROR_ERROR_DOMAIN_ARGUMENTS
             LIBCERROR_ARGUMENT_ERROR_INVALID_VALUE)
      | Some io =>
          let '(r, m, file_io_handle, mft_entry, raised) :=
            libfsntfs_mft_get_mft_entry_by_index (mft fs) file_io_handle
              LIBFSNTFS_MFT_ENTRY_INDEX_BITMAP in
          let fs := set_mft fs m in
          let error := error ++ raised in
          let on_error (file_io_handle : libbfio_handle_t)
                       (error : libcerror_error_t)
                       (error_code : libcerror_error_code) : returned :=
            (-1, Some fs, file_io_handle,
             libcerror_error_set error LIBCERROR_ERROR_DOMAIN_RUNTIME
               error_code) in
          if negb (r =? 1) then
            on_error file_io_handle error LIBCERROR_RUNTIME_ERROR_GET_FAILED
          else
            match mft_entry with
            | None =>
                on_error file_io_handle error
                  LIBCERROR_RUNTIME_ERROR_VALUE_MISSING
            | Some mft_entry =>
                match data_attribute mft_entry with
                | None =>
                    on_error file_io_handle error
                      LIBCERROR_RUNTIME_ERROR_VALUE_MISSING
                | Some attribute =>
                    let '(created, raised) :=
                      libfsntfs_cluster_block_vector_initialize io attribute in
                    let error := error ++ raised in
                    match created with
                    | None =>
                        on_error file_io_handle error
                          LIBCERROR_RUNTIME_ERROR_INITIALIZE_FAILED
                    | Some cluster_block_vector =>
                        let '(created, raised) :=
                          libfcache_cache_initialize 1 in
                        let error := error ++ raised in
                        match created with
                        | None =>
                            on_error file_io_handle error
                              LIBCERROR_RUNTIME_ERROR_INITIALIZE_FAILED
                        | Some cluster_block_cache =>
                            let '(r, number_of_cluster_blocks, raised) :=
                              libfdata_vector_get_number_of_elements
                                cluster_block_vector in
                            let error := error ++ raised in
                            if negb (r =? 1) then
                              on_error file_io_handle error
                                LIBCERROR_RUNTIME_ERROR_GET_FAILED
                            else
                              let blocks :=
                                read_bitmap_blocks
                                  (Z.to_nat number_of_cluster_blocks) io
                                  cluster_block_vector file_io_handle
                                  cluster_block_cache 0
                                  {| start_offset := 0; bitmap_offset := 0;
                                     offset_ranges := [] |}
                                  error in
                              let file_io_handle :=
                                blocks_file_io_handle blocks in
                              let error := blocks_error blocks in
                              if negb (blocks_completed blocks) then
                                (-1, Some fs, file_io_handle, error)
                              else
                                let '(r, raised) :=
                                  libfdata_vector_free (blocks_vector blocks) in
                                let error := error ++ raised in
                                if negb (r =? 1) then
                                  on_error file_io_handle error
                                    LIBCERROR_RUNTIME_ERROR_FINALIZE_FAILED
                                else
                                  let '(r, raised) :=
                                    libfcache_cache_free (blocks_cache blocks) in
                                  let error := error ++ raised in
                                  if negb (r =? 1) then
                                    on_error file_io_handle error
                                      LIBCERROR_RUNTIME_ERROR_FINALIZE_FAILED
                                  else (1, Some fs, file_io_handle, error)
                        end
                    end
                end
            end
      end
  end.

(** ** libfsntfs_file_system_read_security_descriptors (lines 756-965) *)

(** Lines 951-964, the label [on_error]: a security descriptor index that is
    set is released (with a NULL error, so nothing is added to the trace);
    the local file name values are released too. *)
Definition read_security_descriptors_on_error
  (file_system : libfsntfs_file_system_t) (file_io_handle : libbfio_handle_t)
  (error : libcerror_error_t) : returned :=
  (-1, Some (set_security_descriptor_index file_system None), file_io_handle,
   error).

Definition libfsntfs_file_system_read_security_descriptors
  (file_system : option libfsntfs_file_system_t)
  (io_handle : option libfsntfs_io_handle_t)
  (file_io_handle : libbfio_handle_t) (error : libcerror_error_t)
  : returned :=
  match file_system with
  | None =>
      (-1, None, file_io_handle,
       libcerror_error_set error LIBCERROR_ERROR_DOMAIN_ARGUMENTS
         LIBCERROR_ARGUMENT_ERROR_INVALID_VALUE)
  | Some fs =>
      match security_descriptor_index fs with
      | Some _ =>
          (-1, Some fs, file_io_handle,
           libcerror_error_set error LIBCERROR_ERROR_DOMAIN_RUNTIME
             LIBCERROR_RUNTIME_ERROR_VALUE_ALREADY_SET)
      | None =>
          let '(r, m, file_io_handle, mft_entry, raised) :=
            libfsntfs_mft_get_mft_entry_by_index (mft fs) file_io_handle
              LIBFSNTFS_MFT_ENTRY_INDEX_SECURE in
          let fs := set_mft fs m in
          let error := error ++ raised in
          if negb (r =? 1) then
            read_security_descriptors_on_error fs file_io_handle
              (libcerror_error_set error LIBCERROR_ERROR_DOMAIN_RUNTIME
                 LIBCERROR_RUNTIME_ERROR_GET_FAILED)
          else
            match mft_entry with
            | None =>
                read_security_descriptors_on_error fs file_io_handle
                  (libcerror_error_set error LIBCERROR_ERROR_DOMAIN_RUNTIME
                     LIBCERROR_RUNTIME_ERROR_VALUE_MISSING)
            | Some mft_entry =>
                let '(r, mft_attribute, raised) :=
                  libfsntfs_mft_entry_get_attribute_by_index mft_entry
                    (file_name_attribute_index mft_entry) in
                let error := error ++ raised in
                if negb (r =? 1) then
                  read_security_descriptors_on_error fs file_io_handle
                    (libcerror_error_set error LIBCERROR_ERROR_DOMAIN_RUNTIME
                       LIBCERROR_RUNTIME_ERROR_GET_FAILED)
                else
                  let '(created, raised) :=
                    libfsntfs_file_name_values_initialize in
                  let error := error ++ raised in
                  match created with
                  | None =>
                      read_security_descriptors_on_error fs file_io_handle
                        (libcerror_error_set error
                           LIBCERROR_ERROR_DOMAIN_RUNTIME
                           LIBCERROR_RUNTIME_ERROR_INITIALIZE_FAILED)
                  | Some file_name_values =>
                      let '(r, file_name_values, raised) :=
                        libfsntfs_file_name_values_read_from_mft_attribute
                          file_name_values mft_attribute in
                      let error := error ++ raised in
                      if negb (r =? 1) then
                        read_security_descriptors_on_error fs file_io_handle
                          (libcerror_error_set error
                             LIBCERROR_ERROR_DOMAIN_IO
                             LIBCERROR_IO_ERROR_READ_FAILED)
                      else
                        let finish (fs : libfsntfs_file_system_t)
                                   (file_io_handle : libbfio_handle_t)
                                   (error : libcerror_error_t) : returned :=
                          let '(r, raised) :=
                            libfsntfs_file_name_values_free file_name_values in
                          let error := error ++ raised in
                          if negb (r =? 1) then
                            read_security_descriptors_on_error fs
                              file_io_handle
                              (libcerror_error_set error
                                 LIBCERROR_ERROR_DOMAIN_RUNTIME
                                 LIBCERROR_RUNTIME_ERROR_FINALIZE_FAILED)
                          else (1, Some fs, file_io_handle, error) in
                        let '(result, raised) :=
                          libfsntfs_name_compare_with_utf8_string
                            (name file_name_values)
                            (name_size file_name_values) "$Secure" 7 1 in
                        let error := error ++ raised in
                        if result =? -1 then
                          read_security_descriptors_on_error fs file_io_handle
                            (libcerror_error_set error
                               LIBCERROR_ERROR_DOMAIN_RUNTIME
                               LIBCERROR_RUNTIME_ERROR_GENERIC)
                        else if result =? LIBUNA_COMPARE_EQUAL then
                          let '(r, sds_attribute, raised) :=
                            libfsntfs_mft_entry_get_alternate_data_attribute_by_utf8_name
                              mft_entry "$SDS" 4 in
                          let error := error ++ raised in
                          if negb (r =? 1) then
                            read_security_descriptors_on_error fs
                              file_io_handle
                              (libcerror_error_set error
                                 LIBCERROR_ERROR_DOMAIN_RUNTIME
                                 LIBCERROR_RUNTIME_ERROR_GET_FAILED)
                          else
                            let '(created, file_io_handle, raised) :=
                              libfsntfs_security_descriptor_index_initialize
                                io_handle file_io_handle sds_attribute in
                            let error := error ++ raised in
                            match created with
                            | None =>
                                read_security_descriptors_on_error fs
                                  file_io_handle
                                  (libcerror_error_set error
                                     LIBCERROR_ERROR_DOMAIN_RUNTIME
                                     LIBCERROR_RUNTIME_ERROR_INITIALIZE_FAILED)
                            | Some index =>
                                let '(r, index, file_io_handle, raised) :=
                                  libfsntfs_security_descriptor_index_read_sii_index
                                    index io_handle file_io_handle mft_entry in
                                let fs :=
                                  set_security_descriptor_index fs
                                    (Some index) in
                                let error := error ++ raised in
                                if negb (r =? 1) then
                                  read_security_descriptors_on_error fs
                                    file_io_handle
                                    (libcerror_error_set error
                                       LIBCERROR_ERROR_DOMAIN_IO
                                       LIBCERROR_IO_ERROR_READ_FAILED)
                                else finish fs file_io_handle error
                            end
                        else finish fs file_io_handle error
                  end
            end
      end
  end.

(** ** libfsntfs_file_system_get_mft_entry_by_index (lines 1008-1046) *)
Definition libfsntfs_file_system_get_mft_entry_by_index
  (file_system : option libfsntfs_file_system_t)
  (file_io_handle : libbfio_handle_t) (mft_entry_index : Z)
  (error : libcerror_error_t)
  : returned * option libfsntfs_mft_entry_t :=
  match file_system with
  | None =>
      ((-1, None, file_io_handle,
        libcerror_error_set error LIBCERROR_ERROR_DOMAIN_ARGUMENTS
          LIBCERROR_ARGUMENT_ERROR_INVALID_VALUE), None)
  | Some fs =>
      let '(r, m, file_io_handle, mft_entry, raised) :=
        libfsntfs_mft_get_mft_entry_by_index (mft fs) file_io_handle
          mft_entry_index in
      let fs := set_mft fs m in
      if negb (r =? 1) then
        ((-1, Some fs, file_io_handle,
          libcerror_error_set (error ++ raised) LIBCERROR_ERROR_DOMAIN_RUNTIME
            LIBCERROR_RUNTIME_ERROR_GET_FAILED), mft_entry)
      else ((1, Some fs, file_io_handle, error ++ raised), mft_entry)
  end.

(** ** libfsntfs_file_system_get_mft_entry_by_index_no_cache
    (lines 1052-1090) *)
Definition libfsntfs_file_system_get_mft_entry_by_index_no_cache
  (file_system : option libfsntfs_file_system_t)
  (file_io_handle : libbfio_handle_t) (mft_entry_index : Z)
  (error : libcerror_error_t)
  : returned * option libfsntfs_mft_entry_t :=
  match file_system with
  | None =>
      ((-1, None, file_io_handle,
        libcerror_error_set error LIBCERROR_ERROR_DOMAIN_ARGUMENTS
          LIBCERROR_ARGUMENT_ERROR_INVALID_VALUE), None)
  | Some fs =>
      let '(r, m, file_io_handle, mft_entry, raised) :=
        libfsntfs_mft_get_mft_entry_by_index_no_cache (mft fs) file_io_handle
          mft_entry_index in
      let fs := set_mft fs m in
      if negb (r =? 1) then
        ((-1, Some fs, file_io_handle,
          libcerror_error_set (error ++ raised) LIBCERROR_ERROR_DOMAIN_RUNTIME
            LIBCERROR_RUNTIME_ERROR_GET_FAILED), mft_entry)
      else ((1, Some fs, file_io_handle, error ++ raised), mft_entry)
  end.

(** ** libfsntfs_file_system_get_security_descriptor_values_by_identifier
    (lines 1096-1140).  The last component is what the call stores in
    [*security_descriptor_values]; [None] when it stores nothing. *)
Definition libfsntfs_file_system_get_security_descriptor_values_by_identifier
  (file_system : option libfsntfs_file_system_t)
  (file_io_handle : libbfio_handle_t) (security_descriptor_identifier : Z)
  (error : libcerror_error_t)
  : returned * option libfsntfs_security_descriptor_values_t :=
  let result := 0 in
  match file_system with
  | None =>
      ((-1, None, file_io_handle,
        libcerror_error_set error LIBCERROR_ERROR_DOMAIN_ARGUMENTS
          LIBCERROR_ARGUMENT_ERROR_INVALID_VALUE), None)
  | Some fs =>
      match security_descriptor_index fs with
      | Some index =>
          let '(result, index, file_io_handle, values, raised) :=
            libfsntfs_security_descriptor_index_get_entry_by_identifier index
              file_io_handle security_descriptor_identifier in
          let fs := set_security_descriptor_index fs (Some index) in
          if result =? -1 then
            ((-1, Some fs, file_io_handle,
              libcerror_error_set (error ++ raised)
                LIBCERROR_ERROR_DOMAIN_RUNTIME
                LIBCERROR_RUNTIME_ERROR_GET_FAILED), values)
          else ((result, Some fs, file_io_handle, error ++ raised), values)
      | None => ((result, Some fs, file_io_handle, error), None)
      end
  end.

(** ** Notions used to state the properties *)

(** The default of [last] on an error that is not empty. *)
Definition no_error : libcerror_error_domain * libcerror_error_code :=
  (LIBCERROR_ERROR_DOMAIN_RUNTIME, LIBCERROR_RUNTIME_ERROR_GENERIC).

(** The result and the cluster block of each call of
    [libfdata_vector_get_element_value_by_index] in a loop over the cluster
    blocks that takes [remaining] turns. *)
Fixpoint retrieved_blocks (remaining : nat)
  (cluster_block_vector : libfdata_vector_t)
  (file_io_handle : libbfio_handle_t) (cluster_block_cache : libfcache_cache_t)
  (cluster_block_index : Z) : list (Z * option libfsntfs_cluster_block_t) :=
  match remaining with
  | O => []
  | S remaining =>
      let '(r, cluster_block_vector, file_io_handle, cluster_block_cache,
            cluster_block, _) :=
        libfdata_vector_get_element_value_by_index cluster_block_vector
          file_io_handle cluster_block_cache cluster_block_index 0 in
      (r, cluster_block)
      :: retrieved_blocks remaining cluster_block_vector file_io_handle
           cluster_block_cache (cluster_block_index + 1)
  end.

(** The call returned 1 and a cluster block with data. *)
Definition block_scanned (retrieved : Z * option libfsntfs_cluster_block_t)
  : Prop :=
  fst retrieved = 1
  /\ exists cluster_block block_data,
       snd retrieved = Some cluster_block
       /\ data cluster_block = Some block_data.

Definition block_size (retrieved : Z * option libfsntfs_cluster_block_t)
  : Z :=
  match snd retrieved with
  | Some cluster_block => data_size cluster_block
  | None => 0
  end.

(** The size of the payload: the sizes of the cluster blocks added up. *)
Definition payload_size
  (retrieved : list (Z * option libfsntfs_cluster_block_t)) : Z :=
  fold_right (fun block total => block_size block + total) 0 retrieved.



End FileSystem.

(** * Two environments that differ in the bits of the bitmap

    [same_block_shape]: two cluster blocks of the same size, both with or
    both without data.  [differ_in_bitmap_bytes]: the functions
    [libfsntfs_file_system_read_bitmap] calls are the same in both
    environments, but the bytes of the cluster blocks
    [libfdata_vector_get_element_value_by_index] hands out may differ. *)



(** * The bitmap as the scan reads it

    [bitmap_bit]: bit [c] of the bytes of a cluster block, little endian;
    bit [k] of the 32-bit word [w] is bit [32 * w + k]
    ([bitmap_word_testbit] below).  [covered]: an offset lies in one of the
    ranges.  [scan_flag] and [scan_flags] are the loop over [bit_index] on
    the bits the loop tests, [block_flags] the bits of the words of a
    cluster block in the order the scan tests them. *)

Definition bitmap_bit (block_data : list byte) (cluster : Z) : bool :=
  Z.testbit (byte_at block_data (cluster / 8)) (cluster mod 8).

Definition bitmap_word (block_data : list byte) (word_index : nat) : Z :=
  byte_stream_copy_to_uint32_little_endian block_data
    (4 * Z.of_nat word_index).

Definition covered (ranges : list (Z * Z)) (offset : Z) : Prop :=
  exists first_offset end_offset,
    In (first_offset, end_offset) ranges
    /\ first_offset <= offset < end_offset.

Definition scan_flag (io_handle : libfsntfs_io_handle_t) (allocated : bool)
  (scan : bitmap_scan) : bitmap_scan :=
  let scan :=
    if negb allocated then
      if start_offset scan >=? 0 then
        {| start_offset := -1;
           bitmap_offset := bitmap_offset scan;
           offset_ranges :=
             offset_ranges scan ++ [(start_offset scan, bitmap_offset scan)] |}
      else scan
    else
      if start_offset scan <? 0 then
        {| start_offset := bitmap_offset scan;
           bitmap_offset := bitmap_offset scan;
           offset_ranges := offset_ranges scan |}
      else scan in
  {| start_offset := start_offset scan;
     bitmap_offset :=
       to_off64 (bitmap_offset scan + cluster_block_size io_handle);
     offset_ranges := offset_ranges scan |}.

Definition scan_flags (io_handle : libfsntfs_io_handle_t)
  (flags : list bool) (scan : bitmap_scan) : bitmap_scan :=
  fold_left (fun scan allocated => scan_flag io_handle allocated scan)
    flags scan.

Definition value_flags (bits : nat) (value_32bit : Z) : list bool :=
  map (fun bit_index => Z.testbit value_32bit (Z.of_nat bit_index))
    (seq 0 bits).

Fixpoint block_flags (block_data : list byte) (first_word words : nat)
  : list bool :=
  match words with
  | O => []
  | S words =>
      value_flags 32 (bitmap_word block_data first_word)
      ++ block_flags block_data (S first_word) words
  end.

(** [j] is the first of a run of set flags, when the flag before [flags] is
    not set. *)
Definition first_of_run (flags : list bool) (j : nat) : Prop :=
  (j < List.length flags)%nat
  /\ nth j flags false = true
  /\ forall i, j = S i -> nth i flags false = false.

(** * The loop over the cluster blocks, block by block

    [block_accepted]: the cluster block passes the tests of lines 538-593.
    [rejection_code]: the code of the error the first of those tests that
    fails sets.  [scan_blocks]: the scans of the cluster blocks one after
    the other, as the loop of lines 534-708 chains them.  [payload_bytes]:
    the bytes of the cluster blocks one after the other. *)

Definition block_accepted {T : ExternalTypes} {E : Externals}
  (retrieved : Z * option libfsntfs_cluster_block_t) : Prop :=
  block_scanned retrieved
  /\ block_size retrieved mod 4 = 0
  /\ block_size retrieved <= SSIZE_MAX.

Definition rejection_code
  (retrieved : Z * option libfsntfs_cluster_block_t) : libcerror_error_code :=
  if negb (fst retrieved =? 1) then LIBCERROR_RUNTIME_ERROR_GET_FAILED
  else
    match snd retrieved with
    | None => LIBCERROR_RUNTIME_ERROR_VALUE_MISSING
    | Some cluster_block =>
        match data cluster_block with
        | None => LIBCERROR_RUNTIME_ERROR_VALUE_MISSING
        | Some _ => LIBCERROR_RUNTIME_ERROR_VALUE_OUT_OF_BOUNDS
        end
    end.

Definition block_bytes (retrieved : Z * option libfsntfs_cluster_block_t)
  : list byte :=
  match snd retrieved with
  | Some cluster_block =>
      match data cluster_block with
      | Some block_data => block_data
      | None => []
      end
  | None => []
  end.

Definition scan_blocks (io_handle : libfsntfs_io_handle_t)
  (blocks : list (Z * option libfsntfs_cluster_block_t)) (scan : bitmap_scan)
  : bitmap_scan :=
  fold_left
    (fun scan block =>
       scan_cluster_block io_handle (block_bytes block) (block_size block)
         scan)
    blocks scan.

Definition payload_bytes
  (blocks : list (Z * option libfsntfs_cluster_block_t)) : list byte :=
  List.concat (map block_bytes blocks).

(** The block has as many bytes as its size says, a multiple of 4. *)
Definition block_whole (retrieved : Z * option libfsntfs_cluster_block_t)
  : Prop :=
  block_size retrieved mod 4 = 0
  /\ Z.of_nat (List.length (block_bytes retrieved)) = block_size retrieved.

(** * Results and errors

    [reported]: the result is 1 or -1, the error received is the beginning
    of the error returned, and a result of -1 comes with at least one more
    entry.  [facade_after]: the facade a call leaves. *)

Definition reported (r : Z) (error error' : libcerror_error_t) : Prop :=
  (r = 1 \/ r = -1)
  /\ exists added, error' = error ++ added /\ (r = -1 -> added <> []).

Definition facade_after {T : ExternalTypes}
  (returned :
     Z * option libfsntfs_file_system_t * libbfio_handle_t
     * libcerror_error_t)
  : option libfsntfs_file_system_t :=
  snd (fst (fst returned)).

(** What the call of a destructor adds to the error of
    [libfsntfs_file_system_free]: the entries of the destructor, and an
    entry of the facade when the destructor did not return 1. *)
Definition destructor_trace (freed : Z * libcerror_error_t)
  : libcerror_error_t :=
  snd freed
  ++ (if fst freed =? 1 then []
      else [(LIBCERROR_ERROR_DOMAIN_RUNTIME,
             LIBCERROR_RUNTIME_ERROR_FINALIZE_FAILED)]).



(** * A concrete environment

    A small volume on which the facade can be run: the file IO handle counts
    the reads issued through it, a vector is the number of its elements, a
    cache the number of values it went through, an attribute is its payload
    as text.  The volume says what the reads find. *)

Module Sample.

#[local] Open Scope string_scope.
#[local] Open Scope Z_scope.

Record sample_entry : Type := {
  entry_data : option string;   (* the unnamed $DATA attribute *)
  entry_name_index : Z;
  entry_name : string           (* the name in the $FILE_NAME attribute *)
}.

Record volume : Type := {
  entry_0 : option sample_entry;        (* None: the record is corrupt *)
  entries : list (Z * sample_entry);    (* the entries the MFT finds *)
  bitmap : list libfsntfs_cluster_block_t;
  descriptors : list (Z * list byte)    (* $SII: identifier, descriptor *)
}.

Definition types : ExternalTypes :=
  {| libbfio_handle_t := Z;
     libcthreads_read_write_lock_t := unit;
     libfdata_vector_t := Z;
     libfcache_cache_t := Z;
     libfsntfs_mft_attribute_t := string;
     libfsntfs_mft_entry_t := sample_entry;
     libfsntfs_file_name_values_t := string;
     libfsntfs_security_descriptor_index_t := list (Z * list byte);
     libfsntfs_security_descriptor_values_t := list byte;
     data_attribute := entry_data;
     file_name_attribute_index := entry_name_index;
     name := fun values => Some (list_byte_of_string values);
     name_size := fun values => Z.of_nat (String.length values) |}.

#[local] Existing Instance types.

Definition invalid_argument : libcerror_error_t :=
  [(LIBCERROR_ERROR_DOMAIN_ARGUMENTS, LIBCERROR_ARGUMENT_ERROR_INVALID_VALUE)].

Definition find_entry (v : volume) (mft_entry_index : Z)
  : option sample_entry :=
  option_map snd (find (fun e => fst e =? mft_entry_index) (entries v)).

Definition get_mft_entry (v : volume) (m : option (@libfsntfs_mft_t types))
  (file_io_handle : Z) (mft_entry_index : Z)
  : Z * option (@libfsntfs_mft_t types) * Z * option sample_entry
    * libcerror_error_t :=
  match m with
  | None => (-1, None, file_io_handle, None, invalid_argument)
  | Some m =>
      match find_entry v mft_entry_index with
      | Some e =>
          (1,
           Some {| mft_entry_vector := mft_entry_vector m;
                   mft_entry_cache := mft_entry_cache m + 1;
                   number_of_mft_entries := number_of_mft_entries m |},
           file_io_handle + 1, Some e, [])
      | None =>
          (-1, Some m, file_io_handle + 1, None,
           [(LIBCERROR_ERROR_DOMAIN_IO, LIBCERROR_IO_ERROR_READ_FAILED)])
      end
  end.

(** The MFT [libfsntfs_mft_initialize] creates and the MFT entry
    [libfsntfs_mft_entry_initialize] creates. *)
Definition stub_mft : @libfsntfs_mft_t types :=
  {| mft_entry_vector := 1; mft_entry_cache := 0;
     number_of_mft_entries := 0 |}.

Definition empty_entry : sample_entry :=
  {| entry_data := None; entry_name_index := 0; entry_name := EmptyString |}.

Definition externals (v : volume) : @Externals types :=
  {| HAVE_LIBFSNTFS_MULTI_THREAD_SUPPORT := true;
     INT_MAX := 2147483647;
     SSIZE_MAX := 9223372036854775807;
     memory_allocate_structure := true;
     memory_set := true;
     libcthreads_read_write_lock_initialize := (Some tt, []);
     libcthreads_read_write_lock_free := fun _ => (1, []);
     libfsntfs_mft_initialize := fun _ _ _ _ _ => (Some stub_mft, []);
     libfsntfs_mft_free := fun _ => (1, []);
     libfsntfs_mft_read_mft_entry := fun m _ file_io_handle _ _ e _ =>
       match entry_0 v with
       | Some e0 => (1, m, file_io_handle + 1, e0, [])
       | None =>
           (-1, m, file_io_handle + 1, e,
            [(LIBCERROR_ERROR_DOMAIN_RUNTIME,
              LIBCERROR_RUNTIME_ERROR_VALUE_OUT_OF_BOUNDS)])
       end;
     libfsntfs_mft_set_data_runs := fun m _ =>
       (1,
        {| mft_entry_vector := 1 + Z.of_nat (List.length (entries v));
           mft_entry_cache := mft_entry_cache m;
           number_of_mft_entries := 1 + Z.of_nat (List.length (entries v)) |},
        []);
     libfsntfs_mft_get_mft_entry_by_index := get_mft_entry v;
     libfsntfs_mft_get_mft_entry_by_index_no_cache := get_mft_entry v;
     libfsntfs_mft_entry_initialize := (Some empty_entry, []);
     libfsntfs_mft_entry_free := fun _ => (1, []);
     libfsntfs_mft_entry_get_attribute_by_index := fun e _ =>
       (1, Some (entry_name e), []);
     libfsntfs_mft_entry_get_alternate_data_attribute_by_utf8_name :=
       fun _ utf8_name _ => (1, Some utf8_name, []);
     libfsntfs_file_name_values_initialize := (Some EmptyString, []);
     libfsntfs_file_name_values_free := fun _ => (1, []);
     libfsntfs_file_name_values_read_from_mft_attribute := fun values a =>
       match a with
       | Some a => (1, a, [])
       | None => (-1, values, invalid_argument)
       end;
     libfsntfs_name_compare_with_utf8_string := fun n _ utf8_string _ _ =>
       match n with
       | Some n =>
           (if String.eqb (string_of_list_byte n) utf8_string then 1 else 0,
            [])
       | None => (-1, invalid_argument)
       end;
     LIBUNA_COMPARE_EQUAL := 1;
     libfsntfs_security_descriptor_index_initialize :=
       fun _ file_io_handle _ => (Some [], file_io_handle, []);
     libfsntfs_security_descriptor_index_free := fun _ => (1, []);
     libfsntfs_security_descriptor_index_read_sii_index :=
       fun _ _ file_io_handle _ =>
         (1, descriptors v, file_io_handle + 1, []);
     libfsntfs_security_descriptor_index_get_entry_by_identifier :=
       fun index file_io_handle identifier =>
         match find (fun d => fst d =? identifier) index with
         | Some d => (1, index, file_io_handle + 1, Some (snd d), [])
         | None => (0, index, file_io_handle + 1, None, [])
         end;
     libfsntfs_cluster_block_vector_initialize := fun _ _ =>
       (Some (Z.of_nat (List.length (bitmap v))), []);
     libfcache_cache_initialize := fun _ => (Some 0, []);
     libfdata_vector_get_number_of_elements := fun vector => (1, vector, []);
     libfdata_vector_get_element_value_by_index :=
       fun vector file_io_handle cache element_index _ =>
         match nth_error (bitmap v) (Z.to_nat element_index) with
         | Some block =>
             (1, vector, file_io_handle + 1, cache + 1, Some block, [])
         | None =>
             (-1, vector, file_io_handle, cache, None, invalid_argument)
         end;
     libfdata_vector_free := fun _ => (1, []);
     libfcache_cache_free := fun _ => (1, []) |}.

(** The facade [libfsntfs_file_system_initialize] creates here. *)
Definition new_file_system : @libfsntfs_file_system_t types :=
  {| mft := None; security_descriptor_index := None;
     read_write_lock := Some tt |}.

(** The facade [libfsntfs_file_system_read_mft] makes of it on
    [ntfs_volume] and on [legacy_volume]. *)
Definition mounted_mft (lookups : Z) : @libfsntfs_mft_t types :=
  {| mft_entry_vector := 4; mft_entry_cache := lookups;
     number_of_mft_entries := 4 |}.

Definition mounted (lookups : Z) (index : option (list (Z * list byte)))
  : @libfsntfs_file_system_t types :=
  {| mft := Some (mounted_mft lookups);
     security_descriptor_index := index;
     read_write_lock := Some tt |}.

Definition mounted_file_system : @libfsntfs_file_system_t types :=
  mounted 0 None.

Definition io_handle : libfsntfs_io_handle_t :=
  {| mft_entry_size := 1024; cluster_block_size := 4096 |}.

Definition file_entry (data : option string) (file_name : string)
  : sample_entry :=
  {| entry_data := data; entry_name_index := 1; entry_name := file_name |}.

(** A volume with its system files. *)
Definition ntfs_volume : volume :=
  {| entry_0 := Some (file_entry (Some "mft") "$MFT");
     entries :=
       [(0, file_entry (Some "mft") "$MFT");
        (6, file_entry (Some "bitmap") "$Bitmap");
        (9, file_entry None "$Secure")];
     bitmap :=
       [{| data := Some [x0f; x00; x00; xf0; xff; x01; x00; x00];
           data_size := 8 |};
        {| data := Some [x03; x00; x00; x00]; data_size := 4 |}];
     descriptors := [(256, [x01; x00; x04; x80])] |}.


(** A volume of before $Secure: entry 9 carries another name. *)
Definition legacy_volume : volume :=
  {| entry_0 := Some (file_entry (Some "mft") "$MFT");
     entries :=
       [(0, file_entry (Some "mft") "$MFT");
        (6, file_entry (Some "bitmap") "$Bitmap");
        (9, file_entry None "$Quota")];
     bitmap := [];
     descriptors := [] |}.

(** A volume whose MFT entry 0 cannot be read. *)
Definition corrupt_volume : volume :=
  {| entry_0 := None; entries := []; bitmap := []; descriptors := [] |}.

(** An MFT blob whose entry 0 has no unnamed $DATA attribute. *)
Definition no_data_volume : volume :=
  {| entry_0 := Some (file_entry None "$MFT");
     entries := []; bitmap := []; descriptors := [] |}.

(** A volume whose bitmap has a cluster block of 6 bytes. *)
Definition odd_bitmap_volume : volume :=
  {| entry_0 := entry_0 ntfs_volume;
     entries := entries ntfs_volume;
     bitmap :=
       [{| data := Some [xff; xff; xff; xff]; data_size := 4 |};
        {| data := Some [xff; xff; xff; xff; xff; xff]; data_size := 6 |}];
     descriptors := [] |}.

(** A volume whose bitmap has a cluster block of 2^63 bytes. *)
Definition huge_bitmap_volume : volume :=
  {| entry_0 := entry_0 ntfs_volume;
     entries := entries ntfs_volume;
     bitmap := [{| data := Some []; data_size := 9223372036854775808 |}];
     descriptors := [] |}.

(** A volume whose MFT entry 6 has no unnamed $DATA attribute. *)
Definition no_bitmap_data_volume : volume :=
  {| entry_0 := entry_0 ntfs_volume;
     entries :=
       [(0, file_entry (Some "mft") "$MFT");
        (6, file_entry None "$Bitmap");
        (9, file_entry None "$Secure")];
     bitmap := [];
     descriptors := [] |}.

End Sample.

(** * Properties of the facade *)

Section FileSystemProperties.

Context {T : ExternalTypes} {E : Externals}.

(** Case analysis on the next call or test of an embedded function, in the
    goal or in the hypothesis that gives its result. *)
Ltac next_call :=
  match goal with
  | |- context [let '(_, _) := ?c in _] => destruct c eqn:?
  | |- context [match ?c with Some _ => _ | None => _ end] => destruct c eqn:?
  | |- context [if ?c then _ else _] => destruct c eqn:?
  end.

Ltac next_call_in H :=
  match type of H with
  | context [let '(_, _) := ?c in _] => destruct c eqn:?
  | context [match ?c with Some _ => _ | None => _ end] => destruct c eqn:?
  | context [if ?c then _ else _] => destruct c eqn:?
  end.

Ltac all_calls := repeat (next_call; cbn [negb andb orb fst snd]).

Ltac all_calls_in H :=
  repeat (next_call_in H; cbn [negb andb orb fst snd] in H);
  try discriminate H.

Lemma libcerror_error_set_last :
  forall error error_domain error_code default,
    last (libcerror_error_set error error_domain error_code) default
    = (error_domain, error_code).
Proof.
  intros. unfold libcerror_error_set. apply last_last.
Qed.

(** ** libfsntfs_file_system_free *)

Lemma libfsntfs_file_system_free_pointer :
  forall file_system error,
    snd (fst (libfsntfs_file_system_free (Some file_system) error)) = Some None.
Proof.
  intros [fs|] error; [|reflexivity].
  unfold libfsntfs_file_system_free.
  repeat match goal with
         | |- context [let '(_, _) := ?c in _] => destruct c
         | |- context [if ?c then _ else _] => destruct c
         | |- context [match ?c with Some _ => _ | None => _ end] => destruct c
         end; reflexivity.
Qed.

(** C10.  Freeing is idempotent at the interface: a pointer that references
    NULL is accepted, the call returns 1, leaves the pointer NULL and adds
    nothing to the error; whatever a first call on a valid pointer did, it
    leaves the pointer NULL, so a second call in a row returns 1 and changes
    nothing; only the NULL pointer argument is rejected, with an
    invalid-value argument error. *)
Theorem libfsntfs_file_system_free_idempotent :
  forall (file_system : option libfsntfs_file_system_t)
         (error : libcerror_error_t),
    libfsntfs_file_system_free (Some None) error = (1, Some None, error)
    /\ (let '(_, freed, error1) :=
          libfsntfs_file_system_free (Some file_system) error in
        freed = Some None
        /\ libfsntfs_file_system_free freed error1 = (1, freed, error1))
    /\ libfsntfs_file_system_free None error
       = (-1, None,
          error ++ [(LIBCERROR_ERROR_DOMAIN_ARGUMENTS,
                     LIBCERROR_ARGUMENT_ERROR_INVALID_VALUE)]).
Proof.
  intros file_system error. split; [reflexivity|]. split; [|reflexivity].
  pose proof (libfsntfs_file_system_free_pointer file_system error) as H.
  destruct (libfsntfs_file_system_free (Some file_system) error)
    as [[r freed] error1].
  simpl in H. subst freed. split; reflexivity.
Qed.

(** ** libfsntfs_file_system_read_mft *)

Lemma read_mft_accepted :
  forall fs io file_io_handle mft_offset mft_size flags error,
    mft fs = None -> 0 <= mft_offset -> mft_size <= INT64_MAX ->
    libfsntfs_file_system_read_mft (Some fs) (Some io) file_io_handle
      mft_offset mft_size flags error
    = read_mft_bootstrap fs io file_io_handle mft_offset mft_size flags error.
Proof.
  intros fs io fio off size flags error Hmft Hoff Hsize.
  unfold libfsntfs_file_system_read_mft. rewrite Hmft.
  destruct (off <? 0) eqn:E1; [apply Z.ltb_lt in E1; lia|].
  destruct (size >? INT64_MAX) eqn:E2; [|reflexivity].
  apply Z.gtb_lt in E2. lia.
Qed.

Lemma read_mft_already_set :
  forall fs io file_io_handle mft_offset mft_size flags error,
    mft fs <> None ->
    libfsntfs_file_system_read_mft (Some fs) io file_io_handle mft_offset
      mft_size flags error
    = (-1, Some fs, file_io_handle,
       error ++ [(LIBCERROR_ERROR_DOMAIN_RUNTIME,
                  LIBCERROR_RUNTIME_ERROR_VALUE_ALREADY_SET)]).
Proof.
  intros fs io fio off size flags error Hmft.
  unfold libfsntfs_file_system_read_mft.
  destruct (mft fs); [reflexivity|congruence].
Qed.

Lemma read_mft_bootstrap_sets_mft :
  forall fs io file_io_handle mft_offset mft_size flags error
         after file_io_handle' error',
    read_mft_bootstrap fs io file_io_handle mft_offset mft_size flags error
    = (1, after, file_io_handle', error') ->
    exists fs', after = Some fs' /\ mft fs' <> None.
Proof.
  intros fs io fio off size flags error after fio' error' H.
  unfold read_mft_bootstrap in H. all_calls_in H;
    inversion H;
    (eexists; split; [reflexivity|cbn; discriminate]).
Qed.

Lemma read_mft_success_sets_mft :
  forall fs io file_io_handle mft_offset mft_size flags error
         fs' file_io_handle' error',
    libfsntfs_file_system_read_mft fs io file_io_handle mft_offset mft_size
      flags error = (1, Some fs', file_io_handle', error') ->
    mft fs' <> None.
Proof.
  intros fs io fio off size flags error fs' fio' error' H.
  unfold libfsntfs_file_system_read_mft in H.
  destruct fs as [fs|]; [|discriminate H].
  destruct (mft fs); [discriminate H|].
  destruct io as [io|]; [|discriminate H].
  destruct (off <? 0); [discriminate H|].
  destruct (size >? INT64_MAX); [discriminate H|].
  destruct (read_mft_bootstrap_sets_mft _ _ _ _ _ _ _ _ _ _ H) as [fs'' [Heq Hm]].
  congruence.
Qed.

(** C2.  A facade on which read_mft has already succeeded (its MFT is set)
    rejects the call with a value-already-set error; a call with a negative
    [mft_offset] or an [mft_size] above INT64_MAX returns -1 with one more
    entry on the error (value-out-of-bounds, respectively
    value-exceeds-maximum, when the facade has no MFT and the IO handle is
    not NULL); in all these cases the facade and the file IO handle are as
    before: no MFT is bootstrapped.  Conversely, on a facade without MFT,
    with [mft_offset >= 0] and [mft_size <= INT64_MAX], the three checks pass
    and the call is the bootstrap of lines 283-404. *)
Theorem libfsntfs_file_system_read_mft_preconditions :
  forall (fs : libfsntfs_file_system_t) (io : option libfsntfs_io_handle_t)
         (file_io_handle : libbfio_handle_t) (mft_offset mft_size flags : Z)
         (error : libcerror_error_t),
    (forall fs0 io0 file_io_handle0 mft_offset0 mft_size0 flags0 error0
            file_io_handle1 error1,
        libfsntfs_file_system_read_mft fs0 io0 file_io_handle0 mft_offset0
          mft_size0 flags0 error0 = (1, Some fs, file_io_handle1, error1) ->
        libfsntfs_file_system_read_mft (Some fs) io file_io_handle mft_offset
          mft_size flags error
        = (-1, Some fs, file_io_handle,
           error ++ [(LIBCERROR_ERROR_DOMAIN_RUNTIME,
                      LIBCERROR_RUNTIME_ERROR_VALUE_ALREADY_SET)]))
    /\ (mft_offset < 0 \/ mft_size > INT64_MAX ->
        exists raised,
          libfsntfs_file_system_read_mft (Some fs) io file_io_handle
            mft_offset mft_size flags error
          = (-1, Some fs, file_io_handle, error ++ [raised]))
    /\ (mft fs = None ->
        forall io',
          (mft_offset < 0 ->
           libfsntfs_file_system_read_mft (Some fs) (Some io') file_io_handle
             mft_offset mft_size flags error
           = (-1, Some fs, file_io_handle,
              error ++ [(LIBCERROR_ERROR_DOMAIN_RUNTIME,
                         LIBCERROR_RUNTIME_ERROR_VALUE_OUT_OF_BOUNDS)]))
          /\ (0 <= mft_offset -> mft_size > INT64_MAX ->
              libfsntfs_file_system_read_mft (Some fs) (Some io')
                file_io_handle mft_offset mft_size flags error
              = (-1, Some fs, file_io_handle,
                 error ++ [(LIBCERROR_ERROR_DOMAIN_RUNTIME,
                            LIBCERROR_RUNTIME_ERROR_VALUE_EXCEEDS_MAXIMUM)])))
    /\ (mft fs = None -> 0 <= mft_offset -> mft_size <= INT64_MAX ->
        forall io',
          libfsntfs_file_system_read_mft (Some fs) (Some io') file_io_handle
            mft_offset mft_size flags error
          = read_mft_bootstrap fs io' file_io_handle mft_offset mft_size
              flags error).
Proof.
  intros fs io fio off size flags error. split; [|split; [|split]].
  - intros fs0 io0 fio0 off0 size0 flags0 error0 fio1 error1 H.
    apply read_mft_already_set.
    exact (read_mft_success_sets_mft _ _ _ _ _ _ _ _ _ _ H).
  - intros Hbad. unfold libfsntfs_file_system_read_mft, libcerror_error_set.
    destruct (mft fs); [eexists; reflexivity|].
    destruct io as [io'|]; [|eexists; reflexivity].
    destruct (off <? 0) eqn:E1; [eexists; reflexivity|].
    destruct (size >? INT64_MAX) eqn:E2; [eexists; reflexivity|].
    apply Z.ltb_ge in E1.
    assert (size <= INT64_MAX) by (destruct (Z.gtb_spec size INT64_MAX); [discriminate|lia]).
    lia.
  - intros Hmft io'. unfold libfsntfs_file_system_read_mft.
    rewrite Hmft. split.
    + intros Hoff. destruct (Z.ltb_spec off 0); [reflexivity|lia].
    + intros Hoff Hsize. destruct (Z.ltb_spec off 0); [lia|].
      destruct (Z.gtb_spec size INT64_MAX); [reflexivity|lia].
  - intros Hmft Hoff Hsize io'. now apply read_mft_accepted.
Qed.

(** What [read_mft_bootstrap] returns once entry 0 has been read. *)
Lemma read_mft_bootstrap_entry_read :
  forall fs io file_io_handle mft_offset mft_size flags error
         m0 raised0 e0 raised1 r m1 file_io_handle1 e1 raised2,
    libfsntfs_mft_initialize io mft_offset mft_size (mft_entry_size io) flags
    = (Some m0, raised0) ->
    libfsntfs_mft_entry_initialize = (Some e0, raised1) ->
    libfsntfs_mft_read_mft_entry m0 io file_io_handle mft_offset 0 e0 flags
    = (r, m1, file_io_handle1, e1, raised2) ->
    read_mft_bootstrap fs io file_io_handle mft_offset mft_size flags error
    = let error := ((error ++ raised0) ++ raised1) ++ raised2 in
      let after := set_mft fs (Some m1) in
      if negb (r =? 1) then
        (-1, Some after, file_io_handle1,
         error ++ [(LIBCERROR_ERROR_DOMAIN_IO, LIBCERROR_IO_ERROR_READ_FAILED)])
      else
        let finish (after : libfsntfs_file_system_t)
                   (error : libcerror_error_t) : returned :=
          if negb (fst (libfsntfs_mft_entry_free e1) =? 1) then
            (-1, Some after, file_io_handle1,
             (error ++ snd (libfsntfs_mft_entry_free e1))
             ++ [(LIBCERROR_ERROR_DOMAIN_RUNTIME,
                  LIBCERROR_RUNTIME_ERROR_FINALIZE_FAILED)])
          else
            (1, Some after, file_io_handle1,
             error ++ snd (libfsntfs_mft_entry_free e1)) in
        if Z.land flags LIBFSNTFS_FILE_ENTRY_FLAGS_MFT_ONLY =? 0 then
          let runs := libfsntfs_mft_set_data_runs m1 e1 in
          if negb (fst (fst runs) =? 1) then
            (-1, Some (set_mft fs (Some (snd (fst runs)))), file_io_handle1,
             (error ++ snd runs)
             ++ [(LIBCERROR_ERROR_DOMAIN_RUNTIME,
                  LIBCERROR_RUNTIME_ERROR_SET_FAILED)])
          else
            finish (set_mft fs (Some (snd (fst runs)))) (error ++ snd runs)
        else
          match data_attribute e1 with
          | None =>
              (-1, Some after, file_io_handle1,
               error ++ [(LIBCERROR_ERROR_DOMAIN_RUNTIME,
                          LIBCERROR_RUNTIME_ERROR_VALUE_MISSING)])
          | Some _ =>
              if mft_size / mft_entry_size io >? INT_MAX then
                (-1, Some after, file_io_handle1,
                 error ++ [(LIBCERROR_ERROR_DOMAIN_RUNTIME,
                            LIBCERROR_RUNTIME_ERROR_VALUE_OUT_OF_BOUNDS)])
              else
                finish
                  (set_mft fs
                     (Some (set_number_of_mft_entries m1
                              (mft_size / mft_entry_size io))))
                  error
          end.
Proof.
  intros fs io fio off size flags error m0 raised0 e0 raised1 r m1 fio1 e1
    raised2 Hinit Hentry Hread.
  unfold read_mft_bootstrap, libcerror_error_set.
  rewrite Hinit, Hentry, Hread. cbn zeta.
  destruct (negb (r =? 1)); [reflexivity|].
  destruct (libfsntfs_mft_entry_free e1) as [rf raisedf].
  destruct (libfsntfs_mft_set_data_runs m1 e1) as [[rr mr] raisedr].
  cbn [fst snd].
  destruct (Z.land flags LIBFSNTFS_FILE_ENTRY_FLAGS_MFT_ONLY =? 0).
  - destruct (negb (rr =? 1)); reflexivity.
  - destruct (data_attribute e1); [|reflexivity].
    destruct (size / mft_entry_size io >? INT_MAX); reflexivity.
Qed.

(** C1.  What the code does when the read of MFT entry 0 fails: the call
    returns -1 with a read-failed error on top of what the reader raised, but
    [file_system->mft] keeps the MFT [libfsntfs_mft_initialize] created
    ([on_error] releases the local entry only).  The facade therefore is not
    as before the call: number_of_mft_entries answers with the count of that
    MFT, and a second read_mft is rejected as value-already-set. *)
Theorem libfsntfs_file_system_read_mft_entry_0_failure :
  forall (fs : libfsntfs_file_system_t) (io : libfsntfs_io_handle_t)
         (file_io_handle : libbfio_handle_t) (mft_offset mft_size flags : Z)
         (error : libcerror_error_t)
         m0 raised0 e0 raised1 r m1 file_io_handle1 e1 raised2,
    mft fs = None -> 0 <= mft_offset -> mft_size <= INT64_MAX ->
    libfsntfs_mft_initialize io mft_offset mft_size (mft_entry_size io) flags
    = (Some m0, raised0) ->
    libfsntfs_mft_entry_initialize = (Some e0, raised1) ->
    libfsntfs_mft_read_mft_entry m0 io file_io_handle mft_offset 0 e0 flags
    = (r, m1, file_io_handle1, e1, raised2) ->
    r <> 1 ->
    let after := set_mft fs (Some m1) in
    libfsntfs_file_system_read_mft (Some fs) (Some io) file_io_handle
      mft_offset mft_size flags error
    = (-1, Some after, file_io_handle1,
       (((error ++ raised0) ++ raised1) ++ raised2)
       ++ [(LIBCERROR_ERROR_DOMAIN_IO, LIBCERROR_IO_ERROR_READ_FAILED)])
    /\ mft after = Some m1
    /\ libfsntfs_file_system_get_number_of_mft_entries (Some after) []
       = (1, Some (number_of_mft_entries m1), [])
    /\ forall io' file_io_handle' mft_offset' mft_size' flags' error',
         libfsntfs_file_system_read_mft (Some after) io' file_io_handle'
           mft_offset' mft_size' flags' error'
         = (-1, Some after, file_io_handle',
            error' ++ [(LIBCERROR_ERROR_DOMAIN_RUNTIME,
                        LIBCERROR_RUNTIME_ERROR_VALUE_ALREADY_SET)]).
Proof.
  intros fs io fio off size flags error m0 raised0 e0 raised1 r m1 fio1 e1
    raised2 Hmft Hoff Hsize Hinit Hentry Hread Hr after.
  split; [|split; [reflexivity|split; [reflexivity|]]].
  - rewrite read_mft_accepted by assumption.
    rewrite (read_mft_bootstrap_entry_read fs _ _ _ _ _ error _ _ _ _ _ _ _ _ _ Hinit Hentry Hread).
    cbn zeta. destruct (Z.eqb_spec r 1); [contradiction|reflexivity].
  - intros. apply read_mft_already_set. subst after. cbn. discriminate.
Qed.

(** C9.  In MFT-only mode, when entry 0 is read and has no unnamed $DATA
    attribute, read_mft returns -1 with a value-missing runtime error; the
    data runs are not involved ([libfsntfs_mft_set_data_runs] does not occur
    in the result).  So a call in MFT-only mode that returns 1 has read an
    entry 0 with a $DATA attribute. *)
Theorem libfsntfs_file_system_read_mft_mft_only_missing_data_attribute :
  forall (fs : libfsntfs_file_system_t) (io : libfsntfs_io_handle_t)
         (file_io_handle : libbfio_handle_t) (mft_offset mft_size flags : Z)
         (error : libcerror_error_t)
         m0 raised0 e0 raised1 m1 file_io_handle1 e1 raised2,
    mft fs = None -> 0 <= mft_offset -> mft_size <= INT64_MAX ->
    Z.land flags LIBFSNTFS_FILE_ENTRY_FLAGS_MFT_ONLY <> 0 ->
    libfsntfs_mft_initialize io mft_offset mft_size (mft_entry_size io) flags
    = (Some m0, raised0) ->
    libfsntfs_mft_entry_initialize = (Some e0, raised1) ->
    libfsntfs_mft_read_mft_entry m0 io file_io_handle mft_offset 0 e0 flags
    = (1, m1, file_io_handle1, e1, raised2) ->
    (data_attribute e1 = None ->
     libfsntfs_file_system_read_mft (Some fs) (Some io) file_io_handle
       mft_offset mft_size flags error
     = (-1, Some (set_mft fs (Some m1)), file_io_handle1,
        (((error ++ raised0) ++ raised1) ++ raised2)
        ++ [(LIBCERROR_ERROR_DOMAIN_RUNTIME,
             LIBCERROR_RUNTIME_ERROR_VALUE_MISSING)]))
    /\ (fst (fst (fst (libfsntfs_file_system_read_mft (Some fs) (Some io)
                         file_io_handle mft_offset mft_size flags error))) = 1
        -> data_attribute e1 <> None).
Proof.
  intros fs io fio off size flags error m0 raised0 e0 raised1 m1 fio1 e1
    raised2 Hmft Hoff Hsize Hflag Hinit Hentry Hread.
  rewrite read_mft_accepted by assumption.
  rewrite (read_mft_bootstrap_entry_read fs _ _ _ _ _ error _ _ _ _ _ _ _ _ _ Hinit Hentry Hread).
  cbn zeta. change (negb (1 =? 1)) with false. cbv iota.
  destruct (Z.eqb_spec (Z.land flags LIBFSNTFS_FILE_ENTRY_FLAGS_MFT_ONLY) 0);
    [contradiction|].
  split.
  - intros Hdata. rewrite Hdata. reflexivity.
  - destruct (data_attribute e1); [discriminate|].
    cbn. intros Habs. discriminate Habs.
Qed.

(** C4.  When read_mft returns 1, entry 0 was read through the MFT
    [libfsntfs_mft_initialize] created; with the MFT_ONLY flag set the MFT of
    the facade is that MFT as the read of entry 0 left it, its
    [number_of_mft_entries] set to [mft_size / mft_entry_size]
    ([libfsntfs_mft_set_data_runs] is not applied); with the flag clear it is
    the MFT [libfsntfs_mft_set_data_runs] made of it from entry 0. *)
Theorem libfsntfs_file_system_read_mft_number_of_entries :
  forall (fs : option libfsntfs_file_system_t)
         (io : libfsntfs_io_handle_t)
         (file_io_handle : libbfio_handle_t) (mft_offset mft_size flags : Z)
         (error : libcerror_error_t) fs' file_io_handle' error',
    libfsntfs_file_system_read_mft fs (Some io) file_io_handle mft_offset
      mft_size flags error = (1, Some fs', file_io_handle', error') ->
    exists m0 raised0 e0 raised1 m1 e1 raised2,
      libfsntfs_mft_initialize io mft_offset mft_size (mft_entry_size io)
        flags = (Some m0, raised0)
      /\ libfsntfs_mft_entry_initialize = (Some e0, raised1)
      /\ libfsntfs_mft_read_mft_entry m0 io file_io_handle mft_offset 0 e0
           flags = (1, m1, file_io_handle', e1, raised2)
      /\ (Z.land flags LIBFSNTFS_FILE_ENTRY_FLAGS_MFT_ONLY <> 0 ->
          mft fs'
          = Some (set_number_of_mft_entries m1
                    (mft_size / mft_entry_size io))
          /\ libfsntfs_file_system_get_number_of_mft_entries (Some fs') []
             = (1, Some (mft_size / mft_entry_size io), []))
      /\ (Z.land flags LIBFSNTFS_FILE_ENTRY_FLAGS_MFT_ONLY = 0 ->
          exists m2 raised3,
            libfsntfs_mft_set_data_runs m1 e1 = (1, m2, raised3)
            /\ mft fs' = Some m2
            /\ libfsntfs_file_system_get_number_of_mft_entries (Some fs') []
               = (1, Some (number_of_mft_entries m2), [])).
Proof.
  intros fs io fio off size flags error fs' fio' error' H.
  unfold libfsntfs_file_system_read_mft in H.
  destruct fs as [fs|]; [|discriminate H].
  destruct (mft fs) eqn:Hmft; [discriminate H|].
  destruct (off <? 0); [discriminate H|].
  destruct (size >? INT64_MAX); [discriminate H|].
  destruct (libfsntfs_mft_initialize io off size (mft_entry_size io) flags)
    as [[m0|] raised0] eqn:Hinit;
    [|unfold read_mft_bootstrap in H; rewrite Hinit in H; discriminate H].
  destruct libfsntfs_mft_entry_initialize as [[e0|] raised1] eqn:Hentry;
    [|unfold read_mft_bootstrap in H; rewrite Hinit, Hentry in H;
      discriminate H].
  destruct (libfsntfs_mft_read_mft_entry m0 io fio off 0 e0 flags)
    as [[[[r m1] fio1] e1] raised2] eqn:Hread.
  rewrite (read_mft_bootstrap_entry_read fs _ _ _ _ _ error _ _ _ _ _ _ _ _ _ Hinit Hentry Hread)
    in H.
  cbn zeta in H.
  destruct (Z.eqb_spec r 1) as [->|]; [|discriminate H].
  cbn [negb] in H.
  exists m0, raised0, e0, raised1, m1, e1, raised2.
  destruct (libfsntfs_mft_set_data_runs m1 e1) as [[rr m2] raised3] eqn:Hruns.
  cbn [fst snd] in H.
  destruct (Z.eqb_spec (Z.land flags LIBFSNTFS_FILE_ENTRY_FLAGS_MFT_ONLY) 0)
    as [Hflag|Hflag].
  - destruct (Z.eqb_spec rr 1) as [->|]; [|discriminate H].
    cbn [negb] in H.
    destruct (negb (fst (libfsntfs_mft_entry_free e1) =? 1));
      [discriminate H|].
    inversion H; subst.
    split; [reflexivity|]. split; [reflexivity|]. split; [exact Hread|].
    split; [intros Hne; contradiction|].
    intros _. exists m2, raised3. repeat split; reflexivity.
  - destruct (data_attribute e1); [|discriminate H].
    destruct (size / mft_entry_size io >? INT_MAX); [discriminate H|].
    destruct (negb (fst (libfsntfs_mft_entry_free e1) =? 1));
      [discriminate H|].
    inversion H; subst.
    split; [reflexivity|]. split; [reflexivity|]. split; [exact Hread|].
    split; [intros _; split; reflexivity|].
    intros Heq; contradiction.
Qed.

(** C3 (amended).  A call with [mft_size = 0] on a facade without MFT, with
    [mft_offset >= 0] and with an IO handle whose [mft_entry_size] is not 0
    (the divisor of line 366) passes the argument checks.  When a platform has
    [0 <= INT_MAX], the facade then adds no out-of-bounds entry of its own to
    the error: the call returns 1, or returns -1 with a last entry that is
    not out-of-bounds.  In MFT-only mode, when entry 0 is read, has a $DATA
    attribute and is released, the call returns 1 and records 0 entries. *)
Theorem libfsntfs_file_system_read_mft_size_zero :
  forall (fs : libfsntfs_file_system_t) (io : libfsntfs_io_handle_t)
         (file_io_handle : libbfio_handle_t) (mft_offset flags : Z)
         (error : libcerror_error_t),
    mft fs = None -> 0 <= mft_offset -> 0 <= INT_MAX ->
    mft_entry_size io <> 0 ->
    libfsntfs_file_system_read_mft (Some fs) (Some io) file_io_handle
      mft_offset 0 flags error
    = read_mft_bootstrap fs io file_io_handle mft_offset 0 flags error
    /\ (forall r after file_io_handle' error',
          libfsntfs_file_system_read_mft (Some fs) (Some io) file_io_handle
            mft_offset 0 flags error = (r, after, file_io_handle', error') ->
          r = 1
          \/ (r = -1
              /\ snd (last error'
                        (LIBCERROR_ERROR_DOMAIN_RUNTIME,
                         LIBCERROR_RUNTIME_ERROR_GENERIC))
                 <> LIBCERROR_RUNTIME_ERROR_VALUE_OUT_OF_BOUNDS))
    /\ (forall m0 raised0 e0 raised1 m1 file_io_handle1 e1 raised2 raised3,
          Z.land flags LIBFSNTFS_FILE_ENTRY_FLAGS_MFT_ONLY <> 0 ->
          libfsntfs_mft_initialize io mft_offset 0 (mft_entry_size io) flags
          = (Some m0, raised0) ->
          libfsntfs_mft_entry_initialize = (Some e0, raised1) ->
          libfsntfs_mft_read_mft_entry m0 io file_io_handle mft_offset 0 e0
            flags = (1, m1, file_io_handle1, e1, raised2) ->
          data_attribute e1 <> None ->
          libfsntfs_mft_entry_free e1 = (1, raised3) ->
          libfsntfs_file_system_read_mft (Some fs) (Some io) file_io_handle
            mft_offset 0 flags error
          = (1, Some (set_mft fs (Some (set_number_of_mft_entries m1 0))),
             file_io_handle1,
             (((error ++ raised0) ++ raised1) ++ raised2) ++ raised3)).
Proof.
  intros fs io fio off flags error Hmft Hoff Hint _.
  assert (Hacc :
    libfsntfs_file_system_read_mft (Some fs) (Some io) fio off 0 flags error
    = read_mft_bootstrap fs io fio off 0 flags error)
    by (apply read_mft_accepted; [assumption | assumption | unfold INT64_MAX; lia]).
  split; [exact Hacc|]. split.
  - intros r after fio' error' H. rewrite Hacc in H.
    assert (Hgt : (0 >? INT_MAX) = false)
      by (destruct (Z.gtb_spec 0 INT_MAX); [lia|reflexivity]).
    unfold read_mft_bootstrap in H. cbv zeta in H.
    rewrite Zdiv_0_l, Hgt in H.
    all_calls_in H; inversion H; subst;
      first [ left; reflexivity
            | right; split; [reflexivity|];
              unfold libcerror_error_set; rewrite last_last;
              cbn; discriminate ].
  - intros m0 raised0 e0 raised1 m1 fio1 e1 raised2 raised3 Hflag Hinit
      Hentry Hread Hdata Hfree.
    rewrite Hacc.
    rewrite (read_mft_bootstrap_entry_read fs _ _ _ _ _ error _ _ _ _ _ _ _ _ _
               Hinit Hentry Hread).
    cbn zeta. change (negb (1 =? 1)) with false. cbv iota.
    destruct (Z.eqb_spec (Z.land flags LIBFSNTFS_FILE_ENTRY_FLAGS_MFT_ONLY) 0);
      [contradiction|].
    destruct (data_attribute e1); [|contradiction].
    rewrite Zdiv_0_l.
    destruct (Z.gtb_spec 0 INT_MAX) as [Hlt|_]; [lia|].
    rewrite Hfree. reflexivity.
Qed.

(** ** libfsntfs_file_system_read_security_descriptors *)

(** A call that fails leaves no security descriptor index behind, unless it
    failed because one was set. *)
Lemma read_security_descriptors_failure_releases :
  forall fs io file_io_handle error r after file_io_handle' error',
    security_descriptor_index fs = None ->
    libfsntfs_file_system_read_security_descriptors (Some fs) io
      file_io_handle error = (r, after, file_io_handle', error') ->
    r <> 1 ->
    exists fs', after = Some fs' /\ security_descriptor_index fs' = None.
Proof.
  intros fs io fio error r after fio' error' Hsdi H Hr.
  unfold libfsntfs_file_system_read_security_descriptors in H.
  rewrite Hsdi in H. unfold read_security_descriptors_on_error in H.
  all_calls_in H; inversion H; subst; try contradiction;
    (eexists; split; [reflexivity|reflexivity]).
Qed.

(** On a facade without index the call is not rejected as already set: it
    returns 1, or the entry it adds to the error is another one. *)
Lemma read_security_descriptors_not_rejected :
  forall fs io file_io_handle error r after file_io_handle' error',
    security_descriptor_index fs = None ->
    libfsntfs_file_system_read_security_descriptors (Some fs) io
      file_io_handle error = (r, after, file_io_handle', error') ->
    r = 1
    \/ last error' no_error
       <> (LIBCERROR_ERROR_DOMAIN_RUNTIME,
           LIBCERROR_RUNTIME_ERROR_VALUE_ALREADY_SET).
Proof.
  intros fs io fio error r after fio' error' Hsdi H.
  unfold libfsntfs_file_system_read_security_descriptors in H.
  rewrite Hsdi in H. unfold read_security_descriptors_on_error in H.
  all_calls_in H; inversion H; subst;
    first [ left; reflexivity
          | right; unfold libcerror_error_set, no_error; rewrite last_last;
            discriminate ].
Qed.

Lemma read_security_descriptors_already_set :
  forall fs io file_io_handle error,
    security_descriptor_index fs <> None ->
    libfsntfs_file_system_read_security_descriptors (Some fs) io
      file_io_handle error
    = (-1, Some fs, file_io_handle,
       error ++ [(LIBCERROR_ERROR_DOMAIN_RUNTIME,
                  LIBCERROR_RUNTIME_ERROR_VALUE_ALREADY_SET)]).
Proof.
  intros fs io fio error Hsdi.
  unfold libfsntfs_file_system_read_security_descriptors.
  destruct (security_descriptor_index fs); [reflexivity|congruence].
Qed.

(** C5.  When entry 9 is found and its $FILE_NAME name is read, compares
    neither equal to "$Secure" nor with an error, and is released,
    read_security_descriptors returns 1 and leaves the security descriptor
    index NULL; from then on every
    get_security_descriptor_values_by_identifier call returns 0, whatever the
    identifier, adds nothing to the error, stores no values and leaves the
    file IO handle and the facade as they are. *)
Theorem libfsntfs_file_system_read_security_descriptors_no_secure :
  forall (fs : libfsntfs_file_system_t) (io : option libfsntfs_io_handle_t)
         (file_io_handle : libbfio_handle_t) (error : libcerror_error_t)
         m1 file_io_handle1 e raised0 a raised1 v0 raised2 v1 raised3
         compared raised4 raised5,
    security_descriptor_index fs = None ->
    libfsntfs_mft_get_mft_entry_by_index (mft fs) file_io_handle
      LIBFSNTFS_MFT_ENTRY_INDEX_SECURE
    = (1, m1, file_io_handle1, Some e, raised0) ->
    libfsntfs_mft_entry_get_attribute_by_index e (file_name_attribute_index e)
    = (1, a, raised1) ->
    libfsntfs_file_name_values_initialize = (Some v0, raised2) ->
    libfsntfs_file_name_values_read_from_mft_attribute v0 a
    = (1, v1, raised3) ->
    libfsntfs_name_compare_with_utf8_string (name v1) (name_size v1)
      "$Secure" 7 1 = (compared, raised4) ->
    compared <> -1 -> compared <> LIBUNA_COMPARE_EQUAL ->
    libfsntfs_file_name_values_free v1 = (1, raised5) ->
    let after := set_mft fs m1 in
    libfsntfs_file_system_read_security_descriptors (Some fs) io
      file_io_handle error
    = (1, Some after, file_io_handle1,
       (((((error ++ raised0) ++ raised1) ++ raised2) ++ raised3) ++ raised4)
       ++ raised5)
    /\ security_descriptor_index after = None
    /\ forall file_io_handle2 security_descriptor_identifier error2,
         libfsntfs_file_system_get_security_descriptor_values_by_identifier
           (Some after) file_io_handle2 security_descriptor_identifier error2
         = ((0, Some after, file_io_handle2, error2), None).
Proof.
  intros fs io fio error m1 fio1 e raised0 a raised1 v0 raised2 v1 raised3
    compared raised4 raised5 Hsdi Hget Hattr Hinit Hread Hcmp Herr Hneq Hfree
    after.
  assert (Hafter : security_descriptor_index after = None) by exact Hsdi.
  split; [|split; [exact Hafter|]].
  - unfold libfsntfs_file_system_read_security_descriptors.
    rewrite Hsdi, Hget. cbn [negb Z.eqb Pos.eqb]. cbv zeta.
    rewrite Hattr. cbn [negb Z.eqb Pos.eqb]. rewrite Hinit, Hread.
    cbn [negb Z.eqb Pos.eqb]. rewrite Hcmp.
    destruct (Z.eqb_spec compared (-1)); [contradiction|].
    destruct (Z.eqb_spec compared LIBUNA_COMPARE_EQUAL); [contradiction|].
    rewrite Hfree. reflexivity.
  - intros fio2 id error2.
    unfold libfsntfs_file_system_get_security_descriptor_values_by_identifier.
    rewrite Hafter. reflexivity.
Qed.

(** C8 (amended).  A call that fails on a facade whose index is not set
    leaves the index NULL, so the next call is not rejected as already set:
    it returns 1 or the entry it adds to the error is another one.  A call on
    a facade whose index is set fails with value-already-set and changes
    nothing; so does a second call after a successful one that set the
    index.  After a successful call that left the index NULL (entry 9 is not
    named "$Secure") the next call is not rejected as already set either. *)
Theorem libfsntfs_file_system_read_security_descriptors_index_state :
  forall (fs : libfsntfs_file_system_t) (io : option libfsntfs_io_handle_t)
         (file_io_handle : libbfio_handle_t) (error : libcerror_error_t)
         r fs' file_io_handle' error',
    libfsntfs_file_system_read_security_descriptors (Some fs) io
      file_io_handle error = (r, Some fs', file_io_handle', error') ->
    (security_descriptor_index fs = None -> r <> 1 ->
     security_descriptor_index fs' = None)
    /\ (security_descriptor_index fs <> None ->
        r = -1 /\ fs' = fs /\ file_io_handle' = file_io_handle
        /\ error' = error ++ [(LIBCERROR_ERROR_DOMAIN_RUNTIME,
                               LIBCERROR_RUNTIME_ERROR_VALUE_ALREADY_SET)])
    /\ (security_descriptor_index fs' = None ->
        forall io2 file_io_handle2 error2 r2 after2 file_io_handle2' error2',
          libfsntfs_file_system_read_security_descriptors (Some fs') io2
            file_io_handle2 error2
          = (r2, after2, file_io_handle2', error2') ->
          r2 = 1
          \/ last error2' no_error
             <> (LIBCERROR_ERROR_DOMAIN_RUNTIME,
                 LIBCERROR_RUNTIME_ERROR_VALUE_ALREADY_SET))
    /\ (r = 1 -> security_descriptor_index fs' <> None ->
        forall io2 file_io_handle2 error2,
          libfsntfs_file_system_read_security_descriptors (Some fs') io2
            file_io_handle2 error2
          = (-1, Some fs', file_io_handle2,
             error2 ++ [(LIBCERROR_ERROR_DOMAIN_RUNTIME,
                         LIBCERROR_RUNTIME_ERROR_VALUE_ALREADY_SET)])).
Proof.
  intros fs io fio error r fs' fio' error' H. repeat split.
  - intros Hsdi Hr.
    destruct (read_security_descriptors_failure_releases _ _ _ _ _ _ _ _
                Hsdi H Hr) as [fs'' [Heq Hnone]].
    congruence.
  - rewrite read_security_descriptors_already_set in H by assumption.
    congruence.
  - rewrite read_security_descriptors_already_set in H by assumption.
    congruence.
  - rewrite read_security_descriptors_already_set in H by assumption.
    congruence.
  - rewrite read_security_descriptors_already_set in H by assumption.
    congruence.
  - intros Hnone io2 fio2 error2 r2 after2 fio2' error2' H2.
    exact (read_security_descriptors_not_rejected _ _ _ _ _ _ _ _ Hnone H2).
  - intros _ Hset io2 fio2 error2.
    now apply read_security_descriptors_already_set.
Qed.

(** ** libfsntfs_file_system_read_bitmap *)

(** What [libfsntfs_file_system_read_bitmap] returns once the loop over the
    cluster blocks is reached. *)
Lemma read_bitmap_blocks_reached :
  forall fs io file_io_handle error m1 file_io_handle1 e raised0 a vector
         raised1 cache raised2 number_of_cluster_blocks raised3,
    libfsntfs_mft_get_mft_entry_by_index (mft fs) file_io_handle
      LIBFSNTFS_MFT_ENTRY_INDEX_BITMAP
    = (1, m1, file_io_handle1, Some e, raised0) ->
    data_attribute e = Some a ->
    libfsntfs_cluster_block_vector_initialize io a = (Some vector, raised1) ->
    libfcache_cache_initialize 1 = (Some cache, raised2) ->
    libfdata_vector_get_number_of_elements vector
    = (1, number_of_cluster_blocks, raised3) ->
    libfsntfs_file_system_read_bitmap (Some fs) (Some io) file_io_handle error
    = let blocks :=
        read_bitmap_blocks (Z.to_nat number_of_cluster_blocks) io vector
          file_io_handle1 cache 0
          {| start_offset := 0; bitmap_offset := 0; offset_ranges := [] |}
          ((((error ++ raised0) ++ raised1) ++ raised2) ++ raised3) in
      let after := Some (set_mft fs m1) in
      if negb (blocks_completed blocks) then
        (-1, after, blocks_file_io_handle blocks, blocks_error blocks)
      else
        let vector_freed := libfdata_vector_free (blocks_vector blocks) in
        let cache_freed := libfcache_cache_free (blocks_cache blocks) in
        if negb (fst vector_freed =? 1) then
          (-1, after, blocks_file_io_handle blocks,
           (blocks_error blocks ++ snd vector_freed)
           ++ [(LIBCERROR_ERROR_DOMAIN_RUNTIME,
                LIBCERROR_RUNTIME_ERROR_FINALIZE_FAILED)])
        else if negb (fst cache_freed =? 1) then
          (-1, after, blocks_file_io_handle blocks,
           ((blocks_error blocks ++ snd vector_freed) ++ snd cache_freed)
           ++ [(LIBCERROR_ERROR_DOMAIN_RUNTIME,
                LIBCERROR_RUNTIME_ERROR_FINALIZE_FAILED)])
        else
          (1, after, blocks_file_io_handle blocks,
           (blocks_error blocks ++ snd vector_freed) ++ snd cache_freed).
Proof.
  intros fs io fio error m1 fio1 e raised0 a vector raised1 cache raised2 n
    raised3 Hget Hdata Hvector Hcache Hnumber.
  unfold libfsntfs_file_system_read_bitmap, libcerror_error_set.
  rewrite Hget. cbn [negb Z.eqb Pos.eqb]. cbv zeta.
  rewrite Hdata, Hvector, Hcache, Hnumber. cbn [negb Z.eqb Pos.eqb].
  destruct (negb (blocks_completed _)); [reflexivity|].
  destruct (libfdata_vector_free _) as [rv raisedv].
  destruct (libfcache_cache_free _) as [rc raisedc].
  cbn [fst snd].
  destruct (negb (rv =? 1)); [reflexivity|].
  destruct (negb (rc =? 1)); reflexivity.
Qed.

(** The loop stops at the first cluster block whose size is not a multiple
    of 4, if it gets that far. *)
Lemma read_bitmap_blocks_not_multiple_of_4 :
  forall remaining io vector file_io_handle cache cluster_block_index scan
         error,
    Forall block_scanned
      (retrieved_blocks remaining vector file_io_handle cache
         cluster_block_index) ->
    payload_size
      (retrieved_blocks remaining vector file_io_handle cache
         cluster_block_index) mod 4 <> 0 ->
    let blocks :=
      read_bitmap_blocks remaining io vector file_io_handle cache
        cluster_block_index scan error in
    blocks_completed blocks = false
    /\ last (blocks_error blocks) no_error
       = (LIBCERROR_ERROR_DOMAIN_RUNTIME,
          LIBCERROR_RUNTIME_ERROR_VALUE_OUT_OF_BOUNDS).
Proof.
  induction remaining as [|remaining IH];
    intros io vector fio cache idx scan error Hall Hsize.
  - cbn in Hsize. contradiction.
  - cbn [retrieved_blocks read_bitmap_blocks] in *.
    destruct (libfdata_vector_get_element_value_by_index vector fio cache idx 0)
      as [[[[[r vector'] fio'] cache'] block] raised].
    inversion Hall as [|x l Hhead Htail]; subst.
    destruct Hhead as [Hr [cb [bytes [Hblock Hbytes]]]].
    cbn [fst snd] in Hr, Hblock. subst r block.
    cbn [negb Z.eqb Pos.eqb]. rewrite Hbytes.
    unfold payload_size in Hsize. cbn [fold_right] in Hsize.
    fold (payload_size
            (retrieved_blocks remaining vector' fio' cache' (idx + 1)))
      in Hsize.
    unfold block_size in Hsize. cbn [snd] in Hsize.
    destruct (Z.eqb_spec (data_size cb mod 4) 0) as [Hmod|Hmod].
    + cbn [negb orb].
      destruct (data_size cb >? SSIZE_MAX).
      * cbn. split; [reflexivity|apply libcerror_error_set_last].
      * apply IH; [assumption|].
        intros Hrest. apply Hsize.
        rewrite Z.add_mod by lia. rewrite Hmod, Hrest. reflexivity.
    + cbn [negb orb]. cbn.
      split; [reflexivity|apply libcerror_error_set_last].
Qed.

(** The loop goes through all the cluster blocks when each of them is
    retrieved with data and has a size that is a multiple of 4 and at most
    SSIZE_MAX. *)
Lemma read_bitmap_blocks_completed :
  forall remaining io vector file_io_handle cache cluster_block_index scan
         error,
    Forall (fun retrieved =>
              block_scanned retrieved
              /\ block_size retrieved mod 4 = 0
              /\ block_size retrieved <= SSIZE_MAX)
      (retrieved_blocks remaining vector file_io_handle cache
         cluster_block_index) ->
    let blocks :=
      read_bitmap_blocks remaining io vector file_io_handle cache
        cluster_block_index scan error in
    blocks_completed blocks = true
    /\ blocks_index blocks = cluster_block_index + Z.of_nat remaining.
Proof.
  induction remaining as [|remaining IH];
    intros io vector fio cache idx scan error Hall.
  - cbn. split; [reflexivity|lia].
  - cbn [retrieved_blocks read_bitmap_blocks] in *.
    destruct (libfdata_vector_get_element_value_by_index vector fio cache idx 0)
      as [[[[[r vector'] fio'] cache'] block] raised].
    inversion Hall as [|x l Hhead Htail]; subst.
    destruct Hhead as [[Hr [cb [bytes [Hblock Hbytes]]]] [Hmod Hmax]].
    cbn [fst snd] in Hr, Hblock. subst r block.
    unfold block_size in Hmod, Hmax. cbn [snd] in Hmod, Hmax.
    cbn [negb Z.eqb Pos.eqb]. rewrite Hbytes, Hmod.
    destruct (Z.gtb_spec (data_size cb) SSIZE_MAX) as [Hgt|_]; [lia|].
    cbn [negb orb Z.eqb].
    destruct (IH io vector' fio' cache' (idx + 1)
                (scan_cluster_block io bytes (data_size cb) scan)
                (error ++ raised) Htail) as [Hdone Hindex].
    split; [exact Hdone|]. rewrite Hindex. lia.
Qed.


(** C6 (amended).  Once the loop over the cluster blocks of the $DATA
    attribute of entry 6 is reached: when the cluster blocks are retrieved
    with data and the size of the payload is not a multiple of 4,
    read_bitmap returns -1 and the entry it adds to the error is
    value-out-of-bounds; when every cluster block is retrieved with data and
    has a size that is a multiple of 4 and at most SSIZE_MAX, the loop goes
    through all the cluster blocks, and the call returns 1 if the vector and
    the cache are released. *)
Theorem libfsntfs_file_system_read_bitmap_block_sizes :
  forall (fs : libfsntfs_file_system_t) (io : libfsntfs_io_handle_t)
         (file_io_handle : libbfio_handle_t) (error : libcerror_error_t)
         m1 file_io_handle1 e raised0 a vector raised1 cache raised2
         number_of_cluster_blocks raised3,
    libfsntfs_mft_get_mft_entry_by_index (mft fs) file_io_handle
      LIBFSNTFS_MFT_ENTRY_INDEX_BITMAP
    = (1, m1, file_io_handle1, Some e, raised0) ->
    data_attribute e = Some a ->
    libfsntfs_cluster_block_vector_initialize io a = (Some vector, raised1) ->
    libfcache_cache_initialize 1 = (Some cache, raised2) ->
    libfdata_vector_get_number_of_elements vector
    = (1, number_of_cluster_blocks, raised3) ->
    let retrieved :=
      retrieved_blocks (Z.to_nat number_of_cluster_blocks) vector
        file_io_handle1 cache 0 in
    let blocks :=
      read_bitmap_blocks (Z.to_nat number_of_cluster_blocks) io vector
        file_io_handle1 cache 0
        {| start_offset := 0; bitmap_offset := 0; offset_ranges := [] |}
        ((((error ++ raised0) ++ raised1) ++ raised2) ++ raised3) in
    let returned :=
      libfsntfs_file_system_read_bitmap (Some fs) (Some io) file_io_handle
        error in
    (Forall block_scanned retrieved -> payload_size retrieved mod 4 <> 0 ->
     fst (fst (fst returned)) = -1
     /\ last (snd returned) no_error
        = (LIBCERROR_ERROR_DOMAIN_RUNTIME,
           LIBCERROR_RUNTIME_ERROR_VALUE_OUT_OF_BOUNDS))
    /\ (Forall (fun block =>
                  block_scanned block
                  /\ block_size block mod 4 = 0
                  /\ block_size block <= SSIZE_MAX) retrieved ->
        blocks_completed blocks = true
        /\ blocks_index blocks = Z.max 0 number_of_cluster_blocks
        /\ (fst (libfdata_vector_free (blocks_vector blocks)) = 1 ->
            fst (libfcache_cache_free (blocks_cache blocks)) = 1 ->
            fst (fst (fst returned)) = 1)).
Proof.
  intros fs io fio error m1 fio1 e raised0 a vector raised1 cache raised2 n
    raised3 Hget Hdata Hvector Hcache Hnumber retrieved blocks returned.
  assert (Hreturned := read_bitmap_blocks_reached fs io fio error _ _ _ _ _ _
                         _ _ _ _ _ Hget Hdata Hvector Hcache Hnumber).
  fold returned in Hreturned. cbv zeta in Hreturned. fold blocks in Hreturned.
  split.
  - intros Hall Hsize.
    destruct (read_bitmap_blocks_not_multiple_of_4 _ io _ _ _ _
                {| start_offset := 0; bitmap_offset := 0;
                   offset_ranges := [] |}
                ((((error ++ raised0) ++ raised1) ++ raised2) ++ raised3)
                Hall Hsize) as [Hstop Hlast].
    fold blocks in Hstop, Hlast.
    rewrite Hreturned, Hstop. cbn [negb fst snd]. split; [reflexivity|].
    exact Hlast.
  - intros Hall.
    destruct (read_bitmap_blocks_completed _ io _ _ _ _
                {| start_offset := 0; bitmap_offset := 0;
                   offset_ranges := [] |}
                ((((error ++ raised0) ++ raised1) ++ raised2) ++ raised3)
                Hall) as [Hdone Hindex].
    fold blocks in Hdone, Hindex.
    split; [exact Hdone|]. split; [rewrite Hindex; lia|].
    intros Hv Hc. rewrite Hreturned, Hdone, Hv, Hc. reflexivity.
Qed.

End FileSystemProperties.

(** ** The scan of a cluster block *)

Lemma land_1_testbit : forall v, (Z.land v 1 =? 0) = negb (Z.testbit v 0).
Proof.
  intros v. change 1 with (Z.ones 1). rewrite Z.land_ones by lia.
  change (2 ^ 1) with 2. rewrite <- Z.bit0_mod.
  destruct (Z.testbit v 0); reflexivity.
Qed.

Lemma scan_bit_flag :
  forall io v scan, scan_bit io v scan = scan_flag io (Z.testbit v 0) scan.
Proof.
  intros. unfold scan_bit, scan_flag. rewrite land_1_testbit. reflexivity.
Qed.

Lemma scan_value_32bit_flags :
  forall bits io v scan,
    scan_value_32bit bits io v scan = scan_flags io (value_flags bits v) scan.
Proof.
  induction bits as [|bits IH]; intros io v scan; [reflexivity|].
  cbn [scan_value_32bit]. rewrite IH, scan_bit_flag.
  unfold value_flags, scan_flags. cbn [seq map fold_left].
  rewrite <- seq_shift, map_map.
  erewrite map_ext; [reflexivity|].
  intros i. cbv beta. rewrite Z.shiftr_spec by lia.
  f_equal. lia.
Qed.

Lemma to_off64_id :
  forall z, -9223372036854775808 <= z <= 9223372036854775807 -> to_off64 z = z.
Proof.
  intros z Hz. unfold to_off64. rewrite Z.mod_small by lia. lia.
Qed.


Lemma scan_flags_ranges :
  forall io flags scan,
    0 < cluster_block_size io ->
    0 <= bitmap_offset scan ->
    bitmap_offset scan + Z.of_nat (List.length flags) * cluster_block_size io
      <= INT64_MAX ->
    start_offset scan < bitmap_offset scan ->
    let position j := bitmap_offset scan + Z.of_nat j * cluster_block_size io in
    let scan' := scan_flags io flags scan in
    exists ranges,
      offset_ranges scan' = offset_ranges scan ++ ranges
      /\ bitmap_offset scan' = position (List.length flags)
      /\ start_offset scan' < bitmap_offset scan'
      /\ (forall j,
            (j < List.length flags)%nat ->
            nth j flags false = true
            <-> (covered ranges (position j)
                 \/ 0 <= start_offset scan' <= position j))
      /\ (0 <= start_offset scan ->
          start_offset scan' = start_offset scan
          \/ exists e,
               In (start_offset scan, e) ranges /\ bitmap_offset scan <= e)
      /\ (forall s e,
            In (s, e) ranges ->
            s < e
            /\ (exists j,
                  (j < List.length flags)%nat /\ e = position j
                  /\ nth j flags false = false)
            /\ (s = start_offset scan /\ 0 <= start_offset scan
                \/ exists j,
                     s = position j /\ first_of_run flags j
                     /\ (j = O -> start_offset scan < 0)))
      /\ (0 <= start_offset scan' ->
          start_offset scan' = start_offset scan
          \/ exists j,
               start_offset scan' = position j /\ first_of_run flags j
               /\ (j = O -> start_offset scan < 0)).
Proof.
  intros io. induction flags as [|flag flags IH]; intros scan Hcbs Hb0 Hmax Hwf.
  - exists []. cbn. rewrite app_nil_r.
    split; [reflexivity|]. split; [lia|]. split; [exact Hwf|].
    split; [intros j Hj; lia|].
    split; [intros _; left; reflexivity|].
    split; [intros s e []|].
    intros _; left; reflexivity.
  - cbn [scan_flags fold_left].
    change (fold_left (fun s a => scan_flag io a s) flags
              (scan_flag io flag scan))
      with (scan_flags io flags (scan_flag io flag scan)).
    cbn [List.length] in *. rewrite Nat2Z.inj_succ in *.
    set (b0 := bitmap_offset scan) in *.
    set (cbs := cluster_block_size io) in *.
    assert (Hb1 : bitmap_offset (scan_flag io flag scan) = b0 + cbs).
    { unfold scan_flag.
      destruct flag; cbn [negb];
        [destruct (start_offset scan <? 0)
        |destruct (start_offset scan >=? 0)];
        cbn [bitmap_offset]; fold b0 cbs; apply to_off64_id;
        unfold INT64_MAX in Hmax; nia. }
    assert (Hmax1 : bitmap_offset (scan_flag io flag scan)
                    + Z.of_nat (List.length flags) * cbs <= INT64_MAX)
      by (rewrite Hb1; nia).
    assert (Hb1' : 0 <= bitmap_offset (scan_flag io flag scan))
      by (rewrite Hb1; lia).
    assert (Hshift : forall j,
               bitmap_offset (scan_flag io flag scan) + Z.of_nat j * cbs
               = b0 + Z.of_nat (S j) * cbs)
      by (intros j; rewrite Hb1; lia).
    assert (Hrun : forall j,
               first_of_run flags j ->
               (j = O -> start_offset (scan_flag io flag scan) < 0) ->
               first_of_run (flag :: flags) (S j)
               /\ (j = O -> flag = false)).
    { intros j (Hj & Hset & Hprev) Hzero.
      assert (Hflag : j = O -> flag = false).
      { intros ->. specialize (Hzero eq_refl). unfold scan_flag in Hzero.
        destruct flag; [|reflexivity]. cbn [negb] in Hzero.
        destruct (Z.ltb_spec (start_offset scan) 0); cbn in Hzero; lia. }
      split; [|exact Hflag].
      split; [cbn; lia|]. split; [exact Hset|].
      intros i Hi. injection Hi as <-. destruct j as [|j'].
      - cbn. apply Hflag. reflexivity.
      - cbn. apply (Hprev j'). reflexivity. }
    destruct flag.
    + (* an allocated cluster *)
      assert (Hs1 : start_offset (scan_flag io true scan)
                    = if start_offset scan <? 0 then b0 else start_offset scan)
        by (unfold scan_flag; cbn [negb];
            destruct (start_offset scan <? 0); reflexivity).
      assert (Hr1 : offset_ranges (scan_flag io true scan) = offset_ranges scan)
        by (unfold scan_flag; cbn [negb];
            destruct (start_offset scan <? 0); reflexivity).
      assert (Hopen : 0 <= start_offset (scan_flag io true scan) <= b0)
        by (rewrite Hs1; destruct (Z.ltb_spec (start_offset scan) 0); lia).
      destruct (IH (scan_flag io true scan) Hcbs Hb1' Hmax1 ltac:(lia))
        as (ranges & Hranges & Hoffset & Hwf' & Hcover & Hfate & Hfrom & Hlast).
      assert (Hstart : forall s,
                 (s = start_offset (scan_flag io true scan)
                  \/ exists j,
                       s = bitmap_offset (scan_flag io true scan)
                           + Z.of_nat j * cbs
                       /\ first_of_run flags j
                       /\ (j = O -> start_offset (scan_flag io true scan) < 0)) ->
                 s = start_offset scan /\ 0 <= start_offset scan
                 \/ exists j,
                      s = b0 + Z.of_nat j * cbs
                      /\ first_of_run (true :: flags) j
                      /\ (j = O -> start_offset scan < 0)).
      { intros s [Hs|(j & Hs & Hj & Hzero)].
        - rewrite Hs1 in Hs. destruct (Z.ltb_spec (start_offset scan) 0).
          + right. exists O. split; [lia|]. split; [|intros _; assumption].
            split; [cbn; lia|]. split; [reflexivity|]. intros i Hi.
            discriminate Hi.
          + left. lia.
        - right. exists (S j). rewrite Hshift in Hs. split; [exact Hs|].
          destruct (Hrun j Hj Hzero) as [Hfirst Hfalse].
          split; [exact Hfirst|]. intros Hi. discriminate Hi. }
      exists ranges. rewrite Hranges, Hr1, Hoffset, Hshift.
      split; [reflexivity|]. split; [lia|].
      split; [rewrite Hoffset, Hshift in Hwf'; lia|].
      split; [|split; [|split]].
      * intros [|j] Hj.
        -- cbn [nth]. split; [intros _|reflexivity].
           destruct (Hfate ltac:(lia)) as [Hsame|[e [Hin He]]].
           ++ right. rewrite Hsame. lia.
           ++ left. exists (start_offset (scan_flag io true scan)), e.
              split; [exact Hin|]. rewrite Hb1 in He. lia.
        -- cbn [nth]. rewrite (Hcover j) by lia.
           rewrite Hshift. reflexivity.
      * intros Hs. rewrite Hs1 in Hfate.
        destruct (Z.ltb_spec (start_offset scan) 0); [lia|].
        destruct (Hfate ltac:(lia)) as [Hsame|[e [Hin He]]].
        -- left. exact Hsame.
        -- right. exists e. split; [exact Hin|]. rewrite Hb1 in He. lia.
      * intros s e Hin.
        destruct (Hfrom s e Hin) as (Hse & (j & Hj & He & Hclear) & Hs).
        split; [exact Hse|]. split.
        -- exists (S j). rewrite Hshift in He.
           split; [lia|]. split; [exact He|exact Hclear].
        -- apply Hstart. destruct Hs as [[Hs _]|Hs]; [left|right]; assumption.
      * intros Hs. destruct (Hlast Hs) as [Hsame|Hnew].
        -- destruct (Hstart _ (or_introl Hsame)) as [[Heq _]|Hj];
             [left|right]; assumption.
        -- destruct (Hstart _ (or_intror Hnew)) as [[Heq _]|Hj];
             [left|right]; assumption.
    + (* a free cluster *)
      assert (Hs1 : start_offset (scan_flag io false scan) < 0)
        by (unfold scan_flag; cbn [negb];
            destruct (Z.geb_spec (start_offset scan) 0); cbn; lia).
      assert (Hr1 : offset_ranges (scan_flag io false scan)
                    = offset_ranges scan
                      ++ (if start_offset scan >=? 0
                          then [(start_offset scan, b0)] else []))
        by (unfold scan_flag; cbn [negb];
            destruct (start_offset scan >=? 0); cbn;
            [reflexivity|rewrite app_nil_r; reflexivity]).
      destruct (IH (scan_flag io false scan) Hcbs Hb1' Hmax1 ltac:(lia))
        as (ranges & Hranges & Hoffset & Hwf' & Hcover & Hfate & Hfrom & Hlast).
      exists ((if start_offset scan >=? 0
               then [(start_offset scan, b0)] else []) ++ ranges).
      rewrite Hranges, Hr1, Hoffset, Hshift, <- app_assoc.
      split; [reflexivity|]. split; [lia|].
      split; [rewrite Hoffset, Hshift in Hwf'; lia|].
      assert (Hclosed : forall s e,
                 In (s, e) (if start_offset scan >=? 0
                            then [(start_offset scan, b0)] else []) ->
                 s = start_offset scan /\ 0 <= s /\ e = b0).
      { intros s e Hin. destruct (Z.geb_spec (start_offset scan) 0);
          [|destruct Hin].
        destruct Hin as [Heq|[]]. inversion Heq; subst. lia. }
      assert (Hstart : forall s,
                 (exists j,
                    s = bitmap_offset (scan_flag io false scan)
                        + Z.of_nat j * cbs
                    /\ first_of_run flags j
                    /\ (j = O -> start_offset (scan_flag io false scan) < 0)) ->
                 b0 < s
                 /\ exists j,
                      s = b0 + Z.of_nat j * cbs
                      /\ first_of_run (false :: flags) j
                      /\ (j = O -> start_offset scan < 0)).
      { intros s (j & Hs & Hj & Hzero). rewrite Hshift in Hs.
        split; [nia|]. exists (S j). split; [exact Hs|].
        destruct (Hrun j Hj Hzero) as [Hfirst _].
        split; [exact Hfirst|]. intros Hi. discriminate Hi. }
      split; [|split; [|split]].
      * intros [|j] Hj.
        -- cbn [nth]. split; [discriminate|].
           intros [(s & e & Hin & Hse)|Hopen]; exfalso.
           ++ apply in_app_or in Hin. destruct Hin as [Hin|Hin].
              ** destruct (Hclosed s e Hin). lia.
              ** destruct (Hfrom s e Hin) as (_ & _ & [[Hs Hs0]|Hs]); [lia|].
                 destruct (Hstart s Hs). lia.
           ++ destruct (Hlast ltac:(lia)) as [Hsame|Hnew]; [lia|].
              destruct (Hstart _ Hnew). lia.
        -- cbn [nth]. rewrite (Hcover j) by lia.
           rewrite Hshift.
           split; (intros [(s & e & Hin & Hse)|Hopen]; [left|right; exact Hopen]).
           ++ exists s, e. split; [apply in_or_app; right; exact Hin|exact Hse].
           ++ apply in_app_or in Hin. destruct Hin as [Hin|Hin].
              ** destruct (Hclosed s e Hin). nia.
              ** exists s, e. split; assumption.
      * intros Hs. right. exists b0. split; [|lia].
        apply in_or_app. left.
        destruct (Z.geb_spec (start_offset scan) 0); [left; reflexivity|lia].
      * intros s e Hin. apply in_app_or in Hin. destruct Hin as [Hin|Hin].
        -- destruct (Hclosed s e Hin) as (Hs & H0 & He). subst e.
           split; [lia|]. split; [|left; lia].
           exists O. split; [lia|]. split; [lia|reflexivity].
        -- destruct (Hfrom s e Hin) as (Hse & (j & Hj & He & Hclear) & Hs).
           split; [exact Hse|]. split.
           ++ exists (S j). rewrite Hshift in He.
              split; [lia|]. split; [exact He|exact Hclear].
           ++ destruct Hs as [[Hs Hs0]|Hs]; [lia|].
              right. apply (Hstart s Hs).
      * intros Hs. destruct (Hlast Hs) as [Hsame|Hnew]; [lia|].
        right. apply (Hstart _ Hnew).
Qed.

(** The loop over [cluster_block_data_offset] ends by its own test: with
    at least as many turns as bytes left, more turns change nothing. *)
Lemma scan_words_fuel :
  forall fuel more io block_data block_data_size cluster_block_data_offset scan,
    (Z.to_nat (block_data_size - cluster_block_data_offset) <= fuel)%nat ->
    scan_words (fuel + more) io block_data block_data_size
      cluster_block_data_offset scan
    = scan_words fuel io block_data block_data_size cluster_block_data_offset
        scan.
Proof.
  induction fuel as [|fuel IH]; intros more io block_data size offset scan Hfuel.
  - destruct more as [|more]; [reflexivity|]. cbn [Nat.add scan_words].
    destruct (Z.ltb_spec offset size); [lia|reflexivity].
  - cbn [Nat.add scan_words].
    destruct (Z.ltb_spec offset size); [|reflexivity].
    apply IH. lia.
Qed.

(** A bitmap block of 512 bytes with every bit set, from offset 0 on: one
    range, from cluster 0 to cluster 4096. *)
Example scan_cluster_block_one_run :
  offset_ranges
    (scan_cluster_block {| mft_entry_size := 1024; cluster_block_size := 1 |}
       (repeat xff 512) 512
       {| start_offset := 0; bitmap_offset := 0; offset_ranges := [] |})
  = [(0, 4096)].
Proof. vm_compute. reflexivity. Qed.

Lemma scan_flags_app :
  forall io flags1 flags2 scan,
    scan_flags io (flags1 ++ flags2) scan
    = scan_flags io flags2 (scan_flags io flags1 scan).
Proof.
  intros. unfold scan_flags. apply fold_left_app.
Qed.

Lemma scan_words_flags :
  forall words fuel io block_data block_data_size first_word scan,
    (words <= fuel)%nat ->
    block_data_size = 4 * Z.of_nat (first_word + words) ->
    scan_words fuel io block_data block_data_size (4 * Z.of_nat first_word)
      scan
    = scan_flags io (block_flags block_data first_word words) scan.
Proof.
  induction words as [|words IH];
    intros fuel io block_data size first_word scan Hfuel Hsize.
  - cbn [block_flags]. destruct fuel as [|fuel]; [reflexivity|].
    cbn [scan_words].
    destruct (Z.ltb_spec (4 * Z.of_nat first_word) size); [lia|reflexivity].
  - destruct fuel as [|fuel]; [lia|]. cbn [scan_words block_flags].
    destruct (Z.ltb_spec (4 * Z.of_nat first_word) size); [|lia].
    rewrite scan_flags_app, <- scan_value_32bit_flags.
    replace (4 * Z.of_nat first_word + 4) with (4 * Z.of_nat (S first_word))
      by lia.
    apply IH; lia.
Qed.

Lemma value_flags_length :
  forall bits v, List.length (value_flags bits v) = bits.
Proof.
  intros. unfold value_flags. rewrite length_map, length_seq. reflexivity.
Qed.

Lemma block_flags_length :
  forall block_data words first_word,
    List.length (block_flags block_data first_word words) = (32 * words)%nat.
Proof.
  induction words as [|words IH]; intros first_word; [reflexivity|].
  cbn [block_flags]. rewrite length_app, value_flags_length, IH. lia.
Qed.

Lemma block_flags_nth :
  forall block_data words first_word w k,
    (w < words)%nat -> (k < 32)%nat ->
    nth (32 * w + k) (block_flags block_data first_word words) false
    = Z.testbit (bitmap_word block_data (first_word + w)) (Z.of_nat k).
Proof.
  induction words as [|words IH]; intros first_word w k Hw Hk; [lia|].
  cbn [block_flags]. destruct w as [|w].
  - rewrite app_nth1 by (rewrite value_flags_length; lia).
    replace (32 * 0 + k)%nat with k by lia.
    replace (first_word + 0)%nat with first_word by lia.
    unfold value_flags.
    rewrite (nth_indep _ false (Z.testbit (bitmap_word block_data first_word)
                                  (Z.of_nat 0)))
      by (rewrite length_map, length_seq; lia).
    rewrite (map_nth (fun bit_index =>
                        Z.testbit (bitmap_word block_data first_word)
                          (Z.of_nat bit_index))).
    rewrite seq_nth by lia. reflexivity.
  - rewrite app_nth2 by (rewrite value_flags_length; lia).
    rewrite value_flags_length.
    replace (32 * S w + k - 32)%nat with (32 * w + k)%nat by lia.
    rewrite IH by lia. f_equal. f_equal. lia.
Qed.

Lemma byte_at_testbit_above :
  forall block_data offset i,
    8 <= i -> Z.testbit (byte_at block_data offset) i = false.
Proof.
  intros block_data offset i Hi. unfold byte_at.
  set (b := nth (Z.to_nat offset) block_data x00).
  assert (Hb : 0 <= Z.of_N (Byte.to_N b) < 2 ^ 8).
  { pose proof (Byte.to_N_bounded b). change (2 ^ 8) with 256. lia. }
  apply Z.testbit_false; [lia|].
  rewrite Z.div_small; [reflexivity|].
  split; [lia|]. apply Z.lt_le_trans with (2 ^ 8); [lia|].
  apply Z.pow_le_mono_r; lia.
Qed.

Lemma testbit_shiftl_8 :
  forall a m, Z.testbit (Z.shiftl a 8) m = Z.testbit a (m - 8).
Proof.
  intros a m. destruct (Z.lt_ge_cases m 0).
  - rewrite !Z.testbit_neg_r by lia. reflexivity.
  - apply Z.shiftl_spec. assumption.
Qed.

(** Little endian: bit [k] of word [w] is bit [k mod 8] of the byte at
    [4 * w + k / 8]. *)
Lemma bitmap_word_testbit :
  forall block_data w k,
    0 <= k < 32 ->
    Z.testbit (bitmap_word block_data w) k
    = Z.testbit (byte_at block_data (4 * Z.of_nat w + k / 8)) (k mod 8).
Proof.
  intros block_data w k Hk.
  unfold bitmap_word, byte_stream_copy_to_uint32_little_endian. cbv zeta.
  set (o := 4 * Z.of_nat w).
  repeat (rewrite Z.lor_spec || rewrite testbit_shiftl_8).
  assert (Hq : k / 8 = 0 \/ k / 8 = 1 \/ k / 8 = 2 \/ k / 8 = 3).
  { assert (0 <= k / 8 < 4)
      by (split; [apply Z.div_pos; lia|apply Z.div_lt_upper_bound; lia]).
    lia. }
  pose proof (Z.div_mod k 8 ltac:(lia)) as Hdm.
  pose proof (Z.mod_pos_bound k 8 ltac:(lia)) as Hm.
  destruct Hq as [Hq|[Hq|[Hq|Hq]]]; rewrite Hq in *.
  - replace (k mod 8) with k by lia. rewrite Z.add_0_r.
    rewrite !(Z.testbit_neg_r _ (k - 8)) by lia.
    rewrite !(Z.testbit_neg_r _ (k - 8 - 8)) by lia.
    rewrite !(Z.testbit_neg_r _ (k - 8 - 8 - 8)) by lia.
    reflexivity.
  - replace (k mod 8) with (k - 8) by lia.
    rewrite (byte_at_testbit_above block_data o k) by lia.
    rewrite !(Z.testbit_neg_r _ (k - 8 - 8)) by lia.
    rewrite !(Z.testbit_neg_r _ (k - 8 - 8 - 8)) by lia.
    rewrite orb_false_r. reflexivity.
  - replace (k mod 8) with (k - 8 - 8) by lia.
    rewrite (byte_at_testbit_above block_data o k) by lia.
    rewrite (byte_at_testbit_above block_data (o + 1) (k - 8)) by lia.
    rewrite !(Z.testbit_neg_r _ (k - 8 - 8 - 8)) by lia.
    rewrite !orb_false_r. reflexivity.
  - replace (k mod 8) with (k - 8 - 8 - 8) by lia.
    rewrite (byte_at_testbit_above block_data o k) by lia.
    rewrite (byte_at_testbit_above block_data (o + 1) (k - 8)) by lia.
    rewrite (byte_at_testbit_above block_data (o + 2) (k - 8 - 8)) by lia.
    rewrite !orb_false_r. reflexivity.
Qed.

Lemma scan_cluster_block_ranges :
  forall io block_data block_data_size scan words,
    0 < cluster_block_size io ->
    block_data_size = 4 * Z.of_nat words ->
    0 <= bitmap_offset scan ->
    bitmap_offset scan + Z.of_nat (32 * words) * cluster_block_size io
      <= INT64_MAX ->
    let flags := block_flags block_data 0 words in
    let position j := bitmap_offset scan + Z.of_nat j * cluster_block_size io in
    let scan' := scan_cluster_block io block_data block_data_size scan in
    exists ranges,
      offset_ranges scan' = offset_ranges scan ++ ranges
      /\ bitmap_offset scan' = position (32 * words)%nat
      /\ (forall j,
            (j < 32 * words)%nat ->
            nth j flags false = true <-> covered ranges (position j))
      /\ (forall s e,
            In (s, e) ranges ->
            s < e
            /\ (exists j, s = position j /\ first_of_run flags j)
            /\ (e = position (32 * words)%nat
                \/ exists j,
                     (j < 32 * words)%nat /\ e = position j
                     /\ nth j flags false = false)).
Proof.
  intros io block_data size scan words Hcbs Hsize Hb0 Hmax flags position
    scan'.
  set (scan0 := {| start_offset := -1; bitmap_offset := bitmap_offset scan;
                   offset_ranges := offset_ranges scan |}).
  assert (Hwords :
    scan_words (Z.to_nat size) io block_data size 0 scan0
    = scan_flags io flags scan0).
  { change 0 with (4 * Z.of_nat 0).
    apply scan_words_flags; [lia|]. rewrite Hsize. f_equal. }
  assert (Hlen : List.length flags = (32 * words)%nat)
    by apply block_flags_length.
  destruct (scan_flags_ranges io flags scan0 Hcbs Hb0
              ltac:(cbn [bitmap_offset scan0]; rewrite Hlen; exact Hmax)
              ltac:(cbn; lia))
    as (ranges & Hranges & Hoffset & Hwf & Hcover & _ & Hfrom & Hlast).
  cbn [bitmap_offset start_offset offset_ranges scan0] in *.
  fold scan0 in Hranges, Hoffset, Hwf, Hcover, Hlast.
  rewrite Hlen in Hoffset, Hcover, Hfrom.
  unfold scan'. unfold scan_cluster_block. fold scan0. rewrite Hwords.
  set (scan1 := scan_flags io flags scan0) in *.
  assert (Hfirst : forall s,
             (s = -1 /\ 0 <= -1
              \/ exists j,
                   s = position j /\ first_of_run flags j
                   /\ (j = O -> -1 < 0)) ->
             exists j, s = position j /\ first_of_run flags j).
  { intros s [[_ Habs]|(j & Hs & Hj & _)]; [lia|].
    exists j. split; assumption. }
  destruct (Z.geb_spec (start_offset scan1) 0) as [Hopen|Hclosed].
  - exists (ranges ++ [(start_offset scan1, bitmap_offset scan1)]).
    cbn [offset_ranges bitmap_offset].
    split; [rewrite Hranges, app_assoc; reflexivity|].
    split; [exact Hoffset|]. split.
    + intros j Hj. rewrite (Hcover j Hj). split.
      * intros [(s & e & Hin & Hse)|Hin].
        -- exists s, e. split; [apply in_or_app; left; exact Hin|exact Hse].
        -- exists (start_offset scan1), (bitmap_offset scan1).
           split; [apply in_or_app; right; left; reflexivity|].
           rewrite Hoffset. unfold position. split; [lia|].
           apply Z.add_lt_mono_l. apply Z.mul_lt_mono_pos_r; lia.
      * intros (s & e & Hin & Hse). apply in_app_or in Hin.
        destruct Hin as [Hin|[Heq|[]]].
        -- left. exists s, e. split; assumption.
        -- right. inversion Heq; subst. unfold position in *. lia.
    + intros s e Hin. apply in_app_or in Hin.
      destruct Hin as [Hin|[Heq|[]]].
      * destruct (Hfrom s e Hin) as (Hse & He & Hs).
        split; [exact Hse|]. split; [apply Hfirst, Hs|right; exact He].
      * inversion Heq; subst. split; [exact Hwf|].
        split; [|left; exact Hoffset].
        apply Hfirst. destruct (Hlast ltac:(lia)) as [Hs|Hs];
          [left; split; lia|right; exact Hs].
  - exists ranges. split; [exact Hranges|]. split; [exact Hoffset|]. split.
    + intros j Hj. rewrite (Hcover j Hj). split.
      * intros [Hin|Hin]; [exact Hin|lia].
      * intros Hin. left. exact Hin.
    + intros s e Hin. destruct (Hfrom s e Hin) as (Hse & He & Hs).
      split; [exact Hse|]. split; [apply Hfirst, Hs|right; exact He].
Qed.

Lemma block_flags_bitmap_bit :
  forall block_data words j,
    (j < 32 * words)%nat ->
    nth j (block_flags block_data 0 words) false
    = bitmap_bit block_data (Z.of_nat j).
Proof.
  intros block_data words j Hj.
  pose proof (Nat.div_mod_eq j 32) as Hdm.
  pose proof (Nat.mod_upper_bound j 32 ltac:(lia)) as Hk.
  set (w := (j / 32)%nat) in *. set (k := (j mod 32)%nat) in *.
  rewrite Hdm at 1.
  rewrite block_flags_nth by lia.
  rewrite bitmap_word_testbit by lia.
  unfold bitmap_bit. cbn [Nat.add].
  assert (Hj' : Z.of_nat j = Z.of_nat k + 4 * Z.of_nat w * 8) by lia.
  rewrite Hj'. rewrite Z.div_add, Z.mod_add by lia.
  f_equal. f_equal. lia.
Qed.


(** The scan of a cluster block of [words] 32-bit words, from the offset
    [bitmap_offset scan] on, without leaving the range of [off64_t]: the
    offset advances by one cluster size per bit; the offset of cluster [c]
    of the block lies in a range the scan closes if and only if bit [c] is
    set; every range starts at a set bit that has no set bit before it and
    ends before a bit that is not set, or at the end of the block. *)
Lemma scan_cluster_block_runs :
  forall io block_data block_data_size scan words,
    0 < cluster_block_size io ->
    0 <= words ->
    block_data_size = 4 * words ->
    0 <= bitmap_offset scan ->
    bitmap_offset scan + 32 * words * cluster_block_size io <= INT64_MAX ->
    let scan' := scan_cluster_block io block_data block_data_size scan in
    let offset_of c := bitmap_offset scan + c * cluster_block_size io in
    exists ranges,
      offset_ranges scan' = offset_ranges scan ++ ranges
      /\ bitmap_offset scan' = offset_of (32 * words)
      /\ (forall c,
            0 <= c < 32 * words ->
            bitmap_bit block_data c = true <-> covered ranges (offset_of c))
      /\ (forall s e,
            In (s, e) ranges ->
            exists cs ce,
              0 <= cs < ce /\ ce <= 32 * words
              /\ s = offset_of cs /\ e = offset_of ce
              /\ (cs = 0 \/ bitmap_bit block_data (cs - 1) = false)
              /\ (ce = 32 * words \/ bitmap_bit block_data ce = false)).
Proof.
  intros io block_data size scan words Hcbs Hwords Hsize Hb0 Hmax scan'
    offset_of.
  destruct (scan_cluster_block_ranges io block_data size scan
              (Z.to_nat words) Hcbs ltac:(lia) Hb0 ltac:(lia))
    as (ranges & Hranges & Hoffset & Hcover & Hruns).
  fold scan' in Hranges, Hoffset.
  exists ranges. split; [exact Hranges|].
  split; [rewrite Hoffset; unfold offset_of; lia|]. split.
  - intros c Hc.
    specialize (Hcover (Z.to_nat c) ltac:(lia)).
    rewrite block_flags_bitmap_bit in Hcover by lia.
    rewrite Z2Nat.id in Hcover by lia. exact Hcover.
  - intros s e Hin.
    destruct (Hruns s e Hin) as (Hse & (js & Hs & Hjs & Hset & Hprev) & He).
    assert (Hbefore : Z.of_nat js = 0
                      \/ bitmap_bit block_data (Z.of_nat js - 1) = false).
    { destruct js as [|i]; [left; reflexivity|right].
      replace (Z.of_nat (S i) - 1) with (Z.of_nat i) by lia.
      rewrite <- (block_flags_bitmap_bit block_data (Z.to_nat words) i)
        by (rewrite block_flags_length in Hjs; lia).
      apply (Hprev i). reflexivity. }
    rewrite block_flags_length in Hjs.
    destruct He as [He|(je & Hje & He & Hclear)].
    + exists (Z.of_nat js), (32 * words). unfold offset_of.
      split; [lia|]. split; [lia|]. split; [exact Hs|].
      split; [rewrite He; lia|]. split; [exact Hbefore|left; reflexivity].
    + exists (Z.of_nat js), (Z.of_nat je). unfold offset_of.
      split; [nia|]. split; [lia|]. split; [exact Hs|].
      split; [exact He|]. split; [exact Hbefore|right].
      rewrite <- (block_flags_bitmap_bit block_data (Z.to_nat words) je)
        by lia.
      exact Hclear.
Qed.


(** * The facade on the sample volumes *)

Section SampleVolumes.

Import Sample.

#[local] Existing Instance Sample.types.

Lemma libfsntfs_file_system_read_mft_entry_0_failure_witness :
  libfsntfs_file_system_read_mft (E := externals corrupt_volume)
    (Some new_file_system) (Some io_handle) 0 0 4096 0 []
  = (-1, Some (set_mft new_file_system (Some stub_mft)), 1,
     [(LIBCERROR_ERROR_DOMAIN_RUNTIME,
       LIBCERROR_RUNTIME_ERROR_VALUE_OUT_OF_BOUNDS);
      (LIBCERROR_ERROR_DOMAIN_IO, LIBCERROR_IO_ERROR_READ_FAILED)])
  /\ libfsntfs_file_system_read_mft (E := externals corrupt_volume)
       (Some (set_mft new_file_system (Some stub_mft))) (Some io_handle) 1 0
       4096 0 []
     = (-1, Some (set_mft new_file_system (Some stub_mft)), 1,
        [(LIBCERROR_ERROR_DOMAIN_RUNTIME,
          LIBCERROR_RUNTIME_ERROR_VALUE_ALREADY_SET)]).
Proof.
  destruct (@libfsntfs_file_system_read_mft_entry_0_failure types
              (externals corrupt_volume) new_file_system io_handle 0 0 4096
              0 [] stub_mft [] empty_entry [] (-1) stub_mft 1 empty_entry
              [(LIBCERROR_ERROR_DOMAIN_RUNTIME,
                LIBCERROR_RUNTIME_ERROR_VALUE_OUT_OF_BOUNDS)])
    as (Hfails & _ & _ & Hagain).
  - reflexivity.
  - lia.
  - unfold INT64_MAX; lia.
  - reflexivity.
  - reflexivity.
  - reflexivity.
  - lia.
  - split; [exact Hfails|]. apply Hagain.
Defined.

Lemma libfsntfs_file_system_read_mft_preconditions_witness :
  libfsntfs_file_system_read_mft (E := externals ntfs_volume)
    (Some mounted_file_system) (Some io_handle) 1 0 4096 0 []
  = (-1, Some mounted_file_system, 1,
     [(LIBCERROR_ERROR_DOMAIN_RUNTIME,
       LIBCERROR_RUNTIME_ERROR_VALUE_ALREADY_SET)])
  /\ (exists raised,
        libfsntfs_file_system_read_mft (E := externals ntfs_volume)
          (Some new_file_system) (Some io_handle) 0 (-1) 4096 0 []
        = (-1, Some new_file_system, 0, [raised]))
  /\ libfsntfs_file_system_read_mft (E := externals ntfs_volume)
       (Some new_file_system) (Some io_handle) 0 0 4096 0 []
     = read_mft_bootstrap (E := externals ntfs_volume) new_file_system
         io_handle 0 0 4096 0 [].
Proof.
  destruct (@libfsntfs_file_system_read_mft_preconditions types
              (externals ntfs_volume) mounted_file_system (Some io_handle) 1
              0 4096 0 []) as (Hset & _ & _ & _).
  destruct (@libfsntfs_file_system_read_mft_preconditions types
              (externals ntfs_volume) new_file_system (Some io_handle) 0
              (-1) 4096 0 []) as (_ & Hbounds & _ & _).
  destruct (@libfsntfs_file_system_read_mft_preconditions types
              (externals ntfs_volume) new_file_system (Some io_handle) 0
              0 4096 0 []) as (_ & _ & _ & Hpass).
  split; [|split].
  - apply (Hset (Some new_file_system) (Some io_handle) 0 0 4096 0 [] 1 []).
    reflexivity.
  - apply Hbounds. left. lia.
  - apply Hpass; [reflexivity|lia|unfold INT64_MAX; lia].
Defined.

(** C3, as stated, fails: on a volume whose MFT entry 0 reads well, a call in
    MFT-only mode with [mft_size = 0] returns 1 with an empty error and
    records 0 entries. *)
Lemma libfsntfs_file_system_read_mft_size_zero_succeeds :
  libfsntfs_file_system_read_mft (E := externals ntfs_volume)
    (Some new_file_system) (Some io_handle) 0 0 0 1 []
  = (1,
     Some {| mft := Some {| mft_entry_vector := 1; mft_entry_cache := 0;
                            number_of_mft_entries := 0 |};
             security_descriptor_index := None;
             read_write_lock := Some tt |},
     1, []).
Proof. reflexivity. Qed.

Lemma libfsntfs_file_system_read_mft_size_zero_witness :
  libfsntfs_file_system_read_mft (E := externals ntfs_volume)
    (Some new_file_system) (Some io_handle) 0 0 0 1 []
  = (1, Some (set_mft new_file_system
                (Some (set_number_of_mft_entries stub_mft 0))), 1, []).
Proof.
  destruct (@libfsntfs_file_system_read_mft_size_zero types
              (externals ntfs_volume) new_file_system io_handle 0 0 1 [])
    as (_ & _ & Hsucceeds).
  - reflexivity.
  - lia.
  - cbn. lia.
  - cbn. lia.
  - apply (Hsucceeds stub_mft [] empty_entry [] stub_mft 1
             (file_entry (Some "mft"%string) "$MFT"%string) [] []).
    + cbn. lia.
    + reflexivity.
    + reflexivity.
    + reflexivity.
    + discriminate.
    + reflexivity.
Defined.

Lemma libfsntfs_file_system_read_mft_number_of_entries_witness :
  libfsntfs_file_system_get_number_of_mft_entries
    (Some (set_mft new_file_system
             (Some (set_number_of_mft_entries stub_mft 4)))) []
  = (1, Some (4096 / 1024), []).
Proof.
  destruct (@libfsntfs_file_system_read_mft_number_of_entries types
              (externals ntfs_volume) (Some new_file_system) io_handle 0 0
              4096 1 []
              (set_mft new_file_system
                 (Some (set_number_of_mft_entries stub_mft 4))) 1 [] eq_refl)
    as (m0 & raised0 & e0 & raised1 & m1 & e1 & raised2 & _ & _ & _ & Honly
        & _).
  apply Honly. cbn. lia.
Defined.

Lemma libfsntfs_file_system_read_mft_mft_only_missing_data_attribute_witness :
  libfsntfs_file_system_read_mft (E := externals no_data_volume)
    (Some new_file_system) (Some io_handle) 0 0 4096 1 []
  = (-1, Some (set_mft new_file_system (Some stub_mft)), 1,
     [(LIBCERROR_ERROR_DOMAIN_RUNTIME,
       LIBCERROR_RUNTIME_ERROR_VALUE_MISSING)]).
Proof.
  destruct (@libfsntfs_file_system_read_mft_mft_only_missing_data_attribute
              types (externals no_data_volume) new_file_system io_handle 0 0
              4096 1 [] stub_mft [] empty_entry [] stub_mft 1
              (file_entry None "$MFT"%string) [])
    as (Hmissing & _).
  - reflexivity.
  - lia.
  - unfold INT64_MAX; lia.
  - cbn. lia.
  - reflexivity.
  - reflexivity.
  - reflexivity.
  - apply Hmissing. reflexivity.
Defined.

Lemma libfsntfs_file_system_read_security_descriptors_no_secure_witness :
  libfsntfs_file_system_read_security_descriptors
    (E := externals legacy_volume) (Some mounted_file_system)
    (Some io_handle) 1 []
  = (1,
     Some (set_mft mounted_file_system
             (Some (mounted_mft 1))),
     2, [])
  /\ libfsntfs_file_system_get_security_descriptor_values_by_identifier
       (E := externals legacy_volume)
       (Some (set_mft mounted_file_system
                (Some (mounted_mft 1))))
       2 256 []
     = ((0,
         Some (set_mft mounted_file_system
                 (Some (mounted_mft 1))),
         2, []), None).
Proof.
  destruct (@libfsntfs_file_system_read_security_descriptors_no_secure types
              (externals legacy_volume) mounted_file_system (Some io_handle)
              1 []
              (Some (mounted_mft 1))
              2 (file_entry None "$Quota"%string) []
              (Some "$Quota"%string) [] EmptyString [] "$Quota"%string [] 0
              [] [])
    as (Hreturned & _ & Hlookup).
  - reflexivity.
  - reflexivity.
  - reflexivity.
  - reflexivity.
  - reflexivity.
  - reflexivity.
  - lia.
  - cbn. lia.
  - reflexivity.
  - split; [exact Hreturned|apply Hlookup].
Defined.

(** C6, as stated, fails: a bitmap whose only cluster block is retrieved
    with data and has a size of 2^63, a multiple of 4 that is above
    SSIZE_MAX: the loop stops at that block and the call returns -1. *)
Lemma libfsntfs_file_system_read_bitmap_block_above_ssize_max :
  Forall (fun block => block_scanned block /\ block_size block mod 4 = 0)
    (retrieved_blocks (E := externals huge_bitmap_volume) 1 1 2 0 0)
  /\ blocks_completed
       (read_bitmap_blocks (E := externals huge_bitmap_volume) 1 io_handle 1
          2 0 0
          {| start_offset := 0; bitmap_offset := 0; offset_ranges := [] |} [])
     = false
  /\ libfsntfs_file_system_read_bitmap (E := externals huge_bitmap_volume)
       (Some mounted_file_system) (Some io_handle) 1 []
     = (-1,
        Some (set_mft mounted_file_system
                (Some (mounted_mft 1))),
        3,
        [(LIBCERROR_ERROR_DOMAIN_RUNTIME,
          LIBCERROR_RUNTIME_ERROR_VALUE_OUT_OF_BOUNDS)]).
Proof.
  split; [|split; reflexivity].
  repeat constructor. cbn. eexists. eexists. split; reflexivity.
Qed.

Lemma libfsntfs_file_system_read_bitmap_block_sizes_witness :
  (fst (fst (fst (libfsntfs_file_system_read_bitmap
                    (E := externals odd_bitmap_volume)
                    (Some mounted_file_system) (Some io_handle) 1 []))) = -1
   /\ last (snd (libfsntfs_file_system_read_bitmap
                   (E := externals odd_bitmap_volume)
                   (Some mounted_file_system) (Some io_handle) 1 []))
        no_error
      = (LIBCERROR_ERROR_DOMAIN_RUNTIME,
         LIBCERROR_RUNTIME_ERROR_VALUE_OUT_OF_BOUNDS))
  /\ fst (fst (fst (libfsntfs_file_system_read_bitmap
                      (E := externals ntfs_volume)
                      (Some mounted_file_system) (Some io_handle) 1 []))) = 1.
Proof.
  assert (Hscanned : forall block_data block_data_size,
             block_scanned
               (1, Some {| data := Some block_data;
                           data_size := block_data_size |})).
  { intros block_data block_data_size. split; [reflexivity|].
    eexists. eexists. split; reflexivity. }
  destruct (@libfsntfs_file_system_read_bitmap_block_sizes types
              (externals odd_bitmap_volume) mounted_file_system io_handle 1
              []
              (Some (mounted_mft 1))
              2 (file_entry (Some "bitmap"%string) "$Bitmap"%string) []
              "bitmap"%string 2 [] 0 [] 2 [])
    as (Hodd & _); try reflexivity.
  destruct (@libfsntfs_file_system_read_bitmap_block_sizes types
              (externals ntfs_volume) mounted_file_system io_handle 1
              []
              (Some (mounted_mft 1))
              2 (file_entry (Some "bitmap"%string) "$Bitmap"%string) []
              "bitmap"%string 2 [] 0 [] 2 [])
    as (_ & Heven); try reflexivity.
  split.
  - apply Hodd.
    + repeat constructor; apply Hscanned.
    + vm_compute. discriminate.
  - apply Heven.
    + repeat constructor; first [apply Hscanned | cbn; lia].
    + reflexivity.
    + reflexivity.
Defined.

(** C8, as stated, fails: on a volume whose entry 9 is not named "$Secure"
    the call returns 1 and leaves the index NULL, and a second call returns
    1 again instead of a value-already-set error. *)
Lemma libfsntfs_file_system_read_security_descriptors_twice_without_secure :
  libfsntfs_file_system_read_security_descriptors
    (E := externals legacy_volume) (Some mounted_file_system)
    (Some io_handle) 1 []
  = (1,
     Some (mounted 1 None),
     2, [])
  /\ libfsntfs_file_system_read_security_descriptors
       (E := externals legacy_volume)
       (Some (mounted 1 None))
       (Some io_handle) 2 []
     = (1,
        Some (mounted 2 None),
        3, []).
Proof. split; reflexivity. Qed.

Lemma libfsntfs_file_system_read_security_descriptors_index_state_witness :
  security_descriptor_index (set_mft new_file_system None) = None
  /\ libfsntfs_file_system_read_security_descriptors
       (E := externals ntfs_volume)
       (Some (mounted 1 (Some [(256, [x01; x00; x04; x80])])))
       (Some io_handle) 3 []
     = (-1,
        Some (mounted 1 (Some [(256, [x01; x00; x04; x80])])),
        3,
        [(LIBCERROR_ERROR_DOMAIN_RUNTIME,
          LIBCERROR_RUNTIME_ERROR_VALUE_ALREADY_SET)]).
Proof.
  destruct (@libfsntfs_file_system_read_security_descriptors_index_state
              types (externals corrupt_volume) new_file_system
              (Some io_handle) 0 [] (-1) (set_mft new_file_system None) 0
              [(LIBCERROR_ERROR_DOMAIN_ARGUMENTS,
                LIBCERROR_ARGUMENT_ERROR_INVALID_VALUE);
               (LIBCERROR_ERROR_DOMAIN_RUNTIME,
                LIBCERROR_RUNTIME_ERROR_GET_FAILED)] eq_refl)
    as (Hfailed & _).
  destruct (@libfsntfs_file_system_read_security_descriptors_index_state
              types (externals ntfs_volume) mounted_file_system
              (Some io_handle) 1 [] 1
              (mounted 1 (Some [(256, [x01; x00; x04; x80])]))
              3 [] eq_refl)
    as (_ & _ & _ & Hagain).
  split.
  - apply Hfailed; [reflexivity|lia].
  - apply Hagain; [reflexivity|discriminate].
Defined.

End SampleVolumes.

(** * More of the facade *)

(** Case analysis on every call and test of an embedded function. *)
Ltac split_call :=
  match goal with
  | |- context [let '(_, _) := ?c in _] => destruct c eqn:?
  | |- context [match ?c with Some _ => _ | None => _ end] => destruct c eqn:?
  | |- context [if ?c then _ else _] => destruct c eqn:?
  end.

Ltac split_calls := repeat (split_call; cbn [negb andb orb fst snd]).

Section FileSystemInterface.

Context {T : ExternalTypes} {E : Externals}.

(** An error that grew: the incoming error is a prefix of the outgoing
    one. *)
Lemma error_grows :
  forall (error added : libcerror_error_t) d c,
    exists more, (error ++ added) ++ [(d, c)] = error ++ more /\ more <> [].
Proof.
  intros error added d c. exists (added ++ [(d, c)]).
  split; [rewrite app_assoc; reflexivity|].
  intros H. apply (f_equal (@List.length _)) in H.
  rewrite length_app in H. cbn in H. lia.
Qed.

(** X1.  libfsntfs_file_system_initialize returns 1 only for a pointer that
    references NULL, and then the pointer references a facade without MFT
    and without security descriptor index (and, without multi-thread
    support, the error is as it was); in every other case it returns -1,
    leaves the pointer argument and what it references as they were, and
    adds at least one entry to the error. *)
Theorem libfsntfs_file_system_initialize_contract :
  forall (file_system : option (option libfsntfs_file_system_t))
         (error : libcerror_error_t),
    let '(r, after, error') :=
      libfsntfs_file_system_initialize file_system error in
    (r = 1 /\ file_system = Some None
     /\ exists fs,
          after = Some (Some fs) /\ mft fs = None
          /\ security_descriptor_index fs = None
          /\ (HAVE_LIBFSNTFS_MULTI_THREAD_SUPPORT = false -> error' = error))
    \/ (r = -1 /\ after = file_system
        /\ exists added, error' = error ++ added /\ added <> []).
Proof.
  intros [[fs|]|] error; unfold libfsntfs_file_system_initialize,
    libcerror_error_set.
  - right. split; [reflexivity|]. split; [reflexivity|].
    exists [(LIBCERROR_ERROR_DOMAIN_RUNTIME,
             LIBCERROR_RUNTIME_ERROR_VALUE_ALREADY_SET)].
    split; [reflexivity|discriminate].
  - destruct memory_allocate_structure; cbn [negb].
    + destruct memory_set; cbn [negb].
      * destruct HAVE_LIBFSNTFS_MULTI_THREAD_SUPPORT eqn:Hmt.
        -- destruct libcthreads_read_write_lock_initialize as [[lock|] raised].
           ++ left. split; [reflexivity|]. split; [reflexivity|].
              eexists. split; [reflexivity|]. split; [reflexivity|].
              split; [reflexivity|discriminate].
           ++ right. split; [reflexivity|]. split; [reflexivity|].
              apply error_grows.
        -- left. split; [reflexivity|]. split; [reflexivity|].
           eexists. split; [reflexivity|]. split; [reflexivity|].
           split; reflexivity.
      * right. split; [reflexivity|]. split; [reflexivity|].
        eexists. split; [reflexivity|discriminate].
    + right. split; [reflexivity|]. split; [reflexivity|].
      eexists. split; [reflexivity|discriminate].
  - right. split; [reflexivity|]. split; [reflexivity|].
    eexists. split; [reflexivity|discriminate].
Qed.

(** Which destructors a call of free on a facade found fit. *)
Lemma free_destructors_summary :
  forall (fs : libfsntfs_file_system_t) (error : libcerror_error_t),
    let lock_freed :=
      if HAVE_LIBFSNTFS_MULTI_THREAD_SUPPORT
      then fst (libcthreads_read_write_lock_free (read_write_lock fs)) =? 1
      else true in
    let index_freed :=
      match security_descriptor_index fs with
      | Some index =>
          fst (libfsntfs_security_descriptor_index_free index) =? 1
      | None => true
      end in
    let mft_freed :=
      match mft fs with
      | Some m => fst (libfsntfs_mft_free m) =? 1
      | None => true
      end in
    let '(r, after, error') :=
      libfsntfs_file_system_free (Some (Some fs)) error in
    after = Some None
    /\ r = (if lock_freed && index_freed && mft_freed then 1 else -1)
    /\ exists added, error' = error ++ added /\ (r = -1 -> added <> []).
Proof.
  intros fs error. unfold libfsntfs_file_system_free, libcerror_error_set.
  assert (Hgrow : forall (e a : libcerror_error_t) x (r : Z),
             exists added, e ++ a ++ [x] = e ++ added /\ (r = -1 -> added <> [])).
  { intros e a x r. exists (a ++ [x]). split; [reflexivity|].
    intros _ H. apply (f_equal (@List.length _)) in H.
    rewrite length_app in H. cbn in H. lia. }
  assert (Hsame : forall (e a : libcerror_error_t),
             exists added, e ++ a = e ++ added /\ (1 = -1 -> added <> [])).
  { intros e a. exists a. split; [reflexivity|]. intros H; discriminate H. }
  destruct HAVE_LIBFSNTFS_MULTI_THREAD_SUPPORT;
    [destruct (libcthreads_read_write_lock_free (read_write_lock fs))
       as [rl raisedl]; cbn [fst snd]; destruct (rl =? 1)|];
    (destruct (security_descriptor_index fs) as [index|];
     [destruct (libfsntfs_security_descriptor_index_free index)
        as [ri raisedi]; cbn [fst snd]; destruct (ri =? 1)|]);
    (destruct (mft fs) as [m|];
     [destruct (libfsntfs_mft_free m) as [rm raisedm];
      cbn [fst snd]; destruct (rm =? 1)|]);
    cbn [negb fst snd andb];
    (split; [reflexivity|]); (split; [reflexivity|]);
    rewrite <- ?app_assoc;
    first [apply Hsame
          |apply Hgrow
          |rewrite <- (app_nil_r error) at 2; apply Hsame
          |idtac].
  all: try (exists []; split; [rewrite app_nil_r; reflexivity|intros H; discriminate H]).
  all: try (eexists; split; [reflexivity|]; intros _ H;
            apply (f_equal (@List.length _)) in H;
            rewrite ?length_app in H; cbn in H; lia).
Qed.

(** The error of free holds what each destructor added, in the order of the
    calls, whatever the destructors before it returned. *)
Lemma free_destructors_trace :
  forall (fs : libfsntfs_file_system_t) (error : libcerror_error_t),
    snd (libfsntfs_file_system_free (Some (Some fs)) error)
    = ((error
        ++ (if HAVE_LIBFSNTFS_MULTI_THREAD_SUPPORT
            then destructor_trace
                   (libcthreads_read_write_lock_free (read_write_lock fs))
            else []))
       ++ match security_descriptor_index fs with
          | Some index =>
              destructor_trace
                (libfsntfs_security_descriptor_index_free index)
          | None => []
          end)
      ++ match mft fs with
         | Some m => destructor_trace (libfsntfs_mft_free m)
         | None => []
         end.
Proof.
  intros fs error.
  unfold libfsntfs_file_system_free, libcerror_error_set, destructor_trace.
  destruct HAVE_LIBFSNTFS_MULTI_THREAD_SUPPORT;
    [destruct (libcthreads_read_write_lock_free (read_write_lock fs))
       as [rl raisedl]; cbn [fst snd]; destruct (rl =? 1)|];
    (destruct (security_descriptor_index fs) as [index|];
     [destruct (libfsntfs_security_descriptor_index_free index)
        as [ri raisedi]; cbn [fst snd]; destruct (ri =? 1)|]);
    (destruct (mft fs) as [m|];
     [destruct (libfsntfs_mft_free m) as [rm raisedm];
      cbn [fst snd]; destruct (rm =? 1)|]);
    cbn [negb fst snd];
    rewrite ?app_nil_r, <- ?app_assoc; reflexivity.
Qed.

(** X2.  libfsntfs_file_system_free on a facade always leaves the pointer
    NULL and returns 1 or -1; it returns 1 exactly when every destructor it
    calls returns 1: the one of the lock (with multi-thread support), the
    one of the security descriptor index if one is set, the one of the MFT
    if one is set.  A failing destructor does not stop the others: the error
    the call leaves is the error it received followed by what each of these
    destructors added, in this order, with an entry finalize-failed after
    each one that did not return 1; so a call that returns -1 has added at
    least one entry. *)
Theorem libfsntfs_file_system_free_result :
  forall (fs : libfsntfs_file_system_t) (error : libcerror_error_t),
    let '(r, after, error') :=
      libfsntfs_file_system_free (Some (Some fs)) error in
    after = Some None
    /\ (r = 1 \/ r = -1)
    /\ (r = 1 <->
        (HAVE_LIBFSNTFS_MULTI_THREAD_SUPPORT = true ->
         fst (libcthreads_read_write_lock_free (read_write_lock fs)) = 1)
        /\ (forall index,
              security_descriptor_index fs = Some index ->
              fst (libfsntfs_security_descriptor_index_free index) = 1)
        /\ (forall m,
              mft fs = Some m -> fst (libfsntfs_mft_free m) = 1))
    /\ (exists added, error' = error ++ added /\ (r = -1 -> added <> []))
    /\ error'
       = ((error
           ++ (if HAVE_LIBFSNTFS_MULTI_THREAD_SUPPORT
               then destructor_trace
                      (libcthreads_read_write_lock_free (read_write_lock fs))
               else []))
          ++ match security_descriptor_index fs with
             | Some index =>
                 destructor_trace
                   (libfsntfs_security_descriptor_index_free index)
             | None => []
             end)
         ++ match mft fs with
            | Some m => destructor_trace (libfsntfs_mft_free m)
            | None => []
            end.
Proof.
  intros fs error.
  pose proof (free_destructors_summary fs error) as H.
  pose proof (free_destructors_trace fs error) as Htrace.
  cbv zeta in H.
  destruct (libfsntfs_file_system_free (Some (Some fs)) error)
    as [[r after] error'].
  cbn [snd] in Htrace.
  destruct H as (Hafter & Hr & Herror).
  split; [exact Hafter|].
  split; [|split; [|split; [exact Herror|exact Htrace]]].
  - rewrite Hr. destruct (_ && _); [left|right]; reflexivity.
  - rewrite Hr. split.
    + intros H1.
      destruct (_ && _) eqn:Hall; [|discriminate H1].
      apply andb_true_iff in Hall. destruct Hall as [Hall Hmft].
      apply andb_true_iff in Hall. destruct Hall as [Hlock Hindex].
      split; [|split].
      * intros Hmt. rewrite Hmt in Hlock. apply Z.eqb_eq. exact Hlock.
      * intros index Heq. rewrite Heq in Hindex. apply Z.eqb_eq. exact Hindex.
      * intros m Heq. rewrite Heq in Hmft. apply Z.eqb_eq. exact Hmft.
    + intros (Hlock & Hindex & Hmft).
      assert (Hl : (if HAVE_LIBFSNTFS_MULTI_THREAD_SUPPORT
                    then fst (libcthreads_read_write_lock_free
                                (read_write_lock fs)) =? 1
                    else true) = true).
      { destruct HAVE_LIBFSNTFS_MULTI_THREAD_SUPPORT; [|reflexivity].
        apply Z.eqb_eq. apply Hlock. reflexivity. }
      assert (Hi : match security_descriptor_index fs with
                   | Some index =>
                       fst (libfsntfs_security_descriptor_index_free index)
                       =? 1
                   | None => true
                   end = true).
      { destruct (security_descriptor_index fs); [|reflexivity].
        apply Z.eqb_eq. apply Hindex. reflexivity. }
      assert (Hm : match mft fs with
                   | Some m => fst (libfsntfs_mft_free m) =? 1
                   | None => true
                   end = true).
      { destruct (mft fs); [|reflexivity].
        apply Z.eqb_eq. apply Hmft. reflexivity. }
      rewrite Hl, Hi, Hm. reflexivity.
Qed.


Lemma reported_success :
  forall error added, reported 1 error (error ++ added).
Proof.
  intros error added. split; [left; reflexivity|].
  exists added. split; [reflexivity|]. intros H; discriminate H.
Qed.

Lemma reported_failure :
  forall error added d c,
    reported (-1) error (libcerror_error_set (error ++ added) d c).
Proof.
  intros error added d c. split; [right; reflexivity|].
  destruct (error_grows error added d c) as (more & Heq & Hmore).
  exists more. split; [exact Heq|]. intros _. exact Hmore.
Qed.

Lemma reported_failure_0 :
  forall error d c, reported (-1) error (libcerror_error_set error d c).
Proof.
  intros error d c. rewrite <- (app_nil_r error) at 2.
  apply reported_failure.
Qed.

Lemma reported_success_0 : forall error, reported 1 error error.
Proof.
  intros error. rewrite <- (app_nil_r error) at 2. apply reported_success.
Qed.

Ltac reported_now :=
  cbn [fst snd];
  repeat rewrite <- app_assoc;
  first [ apply reported_success_0
        | apply reported_failure_0
        | apply reported_success
        | apply reported_failure ].

Lemma read_mft_reported :
  forall file_system io file_io_handle mft_offset mft_size flags error,
    let returned :=
      libfsntfs_file_system_read_mft file_system io file_io_handle mft_offset
        mft_size flags error in
    reported (fst (fst (fst returned))) error (snd returned).
Proof.
  intros file_system io fio off size flags error returned. subst returned.
  unfold libfsntfs_file_system_read_mft, read_mft_bootstrap.
  split_calls; reported_now.
Qed.

Lemma read_security_descriptors_reported :
  forall file_system io file_io_handle error,
    let returned :=
      libfsntfs_file_system_read_security_descriptors file_system io
        file_io_handle error in
    reported (fst (fst (fst returned))) error (snd returned).
Proof.
  intros file_system io fio error returned. subst returned.
  unfold libfsntfs_file_system_read_security_descriptors,
    read_security_descriptors_on_error.
  split_calls; reported_now.
Qed.

Lemma read_bitmap_blocks_reported :
  forall remaining io vector file_io_handle cache cluster_block_index scan
         error,
    let blocks :=
      read_bitmap_blocks remaining io vector file_io_handle cache
        cluster_block_index scan error in
    exists added,
      blocks_error blocks = error ++ added
      /\ (blocks_completed blocks = false -> added <> []).
Proof.
  induction remaining as [|remaining IH];
    intros io vector fio cache idx scan error.
  - cbn. exists []. split; [rewrite app_nil_r; reflexivity|].
    intros H; discriminate H.
  - cbn [read_bitmap_blocks].
    destruct (libfdata_vector_get_element_value_by_index vector fio cache idx 0)
      as [[[[[r vector'] fio'] cache'] block] raised].
    assert (Hfailed : forall c,
               exists added,
                 libcerror_error_set (error ++ raised)
                   LIBCERROR_ERROR_DOMAIN_RUNTIME c = error ++ added
                 /\ (false = false -> added <> [])).
    { intros c. destruct (error_grows error raised
                            LIBCERROR_ERROR_DOMAIN_RUNTIME c)
        as (more & Heq & Hmore).
      exists more. split; [exact Heq|]. intros _. exact Hmore. }
    destruct (negb (r =? 1)); [apply Hfailed|].
    destruct block as [block|]; [|apply Hfailed].
    destruct (data block) as [bytes|]; [|apply Hfailed].
    destruct (negb (data_size block mod 4 =? 0)
              || (data_size block >? SSIZE_MAX)); [apply Hfailed|].
    destruct (IH io vector' fio' cache' (idx + 1)
                (scan_cluster_block io bytes (data_size block) scan)
                (error ++ raised)) as (added & Heq & Hadded).
    exists (raised ++ added). split; [rewrite Heq, app_assoc; reflexivity|].
    intros Hstop Habs. apply app_eq_nil in Habs. destruct Habs as [_ Habs].
    exact (Hadded Hstop Habs).
Qed.

Lemma read_bitmap_reported :
  forall file_system io file_io_handle error,
    let returned :=
      libfsntfs_file_system_read_bitmap file_system io file_io_handle error in
    reported (fst (fst (fst returned))) error (snd returned).
Proof.
  intros file_system io fio error returned. subst returned.
  unfold libfsntfs_file_system_read_bitmap.
  destruct file_system as [fs|]; [|reported_now].
  destruct io as [io|]; [|reported_now].
  destruct (libfsntfs_mft_get_mft_entry_by_index (mft fs) fio
              LIBFSNTFS_MFT_ENTRY_INDEX_BITMAP)
    as [[[[r m1] fio1] e] raised0].
  destruct (negb (r =? 1)); [reported_now|].
  destruct e as [e|]; [|reported_now].
  destruct (data_attribute e) as [a|]; [|reported_now].
  destruct (libfsntfs_cluster_block_vector_initialize io a)
    as [[vector|] raised1]; [|reported_now].
  destruct (libfcache_cache_initialize 1) as [[cache|] raised2];
    [|reported_now].
  destruct (libfdata_vector_get_number_of_elements vector)
    as [[rn n] raised3].
  destruct (negb (rn =? 1)); [reported_now|].
  cbv zeta.
  destruct (read_bitmap_blocks_reported (Z.to_nat n) io vector fio1 cache 0
              {| start_offset := 0; bitmap_offset := 0; offset_ranges := [] |}
              ((((error ++ raised0) ++ raised1) ++ raised2) ++ raised3))
    as (added & Heq & Hadded).
  cbv zeta in Heq, Hadded.
  destruct (blocks_completed _) eqn:Hdone; cbn [negb].
  - destruct (libfdata_vector_free _) as [rv raisedv].
    destruct (negb (rv =? 1)); [rewrite Heq; reported_now|].
    destruct (libfcache_cache_free _) as [rc raisedc].
    destruct (negb (rc =? 1)); rewrite Heq; reported_now.
  - cbn [fst snd]. rewrite Heq. split; [right; reflexivity|].
    repeat rewrite <- app_assoc. eexists. split; [reflexivity|].
    intros _ Habs.
    repeat (apply app_eq_nil in Habs; destruct Habs as [_ Habs]).
    exact (Hadded eq_refl Habs).
Qed.

Lemma get_security_descriptor_values_by_identifier_reported :
  forall file_system file_io_handle identifier error,
    let returned :=
      fst (libfsntfs_file_system_get_security_descriptor_values_by_identifier
             file_system file_io_handle identifier error) in
    exists added,
      snd returned = error ++ added
      /\ (fst (fst (fst returned)) = -1 -> added <> []).
Proof.
  intros file_system fio id error returned. subst returned.
  unfold libfsntfs_file_system_get_security_descriptor_values_by_identifier.
  destruct file_system as [fs|];
    [|apply (reported_failure_0 error LIBCERROR_ERROR_DOMAIN_ARGUMENTS
               LIBCERROR_ARGUMENT_ERROR_INVALID_VALUE)].
  destruct (security_descriptor_index fs) as [index|].
  - destruct (libfsntfs_security_descriptor_index_get_entry_by_identifier
                index fio id) as [[[[r index'] fio'] values] raised].
    destruct (Z.eqb_spec r (-1)) as [->|Hr]; cbn [fst snd].
    + apply (reported_failure error raised).
    + exists raised. split; [reflexivity|]. intros H; contradiction.
  - cbn. exists []. split; [rewrite app_nil_r; reflexivity|].
    intros H; discriminate H.
Qed.

Lemma get_mft_entry_by_index_reported :
  forall file_system file_io_handle mft_entry_index error,
    (let returned :=
       fst (libfsntfs_file_system_get_mft_entry_by_index file_system
              file_io_handle mft_entry_index error) in
     reported (fst (fst (fst returned))) error (snd returned))
    /\ (let returned :=
          fst (libfsntfs_file_system_get_mft_entry_by_index_no_cache
                 file_system file_io_handle mft_entry_index error) in
        reported (fst (fst (fst returned))) error (snd returned))
    /\ (let returned :=
          libfsntfs_file_system_get_number_of_mft_entries file_system error in
        reported (fst (fst returned)) error (snd returned)).
Proof.
  intros file_system fio i error. split; [|split]; cbv zeta.
  - unfold libfsntfs_file_system_get_mft_entry_by_index.
    split_calls; reported_now.
  - unfold libfsntfs_file_system_get_mft_entry_by_index_no_cache.
    split_calls; reported_now.
  - unfold libfsntfs_file_system_get_number_of_mft_entries.
    split_calls; reported_now.
Qed.

(** X4.  The functions documented to return 1 or -1 return nothing else,
    whatever the functions they call return (for read_mft: with an IO
    handle whose [mft_entry_size] is not 0, the divisor of line 366); every
    function only adds entries at the end of the error it received, and a
    call that returns -1 has added at least one. *)
Theorem libfsntfs_file_system_results_reported :
  forall (file_system : option libfsntfs_file_system_t)
         (io : option libfsntfs_io_handle_t)
         (file_io_handle : libbfio_handle_t)
         (mft_offset mft_size flags mft_entry_index identifier : Z)
         (error : libcerror_error_t),
    ((forall io_handle, io = Some io_handle -> mft_entry_size io_handle <> 0) ->
     let returned :=
       libfsntfs_file_system_read_mft file_system io file_io_handle
         mft_offset mft_size flags error in
     reported (fst (fst (fst returned))) error (snd returned))
    /\ (let returned :=
          libfsntfs_file_system_read_bitmap file_system io file_io_handle
            error in
        reported (fst (fst (fst returned))) error (snd returned))
    /\ (let returned :=
          libfsntfs_file_system_read_security_descriptors file_system io
            file_io_handle error in
        reported (fst (fst (fst returned))) error (snd returned))
    /\ (let returned :=
          libfsntfs_file_system_get_number_of_mft_entries file_system error in
        reported (fst (fst returned)) error (snd returned))
    /\ (let returned :=
          fst (libfsntfs_file_system_get_mft_entry_by_index file_system
                 file_io_handle mft_entry_index error) in
        reported (fst (fst (fst returned))) error (snd returned))
    /\ (let returned :=
          fst (libfsntfs_file_system_get_mft_entry_by_index_no_cache
                 file_system file_io_handle mft_entry_index error) in
        reported (fst (fst (fst returned))) error (snd returned))
    /\ (let returned :=
          fst (libfsntfs_file_system_get_security_descriptor_values_by_identifier
                 file_system file_io_handle identifier error) in
        exists added,
          snd returned = error ++ added
          /\ (fst (fst (fst returned)) = -1 -> added <> [])).
Proof.
  intros file_system io fio off size flags i id error.
  destruct (get_mft_entry_by_index_reported file_system fio i error)
    as (Hentry & Hfresh & Hnumber).
  split; [intros _; apply read_mft_reported|].
  split; [apply read_bitmap_reported|].
  split; [apply read_security_descriptors_reported|].
  split; [exact Hnumber|]. split; [exact Hentry|]. split; [exact Hfresh|].
  apply get_security_descriptor_values_by_identifier_reported.
Qed.

(** X5.  Each function writes its own part of the facade only: read_mft
    leaves the security descriptor index and the lock as they are;
    read_security_descriptors leaves the lock as it is and the MFT as it is
    or as the lookup of entry 9 left it; the lookups of an MFT entry leave
    the security descriptor index and the lock as they are; the lookup of a
    security descriptor leaves the MFT and the lock as they are and a NULL
    index NULL. *)
Theorem libfsntfs_file_system_frames :
  forall (fs : libfsntfs_file_system_t) (io : option libfsntfs_io_handle_t)
         (file_io_handle : libbfio_handle_t)
         (mft_offset mft_size flags mft_entry_index identifier : Z)
         (error : libcerror_error_t),
    (exists fs',
        facade_after
          (libfsntfs_file_system_read_mft (Some fs) io file_io_handle
             mft_offset mft_size flags error) = Some fs'
        /\ security_descriptor_index fs' = security_descriptor_index fs
        /\ read_write_lock fs' = read_write_lock fs)
    /\ (exists fs',
          facade_after
            (libfsntfs_file_system_read_security_descriptors (Some fs) io
               file_io_handle error) = Some fs'
          /\ read_write_lock fs' = read_write_lock fs
          /\ (mft fs' = mft fs
              \/ mft fs'
                 = snd (fst (fst (fst
                     (libfsntfs_mft_get_mft_entry_by_index (mft fs)
                        file_io_handle LIBFSNTFS_MFT_ENTRY_INDEX_SECURE))))))
    /\ (exists fs',
          facade_after
            (fst (libfsntfs_file_system_get_mft_entry_by_index (Some fs)
                    file_io_handle mft_entry_index error)) = Some fs'
          /\ security_descriptor_index fs' = security_descriptor_index fs
          /\ read_write_lock fs' = read_write_lock fs)
    /\ (exists fs',
          facade_after
            (fst (libfsntfs_file_system_get_mft_entry_by_index_no_cache
                    (Some fs) file_io_handle mft_entry_index error)) = Some fs'
          /\ security_descriptor_index fs' = security_descriptor_index fs
          /\ read_write_lock fs' = read_write_lock fs)
    /\ (exists fs',
          facade_after
            (fst (libfsntfs_file_system_get_security_descriptor_values_by_identifier
                    (Some fs) file_io_handle identifier error)) = Some fs'
          /\ mft fs' = mft fs
          /\ read_write_lock fs' = read_write_lock fs
          /\ (security_descriptor_index fs' = None
              <-> security_descriptor_index fs = None)).
Proof.
  intros fs io fio off size flags i id error. unfold facade_after.
  split; [|split; [|split; [|split]]].
  - unfold libfsntfs_file_system_read_mft, read_mft_bootstrap.
    split_calls; eexists; (split; [reflexivity|]); split; reflexivity.
  - unfold libfsntfs_file_system_read_security_descriptors,
      read_security_descriptors_on_error.
    destruct (security_descriptor_index fs);
      [cbn; eexists; split; [reflexivity|]; split; [reflexivity|];
       left; reflexivity|].
    destruct (libfsntfs_mft_get_mft_entry_by_index (mft fs) fio
                LIBFSNTFS_MFT_ENTRY_INDEX_SECURE)
      as [[[[r m1] fio1] e] raised0].
    cbn [fst snd].
    split_calls; eexists; (split; [reflexivity|]);
      (split; [reflexivity|]); right; reflexivity.
  - unfold libfsntfs_file_system_get_mft_entry_by_index.
    split_calls; eexists; (split; [reflexivity|]); split; reflexivity.
  - unfold libfsntfs_file_system_get_mft_entry_by_index_no_cache.
    split_calls; eexists; (split; [reflexivity|]); split; reflexivity.
  - unfold libfsntfs_file_system_get_security_descriptor_values_by_identifier.
    destruct (security_descriptor_index fs) eqn:Hsdi.
    + split_calls; eexists; (split; [reflexivity|]);
        (split; [reflexivity|]); (split; [reflexivity|]);
        cbn; split; intros H; discriminate H.
    + cbn. eexists. split; [reflexivity|]. split; [reflexivity|].
      split; [reflexivity|]. rewrite Hsdi. split; intros; reflexivity.
Qed.

(** X6.  In MFT-only mode, with a size of the MFT entries that is not 0,
    once entry 0 is read and has a $DATA attribute: when
    [mft_size / mft_entry_size] exceeds INT_MAX the call returns -1
    with a value-out-of-bounds error and the count of the MFT is not
    written; a call that returns 1 has a count of at most INT_MAX. *)
Theorem libfsntfs_file_system_read_mft_mft_only_bound :
  forall (fs : libfsntfs_file_system_t) (io : libfsntfs_io_handle_t)
         (file_io_handle : libbfio_handle_t) (mft_offset mft_size flags : Z)
         (error : libcerror_error_t)
         m0 raised0 e0 raised1 m1 file_io_handle1 e1 raised2,
    mft fs = None -> 0 <= mft_offset -> mft_size <= INT64_MAX ->
    Z.land flags LIBFSNTFS_FILE_ENTRY_FLAGS_MFT_ONLY <> 0 ->
    libfsntfs_mft_initialize io mft_offset mft_size (mft_entry_size io) flags
    = (Some m0, raised0) ->
    libfsntfs_mft_entry_initialize = (Some e0, raised1) ->
    libfsntfs_mft_read_mft_entry m0 io file_io_handle mft_offset 0 e0 flags
    = (1, m1, file_io_handle1, e1, raised2) ->
    data_attribute e1 <> None ->
    0 <= mft_size -> 0 < mft_entry_size io ->
    let returned :=
      libfsntfs_file_system_read_mft (Some fs) (Some io) file_io_handle
        mft_offset mft_size flags error in
    (mft_size / mft_entry_size io > INT_MAX ->
     returned
     = (-1, Some (set_mft fs (Some m1)), file_io_handle1,
        (((error ++ raised0) ++ raised1) ++ raised2)
        ++ [(LIBCERROR_ERROR_DOMAIN_RUNTIME,
             LIBCERROR_RUNTIME_ERROR_VALUE_OUT_OF_BOUNDS)]))
    /\ (fst (fst (fst returned)) = 1 ->
        mft_size / mft_entry_size io <= INT_MAX
        /\ exists m,
             facade_after returned = Some (set_mft fs (Some m))
             /\ number_of_mft_entries m <= INT_MAX).
Proof.
  intros fs io fio off size flags error m0 raised0 e0 raised1 m1 fio1 e1
    raised2 Hmft Hoff Hsize Hflag Hinit Hentry Hread Hdata _ _ returned.
  subst returned. unfold facade_after.
  rewrite read_mft_accepted by assumption.
  rewrite (read_mft_bootstrap_entry_read fs _ _ _ _ _ error _ _ _ _ _ _ _ _ _
             Hinit Hentry Hread).
  cbn zeta. change (negb (1 =? 1)) with false. cbv iota.
  destruct (Z.eqb_spec (Z.land flags LIBFSNTFS_FILE_ENTRY_FLAGS_MFT_ONLY) 0);
    [contradiction|].
  destruct (data_attribute e1); [|contradiction].
  destruct (Z.gtb_spec (size / mft_entry_size io) INT_MAX) as [Hgt|Hle].
  - split; [reflexivity|]. cbn. intros H; discriminate H.
  - split; [lia|]. intros Hr. split; [exact Hle|].
    destruct (negb (fst (libfsntfs_mft_entry_free e1) =? 1));
      [discriminate Hr|].
    cbn [fst snd]. eexists. split; [reflexivity|]. exact Hle.
Qed.

(** X7.  On a facade without MFT and with accepted arguments: when
    [libfsntfs_mft_initialize] fails, read_mft returns -1 with an
    initialize-failed error and the facade and the file IO handle are as
    before, so the call can be repeated; when it succeeds, the facade has an
    MFT when the call returns, whatever it returns, and every later read_mft
    on it is rejected as value-already-set. *)
Theorem libfsntfs_file_system_read_mft_once :
  forall (fs : libfsntfs_file_system_t) (io : libfsntfs_io_handle_t)
         (file_io_handle : libbfio_handle_t) (mft_offset mft_size flags : Z)
         (error : libcerror_error_t),
    mft fs = None -> 0 <= mft_offset -> mft_size <= INT64_MAX ->
    let returned :=
      libfsntfs_file_system_read_mft (Some fs) (Some io) file_io_handle
        mft_offset mft_size flags error in
    match
      fst (libfsntfs_mft_initialize io mft_offset mft_size (mft_entry_size io)
             flags)
    with
    | None =>
        returned
        = (-1, Some fs, file_io_handle,
           (error
            ++ snd (libfsntfs_mft_initialize io mft_offset mft_size
                      (mft_entry_size io) flags))
           ++ [(LIBCERROR_ERROR_DOMAIN_RUNTIME,
                LIBCERROR_RUNTIME_ERROR_INITIALIZE_FAILED)])
    | Some _ =>
        exists fs',
          facade_after returned = Some fs' /\ mft fs' <> None
          /\ forall io' file_io_handle' mft_offset' mft_size' flags' error',
               libfsntfs_file_system_read_mft (Some fs') io' file_io_handle'
                 mft_offset' mft_size' flags' error'
               = (-1, Some fs', file_io_handle',
                  error' ++ [(LIBCERROR_ERROR_DOMAIN_RUNTIME,
                              LIBCERROR_RUNTIME_ERROR_VALUE_ALREADY_SET)])
    end.
Proof.
  intros fs io fio off size flags error Hmft Hoff Hsize returned.
  subst returned. unfold facade_after.
  rewrite read_mft_accepted by assumption.
  unfold read_mft_bootstrap.
  destruct (libfsntfs_mft_initialize io off size (mft_entry_size io) flags)
    as [[m0|] raised0]; cbn [fst snd]; [|reflexivity].
  assert (Hnext : forall fs' : libfsntfs_file_system_t,
             mft fs' <> None ->
             forall io' fio' off' size' flags' error',
               libfsntfs_file_system_read_mft (Some fs') io' fio' off' size'
                 flags' error'
               = (-1, Some fs', fio',
                  error' ++ [(LIBCERROR_ERROR_DOMAIN_RUNTIME,
                              LIBCERROR_RUNTIME_ERROR_VALUE_ALREADY_SET)])).
  { intros fs' Hset io' fio' off' size' flags' error'.
    now apply read_mft_already_set. }
  split_calls; eexists; (split; [reflexivity|]);
    (split; [cbn; discriminate|apply Hnext; cbn; discriminate]).
Qed.

(** The loop over the cluster blocks goes through the cluster blocks that
    are accepted and stops at the first one that is not. *)
Lemma read_bitmap_blocks_accepted_prefix :
  forall remaining io vector file_io_handle cache cluster_block_index scan
         error,
    let retrieved :=
      retrieved_blocks remaining vector file_io_handle cache
        cluster_block_index in
    let blocks :=
      read_bitmap_blocks remaining io vector file_io_handle cache
        cluster_block_index scan error in
    exists accepted rest,
      retrieved = accepted ++ rest
      /\ Forall block_accepted accepted
      /\ blocks_index blocks
         = cluster_block_index + Z.of_nat (List.length accepted)
      /\ blocks_scan blocks = scan_blocks io accepted scan
      /\ match rest with
         | [] => blocks_completed blocks = true
         | rejected :: _ =>
             ~ block_accepted rejected
             /\ blocks_completed blocks = false
             /\ last (blocks_error blocks) no_error
                = (LIBCERROR_ERROR_DOMAIN_RUNTIME, rejection_code rejected)
         end.
Proof.
  induction remaining as [|remaining IH];
    intros io vector fio cache idx scan error.
  - exists [], []. cbn. repeat split; try reflexivity; [constructor|lia].
  - cbn [retrieved_blocks read_bitmap_blocks].
    destruct (libfdata_vector_get_element_value_by_index vector fio cache idx 0)
      as [[[[[r vector'] fio'] cache'] block] raised].
    set (tail := retrieved_blocks remaining vector' fio' cache' (idx + 1)).
    assert (Hstop : forall c,
               ~ block_accepted (r, block) ->
               rejection_code (r, block) = c ->
               exists accepted rest,
                 (r, block) :: tail = accepted ++ rest
                 /\ Forall block_accepted accepted
                 /\ idx = idx + Z.of_nat (List.length accepted)
                 /\ scan = scan_blocks io accepted scan
                 /\ match rest with
                    | [] => false = true
                    | rejected :: _ =>
                        ~ block_accepted rejected /\ false = false
                        /\ last (libcerror_error_set (error ++ raised)
                                   LIBCERROR_ERROR_DOMAIN_RUNTIME c) no_error
                           = (LIBCERROR_ERROR_DOMAIN_RUNTIME,
                              rejection_code rejected)
                    end).
    { intros c Hnot Hcode. exists [], ((r, block) :: tail). cbn [app].
      split; [reflexivity|]. split; [constructor|]. split; [cbn; lia|].
      split; [reflexivity|]. split; [exact Hnot|]. split; [reflexivity|].
      rewrite libcerror_error_set_last, Hcode. reflexivity. }
    destruct (Z.eqb_spec r 1) as [->|Hr]; cbn [negb].
    2:{ apply Hstop.
        - intros [[H1 _] _]. cbn in H1. contradiction.
        - unfold rejection_code. cbn [fst].
          destruct (Z.eqb_spec r 1); [contradiction|reflexivity]. }
    destruct block as [block|].
    2:{ apply Hstop; [|reflexivity].
        intros [[_ (cb & bytes & H1 & _)] _]. discriminate H1. }
    destruct (data block) as [bytes|] eqn:Hbytes.
    2:{ apply Hstop; [|unfold rejection_code; cbn; rewrite Hbytes; reflexivity].
        intros [[_ (cb & bytes & H1 & H2)] _]. cbn in H1.
        injection H1 as <-. congruence. }
    destruct (Z.eqb_spec (data_size block mod 4) 0) as [Hmod|Hmod];
      cbn [negb orb].
    2:{ apply Hstop; [|unfold rejection_code; cbn; rewrite Hbytes; reflexivity].
        intros (_ & H1 & _). apply Hmod. exact H1. }
    destruct (Z.gtb_spec (data_size block) SSIZE_MAX) as [Hgt|Hle].
    { apply Hstop; [|unfold rejection_code; cbn; rewrite Hbytes; reflexivity].
      intros (_ & _ & H1). unfold block_size in H1. cbn in H1. lia. }
    destruct (IH io vector' fio' cache' (idx + 1)
                (scan_cluster_block io bytes (data_size block) scan)
                (error ++ raised))
      as (accepted & rest & Heq & Hall & Hindex & Hscan & Hrest).
    fold tail in Heq.
    exists ((1, Some block) :: accepted), rest.
    split; [cbn [app]; rewrite Heq; reflexivity|].
    split.
    { constructor; [|exact Hall]. split; [|split; [exact Hmod|exact Hle]].
      split; [reflexivity|]. exists block, bytes. split; [reflexivity|exact Hbytes]. }
    split; [rewrite Hindex; cbn [List.length]; lia|].
    split; [|exact Hrest].
    rewrite Hscan. unfold scan_blocks. cbn [fold_left].
    unfold block_bytes, block_size. cbn [snd]. rewrite Hbytes. reflexivity.
Qed.

(** X10.  The loop over the cluster blocks is completed exactly when every
    cluster block is accepted (retrieved with 1, not NULL, with data, of a
    size that is a multiple of 4 and at most SSIZE_MAX).  Otherwise it stops
    at the first cluster block that is not accepted: [cluster_block_index]
    is its index, the cluster blocks before it were accepted, and the error
    ends with get-failed, value-missing or value-out-of-bounds according to
    the test that block fails first. *)
Theorem read_bitmap_blocks_completed_iff :
  forall remaining io vector file_io_handle cache cluster_block_index scan
         error,
    let retrieved :=
      retrieved_blocks remaining vector file_io_handle cache
        cluster_block_index in
    let blocks :=
      read_bitmap_blocks remaining io vector file_io_handle cache
        cluster_block_index scan error in
    (blocks_completed blocks = true <-> Forall block_accepted retrieved)
    /\ exists accepted rest,
         retrieved = accepted ++ rest
         /\ Forall block_accepted accepted
         /\ blocks_index blocks
            = cluster_block_index + Z.of_nat (List.length accepted)
         /\ match rest with
            | [] => blocks_completed blocks = true
            | rejected :: _ =>
                ~ block_accepted rejected
                /\ blocks_completed blocks = false
                /\ last (blocks_error blocks) no_error
                   = (LIBCERROR_ERROR_DOMAIN_RUNTIME, rejection_code rejected)
            end.
Proof.
  intros remaining io vector fio cache idx scan error retrieved blocks.
  destruct (read_bitmap_blocks_accepted_prefix remaining io vector fio cache
              idx scan error)
    as (accepted & rest & Heq & Hall & Hindex & _ & Hrest).
  fold retrieved in Heq. fold blocks in Hindex, Hrest.
  split.
  - destruct rest as [|rejected rest].
    + rewrite app_nil_r in Heq. rewrite Heq. split; intros _; assumption.
    + destruct Hrest as (Hnot & Hstop & _). rewrite Hstop, Heq. split.
      * intros H; discriminate H.
      * intros H. apply Forall_app in H. destruct H as [_ H].
        inversion H; subst. contradiction.
  - exists accepted, rest. repeat split; assumption.
Qed.

(** X8.  read_bitmap without bitmap: when the lookup of MFT entry 6 does
    not return 1 the call returns -1 with a get-failed error; when it
    returns 1 but no entry, or an entry without unnamed $DATA attribute, the
    call returns -1 with a value-missing error.  In each case the MFT is as
    the lookup left it and no cluster block is read. *)
Theorem libfsntfs_file_system_read_bitmap_missing :
  forall (fs : libfsntfs_file_system_t) (io : libfsntfs_io_handle_t)
         (file_io_handle : libbfio_handle_t) (error : libcerror_error_t)
         r m1 file_io_handle1 e raised0,
    libfsntfs_mft_get_mft_entry_by_index (mft fs) file_io_handle
      LIBFSNTFS_MFT_ENTRY_INDEX_BITMAP
    = (r, m1, file_io_handle1, e, raised0) ->
    let returned :=
      libfsntfs_file_system_read_bitmap (Some fs) (Some io) file_io_handle
        error in
    let failed error_code :=
      (-1, Some (set_mft fs m1), file_io_handle1,
       (error ++ raised0) ++ [(LIBCERROR_ERROR_DOMAIN_RUNTIME, error_code)]) in
    (r <> 1 -> returned = failed LIBCERROR_RUNTIME_ERROR_GET_FAILED)
    /\ (r = 1 -> e = None ->
        returned = failed LIBCERROR_RUNTIME_ERROR_VALUE_MISSING)
    /\ (r = 1 ->
        forall mft_entry,
          e = Some mft_entry -> data_attribute mft_entry = None ->
          returned = failed LIBCERROR_RUNTIME_ERROR_VALUE_MISSING).
Proof.
  intros fs io fio error r m1 fio1 e raised0 Hget returned failed.
  subst returned failed. unfold libfsntfs_file_system_read_bitmap.
  rewrite Hget. cbv zeta. unfold libcerror_error_set.
  split; [|split].
  - intros Hr. destruct (Z.eqb_spec r 1); [contradiction|reflexivity].
  - intros -> ->. reflexivity.
  - intros -> mft_entry -> Hdata. cbn [negb Z.eqb Pos.eqb].
    rewrite Hdata. reflexivity.
Qed.

(** X9.  A bitmap whose vector has no cluster block (a number of elements
    of 0 or less): no cluster block is retrieved, and the call returns 1 as
    soon as the vector and the cache are released. *)
Theorem libfsntfs_file_system_read_bitmap_empty :
  forall (fs : libfsntfs_file_system_t) (io : libfsntfs_io_handle_t)
         (file_io_handle : libbfio_handle_t) (error : libcerror_error_t)
         m1 file_io_handle1 e raised0 a vector raised1 cache raised2
         number_of_cluster_blocks raised3 raised4 raised5,
    libfsntfs_mft_get_mft_entry_by_index (mft fs) file_io_handle
      LIBFSNTFS_MFT_ENTRY_INDEX_BITMAP
    = (1, m1, file_io_handle1, Some e, raised0) ->
    data_attribute e = Some a ->
    libfsntfs_cluster_block_vector_initialize io a = (Some vector, raised1) ->
    libfcache_cache_initialize 1 = (Some cache, raised2) ->
    libfdata_vector_get_number_of_elements vector
    = (1, number_of_cluster_blocks, raised3) ->
    number_of_cluster_blocks <= 0 ->
    libfdata_vector_free vector = (1, raised4) ->
    libfcache_cache_free cache = (1, raised5) ->
    libfsntfs_file_system_read_bitmap (Some fs) (Some io) file_io_handle error
    = (1, Some (set_mft fs m1), file_io_handle1,
       (((((error ++ raised0) ++ raised1) ++ raised2) ++ raised3) ++ raised4)
       ++ raised5).
Proof.
  intros fs io fio error m1 fio1 e raised0 a vector raised1 cache raised2 n
    raised3 raised4 raised5 Hget Hdata Hvector Hcache Hnumber Hn Hvfree
    Hcfree.
  rewrite (read_bitmap_blocks_reached fs io fio error _ _ _ _ _ _ _ _ _ _ _
             Hget Hdata Hvector Hcache Hnumber).
  replace (Z.to_nat n) with O by lia. cbn [read_bitmap_blocks]. cbv zeta.
  cbn [blocks_completed blocks_vector blocks_cache blocks_error
       blocks_file_io_handle negb].
  rewrite Hvfree, Hcfree. reflexivity.
Qed.

(** X14.  A call of read_security_descriptors that returns 1 started with
    no index, found MFT entry 9, read its $FILE_NAME values, compared the
    name with "$Secure" without error and released the values.  The index is
    set exactly when the comparison returned LIBUNA_COMPARE_EQUAL, and it
    then is the index created from the $SDS attribute of entry 9 as the read
    of the $SII index left it; otherwise the index is NULL and the file IO
    handle is as the lookup left it. *)
Theorem libfsntfs_file_system_read_security_descriptors_success :
  forall (fs : libfsntfs_file_system_t) (io : option libfsntfs_io_handle_t)
         (file_io_handle : libbfio_handle_t) (error : libcerror_error_t)
         fs' file_io_handle' error',
    libfsntfs_file_system_read_security_descriptors (Some fs) io
      file_io_handle error = (1, Some fs', file_io_handle', error') ->
    security_descriptor_index fs = None
    /\ exists m1 file_io_handle1 e raised0 a raised1 v0 raised2 v1 raised3
              compared raised4,
         libfsntfs_mft_get_mft_entry_by_index (mft fs) file_io_handle
           LIBFSNTFS_MFT_ENTRY_INDEX_SECURE
         = (1, m1, file_io_handle1, Some e, raised0)
         /\ libfsntfs_mft_entry_get_attribute_by_index e
              (file_name_attribute_index e) = (1, a, raised1)
         /\ libfsntfs_file_name_values_initialize = (Some v0, raised2)
         /\ libfsntfs_file_name_values_read_from_mft_attribute v0 a
            = (1, v1, raised3)
         /\ libfsntfs_name_compare_with_utf8_string (name v1) (name_size v1)
              "$Secure" 7 1 = (compared, raised4)
         /\ compared <> -1
         /\ fst (libfsntfs_file_name_values_free v1) = 1
         /\ mft fs' = m1
         /\ if compared =? LIBUNA_COMPARE_EQUAL then
              exists sds raised5 index0 file_io_handle2 raised6 index1 raised7,
                libfsntfs_mft_entry_get_alternate_data_attribute_by_utf8_name
                  e "$SDS" 4 = (1, sds, raised5)
                /\ libfsntfs_security_descriptor_index_initialize io
                     file_io_handle1 sds
                   = (Some index0, file_io_handle2, raised6)
                /\ libfsntfs_security_descriptor_index_read_sii_index index0
                     io file_io_handle2 e
                   = (1, index1, file_io_handle', raised7)
                /\ security_descriptor_index fs' = Some index1
            else
              security_descriptor_index fs' = None
              /\ file_io_handle' = file_io_handle1.
Proof.
  intros fs io fio error fs' fio' error' H.
  unfold libfsntfs_file_system_read_security_descriptors,
    read_security_descriptors_on_error in H.
  destruct (security_descriptor_index fs) eqn:Hsdi; [discriminate H|].
  split; [reflexivity|].
  destruct (libfsntfs_mft_get_mft_entry_by_index (mft fs) fio
              LIBFSNTFS_MFT_ENTRY_INDEX_SECURE)
    as [[[[r m1] fio1] e] raised0].
  destruct (Z.eqb_spec r 1) as [->|]; [|discriminate H]. cbn [negb] in H.
  destruct e as [e|]; [|discriminate H].
  destruct (libfsntfs_mft_entry_get_attribute_by_index e
              (file_name_attribute_index e)) as [[ra a] raised1] eqn:Hattr.
  destruct (Z.eqb_spec ra 1) as [->|]; [|discriminate H]. cbn [negb] in H.
  destruct libfsntfs_file_name_values_initialize as [[v0|] raised2] eqn:Hv0;
    [|discriminate H].
  destruct (libfsntfs_file_name_values_read_from_mft_attribute v0 a)
    as [[rv v1] raised3] eqn:Hv1.
  destruct (Z.eqb_spec rv 1) as [->|]; [|discriminate H]. cbn [negb] in H.
  destruct (libfsntfs_name_compare_with_utf8_string (name v1) (name_size v1)
              "$Secure" 7 1) as [compared raised4] eqn:Hcmp.
  destruct (Z.eqb_spec compared (-1)) as [|Herr]; [discriminate H|].
  exists m1, fio1, e, raised0, a, raised1, v0, raised2, v1, raised3, compared,
    raised4.
  split; [reflexivity|]. split; [exact Hattr|]. split; [reflexivity|].
  split; [exact Hv1|]. split; [exact Hcmp|]. split; [exact Herr|].
  destruct (libfsntfs_file_name_values_free v1) as [rf raised8].
  cbn [fst].
  destruct (compared =? LIBUNA_COMPARE_EQUAL).
  - destruct (libfsntfs_mft_entry_get_alternate_data_attribute_by_utf8_name
                e "$SDS" 4) as [[rs sds] raised5] eqn:Hsds.
    destruct (Z.eqb_spec rs 1) as [->|]; [|discriminate H]. cbn [negb] in H.
    destruct (libfsntfs_security_descriptor_index_initialize io fio1 sds)
      as [[[index0|] fio2] raised6] eqn:Hindex; [|discriminate H].
    destruct (libfsntfs_security_descriptor_index_read_sii_index index0 io
                fio2 e) as [[[ri index1] fio3] raised7] eqn:Hsii.
    destruct (Z.eqb_spec ri 1) as [->|]; [|discriminate H]. cbn [negb] in H.
    destruct (Z.eqb_spec rf 1) as [->|]; [|discriminate H]. cbn [negb] in H.
    inversion H; subst.
    split; [reflexivity|]. split; [reflexivity|].
    exists sds, raised5, index0, fio2, raised6, index1, raised7.
    split; [first [reflexivity|exact Hsds]|].
    split; [first [reflexivity|exact Hindex]|].
    split; [first [reflexivity|exact Hsii]|reflexivity].
  - destruct (Z.eqb_spec rf 1) as [->|]; [|discriminate H]. cbn [negb] in H.
    inversion H; subst.
    split; [reflexivity|]. split; [reflexivity|].
    split; [exact Hsdi|reflexivity].
Qed.

(** X3.  A facade that libfsntfs_file_system_initialize created and that is
    freed at once: free leaves the pointer NULL and calls the destructor of
    the lock only (with multi-thread support; no destructor without): what
    it adds to the error is what that destructor added, so it returns 1
    exactly when that one does (always, without multi-thread support, and
    then the error is as before initialize). *)
Theorem libfsntfs_file_system_initialize_free :
  forall (error : libcerror_error_t) fs error1,
    libfsntfs_file_system_initialize (Some None) error
    = (1, Some (Some fs), error1) ->
    let '(r, freed, error2) :=
      libfsntfs_file_system_free (Some (Some fs)) error1 in
    freed = Some None
    /\ (r = 1 <->
        (HAVE_LIBFSNTFS_MULTI_THREAD_SUPPORT = true ->
         fst (libcthreads_read_write_lock_free (read_write_lock fs)) = 1))
    /\ (HAVE_LIBFSNTFS_MULTI_THREAD_SUPPORT = false ->
        r = 1 /\ error2 = error)
    /\ error2
       = error1
         ++ (if HAVE_LIBFSNTFS_MULTI_THREAD_SUPPORT
             then destructor_trace
                    (libcthreads_read_write_lock_free (read_write_lock fs))
             else []).
Proof.
  intros error fs error1 Hinit.
  unfold libfsntfs_file_system_initialize in Hinit.
  destruct memory_allocate_structure eqn:Halloc; [|discriminate Hinit].
  destruct memory_set eqn:Hset; [|discriminate Hinit].
  cbn [negb] in Hinit.
  unfold libfsntfs_file_system_free, libcerror_error_set, destructor_trace.
  destruct HAVE_LIBFSNTFS_MULTI_THREAD_SUPPORT eqn:Hmt.
  - destruct libcthreads_read_write_lock_initialize as [[lock|] raised];
      [|discriminate Hinit].
    inversion Hinit; subst. cbn [security_descriptor_index mft read_write_lock].
    destruct (libcthreads_read_write_lock_free (Some lock)) as [rl raisedl].
    cbn [fst snd].
    destruct (Z.eqb_spec rl 1) as [->|Hrl]; cbn [negb].
    + split; [reflexivity|]. split; [split; intros; reflexivity|].
      split; [intros H; discriminate H|].
      rewrite app_nil_r. reflexivity.
    + split; [reflexivity|].
      split; [split; [intros H; discriminate H
                     |intros H; exfalso; apply Hrl; apply H; reflexivity]|].
      split; [intros H; discriminate H|].
      rewrite app_assoc. reflexivity.
  - inversion Hinit; subst. cbn [security_descriptor_index mft].
    split; [reflexivity|].
    split; [split; [intros _ H; discriminate H|intros; reflexivity]|].
    split; [intros _; split; reflexivity|].
    rewrite app_nil_r. reflexivity.
Qed.

(** X11.  A call of read_bitmap that returns 1 had an IO handle, found MFT
    entry 6 with an unnamed $DATA attribute, created the cluster block
    vector and the cache, and went through cluster blocks that were all
    accepted; the facade it leaves is the one it received with the MFT as
    the lookup of entry 6 left it. *)
Theorem libfsntfs_file_system_read_bitmap_success :
  forall (fs : libfsntfs_file_system_t) (io : option libfsntfs_io_handle_t)
         (file_io_handle : libbfio_handle_t) (error : libcerror_error_t)
         fs' file_io_handle' error',
    libfsntfs_file_system_read_bitmap (Some fs) io file_io_handle error
    = (1, Some fs', file_io_handle', error') ->
    exists io' m1 file_io_handle1 e raised0 a vector raised1 cache raised2
           number_of_cluster_blocks raised3,
      io = Some io'
      /\ libfsntfs_mft_get_mft_entry_by_index (mft fs) file_io_handle
           LIBFSNTFS_MFT_ENTRY_INDEX_BITMAP
         = (1, m1, file_io_handle1, Some e, raised0)
      /\ data_attribute e = Some a
      /\ libfsntfs_cluster_block_vector_initialize io' a
         = (Some vector, raised1)
      /\ libfcache_cache_initialize 1 = (Some cache, raised2)
      /\ libfdata_vector_get_number_of_elements vector
         = (1, number_of_cluster_blocks, raised3)
      /\ Forall block_accepted
           (retrieved_blocks (Z.to_nat number_of_cluster_blocks) vector
              file_io_handle1 cache 0)
      /\ fs' = set_mft fs m1.
Proof.
  intros fs io fio error fs' fio' error' H.
  unfold libfsntfs_file_system_read_bitmap in H.
  destruct io as [io|]; [|discriminate H].
  destruct (libfsntfs_mft_get_mft_entry_by_index (mft fs) fio
              LIBFSNTFS_MFT_ENTRY_INDEX_BITMAP)
    as [[[[r m1] fio1] e] raised0].
  destruct (Z.eqb_spec r 1) as [->|]; [|discriminate H]. cbn [negb] in H.
  destruct e as [e|]; [|discriminate H].
  destruct (data_attribute e) as [a|] eqn:Hdata; [|discriminate H].
  destruct (libfsntfs_cluster_block_vector_initialize io a)
    as [[vector|] raised1] eqn:Hvector; [|discriminate H].
  destruct (libfcache_cache_initialize 1) as [[cache|] raised2];
    [|discriminate H].
  destruct (libfdata_vector_get_number_of_elements vector)
    as [[rn n] raised3] eqn:Hnumber.
  destruct (Z.eqb_spec rn 1) as [->|]; [|discriminate H]. cbn [negb] in H.
  cbv zeta in H.
  destruct (read_bitmap_blocks_accepted_prefix (Z.to_nat n) io vector fio1
              cache 0
              {| start_offset := 0; bitmap_offset := 0; offset_ranges := [] |}
              ((((error ++ raised0) ++ raised1) ++ raised2) ++ raised3))
    as (accepted & rest & Heq & Hall & _ & _ & Hrest).
  destruct (blocks_completed _) eqn:Hdone; [|discriminate H].
  cbn [negb] in H.
  assert (Hnil : rest = []).
  { destruct rest as [|rejected rest]; [reflexivity|].
    destruct Hrest as (_ & Hstop & _). congruence. }
  subst rest. rewrite app_nil_r in Heq.
  exists io, m1, fio1, e, raised0, a, vector, raised1, cache, raised2, n,
    raised3.
  split; [reflexivity|]. split; [reflexivity|]. split; [exact Hdata|].
  split; [exact Hvector|]. split; [reflexivity|]. split; [exact Hnumber|].
  split; [rewrite Heq; exact Hall|].
  destruct (libfdata_vector_free _) as [rv raisedv].
  destruct (negb (rv =? 1)); [discriminate H|].
  destruct (libfcache_cache_free _) as [rc raisedc].
  destruct (negb (rc =? 1)); [discriminate H|].
  inversion H; reflexivity.
Qed.

End FileSystemInterface.

Lemma scan_words_within_size :
  forall fuel io data1 data2 block_data_size cluster_block_data_offset scan,
    block_data_size mod 4 = 0 ->
    cluster_block_data_offset mod 4 = 0 ->
    0 <= cluster_block_data_offset ->
    (forall i, 0 <= i < block_data_size -> byte_at data1 i = byte_at data2 i) ->
    scan_words fuel io data1 block_data_size cluster_block_data_offset scan
    = scan_words fuel io data2 block_data_size cluster_block_data_offset scan.
Proof.
  induction fuel as [|fuel IH];
    intros io data1 data2 size offset scan Hsize Hoffset Hpos Hsame;
    [reflexivity|].
  cbn [scan_words].
  destruct (Z.ltb_spec offset size) as [Hlt|]; [|reflexivity].
  assert (Hroom : offset + 4 <= size).
  { pose proof (Z.div_mod size 4 ltac:(lia)).
    pose proof (Z.div_mod offset 4 ltac:(lia)). lia. }
  unfold byte_stream_copy_to_uint32_little_endian.
  rewrite !(Hsame offset), !(Hsame (offset + 1)), !(Hsame (offset + 2)),
    !(Hsame (offset + 3)) by lia.
  apply IH; try assumption; [|lia].
  rewrite Z.add_mod, Hoffset by lia. reflexivity.
Qed.

(** X12.  The scan of a cluster block whose size is a multiple of 4 (the
    size test of line 581) depends on the first [data_size] bytes of the
    data only: the words the loop of lines 610-668 reads all end within the
    size. *)
Theorem scan_cluster_block_within_size :
  forall io data1 data2 block_data_size scan,
    block_data_size mod 4 = 0 ->
    (forall i, 0 <= i < block_data_size -> byte_at data1 i = byte_at data2 i) ->
    scan_cluster_block io data1 block_data_size scan
    = scan_cluster_block io data2 block_data_size scan.
Proof.
  intros io data1 data2 size scan Hsize Hsame. unfold scan_cluster_block.
  rewrite (scan_words_within_size (Z.to_nat size) io data1 data2 size 0 _
             Hsize eq_refl ltac:(lia) Hsame).
  reflexivity.
Qed.

Lemma bitmap_bit_app_l :
  forall data1 data2 c,
    0 <= c < 8 * Z.of_nat (List.length data1) ->
    bitmap_bit (data1 ++ data2) c = bitmap_bit data1 c.
Proof.
  intros data1 data2 c Hc. unfold bitmap_bit, byte_at.
  rewrite app_nth1; [reflexivity|].
  assert (0 <= c / 8 < Z.of_nat (List.length data1)).
  { split; [apply Z.div_pos; lia|apply Z.div_lt_upper_bound; lia]. }
  lia.
Qed.

Lemma bitmap_bit_app_r :
  forall data1 data2 c,
    0 <= c ->
    bitmap_bit (data1 ++ data2) (8 * Z.of_nat (List.length data1) + c)
    = bitmap_bit data2 c.
Proof.
  intros data1 data2 c Hc. unfold bitmap_bit, byte_at.
  replace (8 * Z.of_nat (List.length data1) + c)
    with (c + Z.of_nat (List.length data1) * 8) by lia.
  rewrite Z.div_add, Z.mod_add by lia.
  pose proof (Z.div_pos c 8 Hc ltac:(lia)).
  rewrite app_nth2 by lia.
  replace (Z.to_nat (c / 8 + Z.of_nat (List.length data1))
           - List.length data1)%nat
    with (Z.to_nat (c / 8)) by lia.
  reflexivity.
Qed.

Lemma payload_size_cons :
  forall block blocks,
    payload_size (block :: blocks) = block_size block + payload_size blocks.
Proof. reflexivity. Qed.

Lemma payload_bytes_length :
  forall blocks,
    Forall block_whole blocks ->
    Z.of_nat (List.length (payload_bytes blocks)) = payload_size blocks.
Proof.
  induction blocks as [|block blocks IH]; intros Hall; [reflexivity|].
  inversion Hall as [|x l [_ Hlen] Htail]; subst.
  unfold payload_bytes. cbn [map List.concat].
  rewrite length_app, Nat2Z.inj_add, payload_size_cons, Hlen.
  fold (payload_bytes blocks). rewrite IH by assumption. reflexivity.
Qed.

Lemma payload_size_nonneg :
  forall blocks, Forall block_whole blocks -> 0 <= payload_size blocks.
Proof.
  intros blocks Hall. rewrite <- payload_bytes_length by assumption. lia.
Qed.

(** The scans of the cluster blocks of a bitmap, one after the other. *)
Lemma scan_blocks_runs :
  forall io blocks scan,
    0 < cluster_block_size io ->
    Forall block_whole blocks ->
    0 <= bitmap_offset scan ->
    bitmap_offset scan + 8 * payload_size blocks * cluster_block_size io
      <= INT64_MAX ->
    let scan' := scan_blocks io blocks scan in
    let offset_of c := bitmap_offset scan + c * cluster_block_size io in
    exists ranges,
      offset_ranges scan' = offset_ranges scan ++ ranges
      /\ bitmap_offset scan' = offset_of (8 * payload_size blocks)
      /\ (forall c,
            0 <= c < 8 * payload_size blocks ->
            bitmap_bit (payload_bytes blocks) c = true
            <-> covered ranges (offset_of c))
      /\ (forall s e,
            In (s, e) ranges ->
            offset_of 0 <= s /\ s < e
            /\ exists before block after,
                 blocks = before ++ block :: after
                 /\ offset_of (8 * payload_size before) <= s
                 /\ e <= offset_of
                           (8 * (payload_size before + block_size block))).
Proof.
  intros io. induction blocks as [|block blocks IH];
    intros scan Hcbs Hall Hb0 Hmax scan' offset_of.
  - exists []. subst scan' offset_of. cbn.
    split; [rewrite app_nil_r; reflexivity|]. split; [lia|].
    split; [intros c Hc; lia|intros s e []].
  - inversion Hall as [|x l Hblock Htail]; subst.
    pose proof Hblock as [Hmod Hlen].
    pose proof (payload_size_nonneg blocks Htail) as Hrest.
    rewrite payload_size_cons in *.
    set (size := block_size block) in *.
    set (cbs := cluster_block_size io) in *.
    assert (Hsize : 0 <= size) by lia.
    pose proof (Z.div_mod size 4 ltac:(lia)) as Hwords.
    rewrite Hmod, Z.add_0_r in Hwords.
    assert (Hq : 0 <= size / 4) by (apply Z.div_pos; lia).
    destruct (scan_cluster_block_runs io (block_bytes block) size scan
                (size / 4) Hcbs Hq Hwords Hb0 ltac:(nia))
      as (ranges1 & Hranges1 & Hoffset1 & Hcover1 & Hruns1).
    set (scan1 := scan_cluster_block io (block_bytes block) size scan) in *.
    fold cbs in Hoffset1, Hcover1, Hruns1.
    replace (32 * (size / 4)) with (8 * size) in * by lia.
    destruct (IH scan1 Hcbs Htail ltac:(rewrite Hoffset1; nia)
                ltac:(rewrite Hoffset1; fold cbs; nia))
      as (ranges2 & Hranges2 & Hoffset2 & Hcover2 & Hruns2).
    fold cbs in Hoffset2, Hcover2, Hruns2.
    change (scan_blocks io (block :: blocks) scan)
      with (scan_blocks io blocks scan1) in scan'.
    subst scan' offset_of. cbv beta.
    exists (ranges1 ++ ranges2).
    split; [rewrite Hranges2, Hranges1, app_assoc; reflexivity|].
    split; [rewrite Hoffset2, Hoffset1; lia|].
    assert (Hin1 : forall s e,
               In (s, e) ranges1 ->
               bitmap_offset scan <= s /\ s < e
               /\ e <= bitmap_offset scan + 8 * size * cbs).
    { intros s e Hin.
      destruct (Hruns1 s e Hin) as (cs & ce & Hcs & Hce & -> & -> & _).
      nia. }
    assert (Hin2 : forall s e,
               In (s, e) ranges2 ->
               bitmap_offset scan + 8 * size * cbs <= s /\ s < e).
    { intros s e Hin. destruct (Hruns2 s e Hin) as (Hs & Hse & _).
      rewrite Hoffset1 in Hs. split; [lia|exact Hse]. }
    split.
    + intros c Hc. unfold payload_bytes. cbn [map List.concat].
      fold (payload_bytes blocks).
      destruct (Z.lt_ge_cases c (8 * size)) as [Hfirst|Hlater].
      * rewrite bitmap_bit_app_l by lia. rewrite (Hcover1 c) by lia. split.
        -- intros (s & e & Hin & Hse). exists s, e.
           split; [apply in_or_app; left; exact Hin|exact Hse].
        -- intros (s & e & Hin & Hse). apply in_app_or in Hin.
           destruct Hin as [Hin|Hin]; [exists s, e; split; assumption|].
           destruct (Hin2 s e Hin). nia.
      * replace c with (8 * Z.of_nat (List.length (block_bytes block))
                        + (c - 8 * size)) at 1 by lia.
        rewrite bitmap_bit_app_r by lia.
        rewrite (Hcover2 (c - 8 * size)) by lia.
        rewrite Hoffset1.
        replace (bitmap_offset scan + 8 * size * cbs + (c - 8 * size) * cbs)
          with (bitmap_offset scan + c * cbs) by lia.
        split.
        -- intros (s & e & Hin & Hse). exists s, e.
           split; [apply in_or_app; right; exact Hin|exact Hse].
        -- intros (s & e & Hin & Hse). apply in_app_or in Hin.
           destruct Hin as [Hin|Hin]; [|exists s, e; split; assumption].
           destruct (Hin1 s e Hin) as (_ & _ & He). nia.
    + intros s e Hin. apply in_app_or in Hin. destruct Hin as [Hin|Hin].
      * destruct (Hin1 s e Hin) as (Hs & Hse & He).
        split; [lia|]. split; [exact Hse|].
        exists [], block, blocks. split; [reflexivity|].
        change (payload_size []) with 0. fold size. split; lia.
      * destruct (Hin2 s e Hin) as (Hs & Hse).
        split; [lia|]. split; [exact Hse|].
        destruct (Hruns2 s e Hin)
          as (_ & _ & before & b & after & Heq & Hfrom & Hto).
        exists (block :: before), b, after.
        split; [rewrite Heq; reflexivity|].
        rewrite payload_size_cons. fold size.
        rewrite Hoffset1 in Hfrom, Hto. split; lia.
Qed.

Section BitmapRanges.

Context {T : ExternalTypes} {E : Externals}.

(** X13.  The whole loop of read_bitmap, when every cluster block is
    accepted and has as many bytes as its size says, the cluster size is
    positive and the offsets stay in the range of [off64_t]: the offset
    advances by one cluster size per bit of the payload; the offset of
    cluster [c] of the volume lies in one of the ranges the loop closes if
    and only if bit [c] of the payload is set; and every range lies within
    the clusters of one cluster block, a run of set bits that goes on in the
    next cluster block being closed at the end of the block. *)
Theorem read_bitmap_blocks_ranges :
  forall remaining io vector file_io_handle cache cluster_block_index scan
         error,
    let retrieved :=
      retrieved_blocks remaining vector file_io_handle cache
        cluster_block_index in
    0 < cluster_block_size io ->
    Forall block_accepted retrieved ->
    Forall block_whole retrieved ->
    0 <= bitmap_offset scan ->
    bitmap_offset scan + 8 * payload_size retrieved * cluster_block_size io
      <= INT64_MAX ->
    let scan' :=
      blocks_scan
        (read_bitmap_blocks remaining io vector file_io_handle cache
           cluster_block_index scan error) in
    let offset_of c := bitmap_offset scan + c * cluster_block_size io in
    exists ranges,
      offset_ranges scan' = offset_ranges scan ++ ranges
      /\ bitmap_offset scan' = offset_of (8 * payload_size retrieved)
      /\ (forall c,
            0 <= c < 8 * payload_size retrieved ->
            bitmap_bit (payload_bytes retrieved) c = true
            <-> covered ranges (offset_of c))
      /\ (forall s e,
            In (s, e) ranges ->
            offset_of 0 <= s /\ s < e
            /\ exists before block after,
                 retrieved = before ++ block :: after
                 /\ offset_of (8 * payload_size before) <= s
                 /\ e <= offset_of
                           (8 * (payload_size before + block_size block))).
Proof.
  intros remaining io vector fio cache idx scan error retrieved Hcbs Hall
    Hwhole Hb0 Hmax scan' offset_of.
  destruct (read_bitmap_blocks_accepted_prefix remaining io vector fio cache
              idx scan error)
    as (accepted & rest & Heq & _ & _ & Hscan & Hrest).
  fold retrieved in Heq.
  assert (Hnil : rest = []).
  { destruct rest as [|rejected rest]; [reflexivity|].
    destruct Hrest as (Hnot & _). exfalso. apply Hnot.
    rewrite Heq in Hall. apply Forall_app in Hall. destruct Hall as [_ Hall].
    inversion Hall; assumption. }
  subst rest. rewrite app_nil_r in Heq. subst accepted.
  subst scan'. rewrite Hscan.
  exact (scan_blocks_runs io retrieved scan Hcbs Hwhole Hb0 Hmax).
Qed.

End BitmapRanges.


Section BitmapScanned.

Context {T : ExternalTypes} {E : Externals}.


End BitmapScanned.


(** * The sample volumes again *)

Section SampleVolumesInterface.

Import Sample.

#[local] Existing Instance Sample.types.

Lemma libfsntfs_file_system_initialize_free_witness :
  libfsntfs_file_system_free (E := externals ntfs_volume)
    (Some (Some new_file_system)) []
  = (1, Some None, []).
Proof.
  pose proof (@libfsntfs_file_system_initialize_free types
                (externals ntfs_volume) [] new_file_system [] eq_refl) as H.
  destruct (libfsntfs_file_system_free (E := externals ntfs_volume)
              (Some (Some new_file_system)) [])
    as [[r freed] error2].
  destruct H as (-> & Hr & _ & ->).
  rewrite (proj2 Hr (fun _ => eq_refl)). reflexivity.
Defined.

Lemma libfsntfs_file_system_read_mft_mft_only_bound_witness :
  libfsntfs_file_system_read_mft (E := externals ntfs_volume)
    (Some new_file_system) (Some io_handle) 0 0 2199023255552 1 []
  = (-1, Some (set_mft new_file_system (Some stub_mft)), 1,
     [(LIBCERROR_ERROR_DOMAIN_RUNTIME,
       LIBCERROR_RUNTIME_ERROR_VALUE_OUT_OF_BOUNDS)])
  /\ (fst (fst (fst (libfsntfs_file_system_read_mft
                       (E := externals ntfs_volume) (Some new_file_system)
                       (Some io_handle) 0 0 4096 1 []))) = 1 ->
      4096 / 1024 <= 2147483647).
Proof.
  destruct (@libfsntfs_file_system_read_mft_mft_only_bound types
              (externals ntfs_volume) new_file_system io_handle 0 0
              2199023255552 1 [] stub_mft [] empty_entry [] stub_mft 1
              (file_entry (Some "mft"%string) "$MFT"%string) [])
    as (Habove & _).
  - reflexivity.
  - lia.
  - unfold INT64_MAX; lia.
  - cbn. lia.
  - reflexivity.
  - reflexivity.
  - reflexivity.
  - discriminate.
  - lia.
  - cbn. lia.
  - destruct (@libfsntfs_file_system_read_mft_mft_only_bound types
                (externals ntfs_volume) new_file_system io_handle 0 0 4096 1
                [] stub_mft [] empty_entry [] stub_mft 1
                (file_entry (Some "mft"%string) "$MFT"%string) [])
      as (_ & Hbelow).
    + reflexivity.
    + lia.
    + unfold INT64_MAX; lia.
    + cbn. lia.
    + reflexivity.
    + reflexivity.
    + reflexivity.
    + discriminate.
    + lia.
    + cbn. lia.
    + split; [apply Habove; reflexivity|].
      intros Hr. destruct (Hbelow Hr) as (Hle & _). exact Hle.
Defined.

Lemma libfsntfs_file_system_read_mft_once_witness :
  exists fs',
    facade_after
      (libfsntfs_file_system_read_mft (E := externals corrupt_volume)
         (Some new_file_system) (Some io_handle) 0 0 4096 0 [])
    = Some fs'
    /\ mft fs' <> None
    /\ libfsntfs_file_system_read_mft (E := externals corrupt_volume)
         (Some fs') (Some io_handle) 1 0 4096 0 []
       = (-1, Some fs', 1,
          [(LIBCERROR_ERROR_DOMAIN_RUNTIME,
            LIBCERROR_RUNTIME_ERROR_VALUE_ALREADY_SET)]).
Proof.
  destruct (@libfsntfs_file_system_read_mft_once types
              (externals corrupt_volume) new_file_system io_handle 0 0 4096 0
              [])
    as (fs' & Hafter & Hset & Hagain).
  - reflexivity.
  - lia.
  - unfold INT64_MAX; lia.
  - exists fs'. split; [exact Hafter|]. split; [exact Hset|].
    apply (Hagain (Some io_handle) 1 0 4096 0 []).
Defined.

Lemma libfsntfs_file_system_read_bitmap_missing_witness :
  libfsntfs_file_system_read_bitmap (E := externals corrupt_volume)
    (Some mounted_file_system) (Some io_handle) 1 []
  = (-1, Some mounted_file_system, 2,
     [(LIBCERROR_ERROR_DOMAIN_IO, LIBCERROR_IO_ERROR_READ_FAILED);
      (LIBCERROR_ERROR_DOMAIN_RUNTIME, LIBCERROR_RUNTIME_ERROR_GET_FAILED)])
  /\ libfsntfs_file_system_read_bitmap (E := externals no_bitmap_data_volume)
       (Some mounted_file_system) (Some io_handle) 1 []
     = (-1, Some (mounted 1 None), 2,
        [(LIBCERROR_ERROR_DOMAIN_RUNTIME,
          LIBCERROR_RUNTIME_ERROR_VALUE_MISSING)]).
Proof.
  destruct (@libfsntfs_file_system_read_bitmap_missing types
              (externals corrupt_volume) mounted_file_system io_handle 1 []
              (-1) (Some (mounted_mft 0)) 2 None
              [(LIBCERROR_ERROR_DOMAIN_IO, LIBCERROR_IO_ERROR_READ_FAILED)]
              eq_refl)
    as (Hfailed & _).
  destruct (@libfsntfs_file_system_read_bitmap_missing types
              (externals no_bitmap_data_volume) mounted_file_system io_handle
              1 [] 1 (Some (mounted_mft 1)) 2
              (Some (file_entry None "$Bitmap"%string)) [] eq_refl)
    as (_ & _ & Hno_data).
  split.
  - apply Hfailed. lia.
  - apply (Hno_data eq_refl (file_entry None "$Bitmap"%string) eq_refl
             eq_refl).
Defined.

Lemma libfsntfs_file_system_read_bitmap_empty_witness :
  libfsntfs_file_system_read_bitmap (E := externals legacy_volume)
    (Some mounted_file_system) (Some io_handle) 1 []
  = (1, Some (mounted 1 None), 2, []).
Proof.
  apply (@libfsntfs_file_system_read_bitmap_empty types
           (externals legacy_volume) mounted_file_system io_handle 1 []
           (Some (mounted_mft 1)) 2
           (file_entry (Some "bitmap"%string) "$Bitmap"%string) []
           "bitmap"%string 0 [] 0 [] 0 [] [] []).
  - reflexivity.
  - reflexivity.
  - reflexivity.
  - reflexivity.
  - reflexivity.
  - lia.
  - reflexivity.
  - reflexivity.
Defined.

Lemma libfsntfs_file_system_read_bitmap_success_witness :
  exists m1 file_io_handle1 e raised0,
    libfsntfs_mft_get_mft_entry_by_index
      (Externals := externals ntfs_volume)
      (mft mounted_file_system) 1 LIBFSNTFS_MFT_ENTRY_INDEX_BITMAP
    = (1, m1, file_io_handle1, Some e, raised0)
    /\ data_attribute e <> None
    /\ mounted 1 None = set_mft mounted_file_system m1.
Proof.
  destruct (@libfsntfs_file_system_read_bitmap_success types
              (externals ntfs_volume) mounted_file_system (Some io_handle) 1
              [] (mounted 1 None) 4 [] eq_refl)
    as (io' & m1 & fio1 & e & raised0 & a & vector & raised1 & cache
        & raised2 & n & raised3 & _ & Hget & Hdata & _ & _ & _ & _ & Hfs).
  exists m1, fio1, e, raised0.
  split; [exact Hget|]. split; [|exact Hfs].
  rewrite Hdata. discriminate.
Defined.

Lemma scan_cluster_block_within_size_witness :
  scan_cluster_block io_handle [x0f; x00; x00; xf0; xff] 4
    {| start_offset := 0; bitmap_offset := 0; offset_ranges := [] |}
  = scan_cluster_block io_handle [x0f; x00; x00; xf0; x00; x01] 4
      {| start_offset := 0; bitmap_offset := 0; offset_ranges := [] |}.
Proof.
  apply scan_cluster_block_within_size.
  - reflexivity.
  - intros i Hi.
    assert (Hcases : i = 0 \/ i = 1 \/ i = 2 \/ i = 3) by lia.
    destruct Hcases as [->|[->|[->| ->]]]; reflexivity.
Defined.

Lemma read_bitmap_blocks_ranges_witness :
  exists ranges,
    offset_ranges
      (blocks_scan
         (read_bitmap_blocks (E := externals ntfs_volume) 2 io_handle 2 2 0 0
            {| start_offset := 0; bitmap_offset := 0; offset_ranges := [] |}
            []))
    = [] ++ ranges
    /\ forall c,
         0 <= c < 8 * 12 ->
         bitmap_bit
           [x0f; x00; x00; xf0; xff; x01; x00; x00; x03; x00; x00; x00] c
         = true
         <-> covered ranges (0 + c * 4096).
Proof.
  assert (Haccepted : forall block_data block_data_size,
             block_data_size mod 4 = 0 ->
             block_data_size <= 9223372036854775807 ->
             block_accepted (E := externals ntfs_volume)
               (1, Some {| data := Some block_data;
                           data_size := block_data_size |})).
  { intros block_data block_data_size Hmod Hmax.
    split; [|split; [exact Hmod|exact Hmax]].
    split; [reflexivity|]. eexists. eexists. split; reflexivity. }
  destruct (@read_bitmap_blocks_ranges types (externals ntfs_volume) 2
              io_handle 2 2 0 0
              {| start_offset := 0; bitmap_offset := 0; offset_ranges := [] |}
              [])
    as (ranges & Hranges & _ & Hcover & _).
  - cbn. lia.
  - repeat constructor; apply Haccepted; cbn; lia.
  - repeat constructor.
  - cbn. lia.
  - vm_compute. discriminate.
  - exists ranges. split; [exact Hranges|exact Hcover].
Defined.

Lemma libfsntfs_file_system_read_security_descriptors_success_witness :
  security_descriptor_index mounted_file_system = None
  /\ exists m1 file_io_handle1 e raised0,
       libfsntfs_mft_get_mft_entry_by_index
      (Externals := externals ntfs_volume)
         (mft mounted_file_system) 1 LIBFSNTFS_MFT_ENTRY_INDEX_SECURE
       = (1, m1, file_io_handle1, Some e, raised0)
       /\ mft (mounted 1 (Some [(256, [x01; x00; x04; x80])])) = m1.
Proof.
  destruct (@libfsntfs_file_system_read_security_descriptors_success types
              (externals ntfs_volume) mounted_file_system (Some io_handle) 1
              [] (mounted 1 (Some [(256, [x01; x00; x04; x80])])) 3 []
              eq_refl)
    as (Hnone & m1 & fio1 & e & raised0 & a & raised1 & v0 & raised2 & v1
        & raised3 & compared & raised4 & Hget & _ & _ & _ & _ & _ & _ & Hmft
        & _).
  split; [exact Hnone|].
  exists m1, fio1, e, raised0. split; [exact Hget|exact Hmft].
Defined.

Lemma libfsntfs_file_system_results_reported_witness :
  reported
    (fst (fst (fst (libfsntfs_file_system_read_mft
                      (E := externals ntfs_volume) (Some new_file_system)
                      (Some io_handle) 0 0 4096 1 []))))
    []
    (snd (libfsntfs_file_system_read_mft (E := externals ntfs_volume)
            (Some new_file_system) (Some io_handle) 0 0 4096 1 [])).
Proof.
  destruct (@libfsntfs_file_system_results_reported types
              (externals ntfs_volume) (Some new_file_system) (Some io_handle)
              0 0 4096 1 0 256 [])
    as (Hread_mft & _).
  apply Hread_mft.
  intros h Hh. inversion Hh. cbn. lia.
Defined.



End SampleVolumesInterface.
